(** * The storage layer of note-book: providers, manager, fallback, migration

    A shallow embedding of [src/lib/storage-manager.ts] (the
    [StorageManager] and the [LocalStorage] provider), of the
    [BrowserStorage] provider and of the [WebDAVStorage] provider, with
    the facts of the specification that concern them.

    Modelling conventions.
    - An [async] method is a state-passing computation that either returns
      a value or throws; the state survives a throw, as the side effects of
      a rejected promise do.
    - JavaScript values are untyped ([value]); a TypeScript annotation such
      as [Page] or [Workspace] is a claim about a value, not a constructor.
      Numbers are restricted to integers, and a [Date] is identified with
      its ISO-8601 rendering (what [toISOString] and [toJSON] print).
    - A string holds the UTF-8 encoding of its text, as a string literal of
      this file does: a character beyond U+00FF shows as a byte of 0xC4 or
      more.
    - A JSON text is represented by the document it denotes ([Doc]), or is
      not JSON at all ([Garbage]); [JSON.parse] after [JSON.stringify] is
      the identity on documents, so white space and pretty-printing are
      not modelled.
    - The backing media (the localforage store, the directory granted by
      the directory picker, the WebDAV server) are components of [World].
      The directory checks file names as the File System Access API does
      on a platform whose path separator is [/]; the server creates and
      requires collections as RFC 4918 prescribes. [console] output is not
      modelled. *)

From Stdlib Require Import ZArith String Ascii Bool.
From stdpp Require Import base option list strings pretty gmap fin_maps.

#[local] Set Warnings "-register-all".
Local Open Scope string_scope.
Local Open Scope Z_scope.

(** ** JavaScript values and JSON documents *)

Inductive value : Type :=
| VUndef
| VNull
| VBool (b : bool)
| VNum (n : Z)
| VStr (s : string)
| VDate (iso : string)
| VArr (items : list value)
| VObj (fields : list (string * value)).

Inductive json : Type :=
| JNull
| JBool (b : bool)
| JNum (n : Z)
| JStr (s : string)
| JArr (items : list json)
| JObj (members : list (string * json)).

(** What a [string] of the program holds when it is handed to
    [JSON.parse]: a JSON document, or something that is not JSON. *)
Inductive text : Type :=
| Doc (j : json)
| Garbage (raw : string).

(** Own properties of an object, in insertion order. *)
Fixpoint assoc {A : Type} (k : string) (l : list (string * A)) : option A :=
  match l with
  | [] => None
  | (k', v) :: r => if String.eqb k k' then Some v else assoc k r
  end.

(** [obj[k] = v]: an existing property keeps its place, a new one is
    appended. *)
Fixpoint assoc_set {A : Type} (k : string) (v : A) (l : list (string * A))
  : list (string * A) :=
  match l with
  | [] => [(k, v)]
  | (k', v') :: r =>
      if String.eqb k k' then (k, v) :: r else (k', v') :: assoc_set k v r
  end.

(** The value mapping of [JSON.stringify]: a [Date] prints through
    [toJSON], an [undefined] property is left out, an [undefined] array
    item prints as [null]. *)
Fixpoint json_of (v : value) : json :=
  match v with
  | VUndef => JNull
  | VNull => JNull
  | VBool b => JBool b
  | VNum n => JNum n
  | VStr s => JStr s
  | VDate iso => JStr iso
  | VArr items => JArr (List.map json_of items)
  | VObj fields =>
      JObj ((fix members (fs : list (string * value)) : list (string * json) :=
               match fs with
               | [] => []
               | (k, VUndef) :: r => members r
               | (k, x) :: r => (k, json_of x) :: members r
               end) fields)
  end.

(** The value that [JSON.parse] builds from a document. *)
Fixpoint value_of (j : json) : value :=
  match j with
  | JNull => VNull
  | JBool b => VBool b
  | JNum n => VNum n
  | JStr s => VStr s
  | JArr items => VArr (List.map value_of items)
  | JObj members =>
      VObj ((fix fields (ms : list (string * json)) : list (string * value) :=
               match ms with
               | [] => []
               | (k, x) :: r => (k, value_of x) :: fields r
               end) members)
  end.

Definition JSON_stringify (v : value) : text := Doc (json_of v).

(** [JSON.parse(JSON.stringify(v))]. *)
Definition json_image (v : value) : value := value_of (json_of v).

Definition truthy (v : value) : bool :=
  match v with
  | VUndef | VNull => false
  | VBool b => b
  | VNum n => negb (n =? 0)
  | VStr s => negb (String.eqb s "")
  | VDate _ | VArr _ | VObj _ => true
  end.

(** [a === b]. Objects, arrays and dates compare by identity; the values
    compared by the program come from different allocations, so they are
    never identical. *)
Definition strict_eq (a b : value) : bool :=
  match a, b with
  | VUndef, VUndef => true
  | VNull, VNull => true
  | VBool x, VBool y => Bool.eqb x y
  | VNum x, VNum y => x =? y
  | VStr x, VStr y => String.eqb x y
  | _, _ => false
  end.

(** [s] without the zeros that begin it. *)
Fixpoint drop_zeros (s : string) : string :=
  match s with
  | String c r => if Ascii.eqb c "0" then drop_zeros r else s
  | EmptyString => EmptyString
  end.

(** [String(n)] for an integer: all its digits below 10^21 in absolute
    value, and from there on the exponent form [d.ddde+x], without the
    zeros that end the digits. The rounding of an integer that a double
    does not hold is not modelled. *)
Definition number_to_string (n : Z) : string :=
  if Z.abs n <? 10 ^ 21 then pretty n
  else
    match pretty (Z.abs n) with
    | String d rest =>
        let fraction := String.rev (drop_zeros (String.rev rest)) in
        (if n <? 0 then "-" else "")
          +:+ String d (if String.eqb fraction "" then "" else "." +:+ fraction)
          +:+ "e+" +:+ pretty (Z.of_nat (String.length rest))
    | EmptyString => EmptyString
    end.

(** Template-literal conversion [`${v}`]. The locale rendering of a [Date]
    is not modelled: its ISO form stands for it. *)
Fixpoint to_string (v : value) : string :=
  match v with
  | VUndef => "undefined"
  | VNull => "null"
  | VBool true => "true"
  | VBool false => "false"
  | VNum n => number_to_string n
  | VStr s => s
  | VDate iso => iso
  | VArr items =>
      (fix join (l : list value) : string :=
         match l with
         | [] => ""
         | [x] => match x with VUndef | VNull => "" | _ => to_string x end
         | x :: r =>
             (match x with VUndef | VNull => "" | _ => to_string x end)
               +:+ "," +:+ join r
         end) items
  | VObj _ => "[object Object]"
  end.


(** ** Errors and computations *)

Record error : Type := mkError { name : string; message : string }.

(** [new Error(msg)]. *)
Definition Error (msg : string) : error := mkError "Error" msg.
Definition TypeError (msg : string) : error := mkError "TypeError" msg.
Definition SyntaxError (msg : string) : error := mkError "SyntaxError" msg.
(** A [DOMException] with the given name. *)
Definition DOMException (n msg : string) : error := mkError n msg.

(** [`${error}`] for an [Error] object. *)
Definition error_to_string (e : error) : string :=
  name e +:+ ": " +:+ message e.

Inductive Res (A : Type) : Type :=
| Ok (a : A)
| Throw (e : error).
Arguments Ok {A} a.
Arguments Throw {A} e.

Definition Task (S A : Type) : Type := S -> Res A * S.

Definition ret {S A} (a : A) : Task S A := fun s => (Ok a, s).
Definition throw {S A} (e : error) : Task S A := fun s => (Throw e, s).
Definition bind {S A B} (c : Task S A) (k : A -> Task S B) : Task S B :=
  fun s => match c s with
           | (Ok a, s') => k a s'
           | (Throw e, s') => (Throw e, s')
           end.
(** [try { c } catch (error) { h error }]. *)
Definition try_catch {S A} (c : Task S A) (h : error -> Task S A) : Task S A :=
  fun s => match c s with
           | (Ok a, s') => (Ok a, s')
           | (Throw e, s') => h e s'
           end.
Definition gets {S A} (f : S -> A) : Task S A := fun s => (Ok (f s), s).
Definition modify {S} (f : S -> S) : Task S unit := fun s => (Ok tt, f s).
(** A synchronous step that can throw. *)
Definition lift_res {S A} (r : Res A) : Task S A := fun s => (r, s).

Declare Scope task_scope.
Delimit Scope task_scope with task.
Notation "x <- c ;; k" := (bind c (fun x => k))
  (at level 100, c at next level, right associativity) : task_scope.
Notation "c ;; k" := (bind c (fun _ => k))
  (at level 100, right associativity) : task_scope.
Local Open Scope task_scope.

(** [array.push(x)]. *)
Definition push {A : Type} (l : list A) (x : A) : list A := (l ++ [x])%list.

(** [for (const x of l) { body x }]. *)
Fixpoint for_each {S A} (l : list A) (body : A -> Task S unit) : Task S unit :=
  match l with
  | [] => ret tt
  | x :: r => body x ;; for_each r body
  end.

(** A loop that pushes onto an accumulator array. *)
Fixpoint for_fold {S A B} (l : list A) (acc : B) (body : B -> A -> Task S B)
  : Task S B :=
  match l with
  | [] => ret acc
  | x :: r => acc' <- body acc x ;; for_fold r acc' body
  end.

(** [v.k]: reading a property of [undefined] or [null] throws; a value
    that is not an object has none of the properties the program reads. *)
Definition get_prop (k : string) (v : value) : Res value :=
  match v with
  | VUndef | VNull =>
      Throw (TypeError ("Cannot read properties of " +:+ to_string v
                          +:+ " (reading '" +:+ k +:+ "')"))
  | VObj fields => Ok (default VUndef (assoc k fields))
  | _ => Ok VUndef
  end.

(** A byte that continues the encoding of a character. *)
Definition continuation (c : ascii) : bool :=
  ((128 <=? N_of_ascii c) && (N_of_ascii c <? 192))%N.

(** The characters of a string: a byte and the continuation bytes that
    follow it. *)
Fixpoint characters (s : string) : list string :=
  match s with
  | EmptyString => []
  | String c r =>
      match characters r with
      | String c' t :: rest =>
          if continuation c' then String c (String c' t) :: rest
          else String c EmptyString :: String c' t :: rest
      | l => String c EmptyString :: l
      end
  end.

(** The characters of a string, each a one-character string. *)
Definition chars (s : string) : list value := VStr <$> characters s.

(** The items that [for (const x of v)] visits. *)
Definition iterate (v : value) : Res (list value) :=
  match v with
  | VArr items => Ok items
  | VStr s => Ok (chars s)
  | _ => Throw (TypeError (to_string v +:+ " is not iterable"))
  end.

(** [Object.entries(v)]. The engine's reordering of integer-like keys of an
    object is not modelled, nor are the two entries that a string has for a
    character beyond U+FFFF. *)
Definition Object_entries (v : value) : Res (list (string * value)) :=
  match v with
  | VUndef | VNull =>
      Throw (TypeError "Cannot convert undefined or null to object")
  | VObj fields => Ok fields
  | VArr items => Ok (imap (fun i x => (pretty i, x)) items)
  | VStr s => Ok (imap (fun i x => (pretty i, x)) (chars s))
  | _ => Ok []
  end.

(** [{...v}]: the own properties that a spread copies. Exact for objects
    and for values without own properties; arrays and strings, which would
    contribute their indices, are never spread by the program's callers. *)
Definition spread (v : value) : list (string * value) :=
  match v with
  | VObj fields => fields
  | _ => []
  end.

Definition JSON_parse {S} (t : text) : Task S value :=
  match t with
  | Doc j => ret (value_of j)
  | Garbage raw => throw (SyntaxError "Unexpected token in JSON")
  end.

(** ** Strings of the platform *)

(** [s.includes('/')]. *)
Fixpoint has_slash (s : string) : bool :=
  match s with
  | EmptyString => false
  | String c r => Ascii.eqb c "/" || has_slash r
  end.

(** [s.replace(/\/$/, '')]: [s] without the slash that ends it. *)
Fixpoint without_final_slash (s : string) : string :=
  match s with
  | EmptyString => EmptyString
  | String c EmptyString => if Ascii.eqb c "/" then EmptyString else s
  | String c r => String c (without_final_slash r)
  end.

(** The part of a path up to and with its last slash. *)
Fixpoint dirname (s : string) : string :=
  match s with
  | EmptyString => EmptyString
  | String c r => if has_slash s then String c (dirname r) else EmptyString
  end.

(** Every character of the string lies in U+0000..U+00FF: no byte of its
    encoding is 0xC4 or more. *)
Fixpoint latin1 (s : string) : bool :=
  match s with
  | EmptyString => true
  | String c r => (N_of_ascii c <? 196)%N && latin1 r
  end.

(** The code units of a string of Latin-1 characters. *)
Fixpoint code_units (s : string) : list N :=
  match s with
  | EmptyString => []
  | String c r =>
      if (N_of_ascii c <? 128)%N then N_of_ascii c :: code_units r
      else
        match r with
        | String c' r' =>
            ((N_of_ascii c - 192) * 64 + (N_of_ascii c' - 128))%N :: code_units r'
        | EmptyString => [N_of_ascii c]
        end
  end.

Definition base64_digit (n : N) : ascii :=
  (if n <? 26 then ascii_of_N (65 + n)
   else if n <? 52 then ascii_of_N (97 + (n - 26))
   else if n <? 62 then ascii_of_N (48 + (n - 52))
   else if n =? 62 then "+"%char else "/"%char)%N.

Fixpoint base64 (l : list N) : string :=
  match l with
  | a :: b :: c :: r =>
      String (base64_digit (a / 4))
        (String (base64_digit ((a mod 4) * 16 + b / 16))
           (String (base64_digit ((b mod 16) * 4 + c / 64))
              (String (base64_digit (c mod 64)) (base64 r))))%N
  | [a; b] =>
      String (base64_digit (a / 4))
        (String (base64_digit ((a mod 4) * 16 + b / 16))
           (String (base64_digit ((b mod 16) * 4)) "="))%N
  | [a] =>
      String (base64_digit (a / 4))
        (String (base64_digit ((a mod 4) * 16)) "==")%N
  | [] => EmptyString
  end.

Definition InvalidCharacterError : error :=
  DOMException "InvalidCharacterError"
    "Failed to execute 'btoa' on 'Window': The string to be encoded contains characters outside of the Latin1 range.".

(** [btoa(s)]: throws when [s] has a character beyond U+00FF. *)
Definition btoa (s : string) : Res string :=
  if latin1 s then Ok (base64 (code_units s)) else Throw InvalidCharacterError.

(** ** The world outside the program *)

(** A [LocalStorage] object: its two fields. The directory handle, once
    acquired, designates the one directory the user grants. *)
Record LocalStorageObj : Type := mkLocal {
  basePath : string;
  directoryHandle : option unit
}.

Record WebDAVConfig : Type := mkWebDAVConfig {
  url : string;
  username : string;
  password : string;
  enabled : bool
}.

Record World : Type := mkWorld {
  (** localforage store [workspace_data] of database [note-taking-app]:
      whether a driver is usable, and the stored items. Every
      [BrowserStorage] object opens this same store. *)
  idb_up : bool;
  idb : gmap string value;
  (** File System Access: whether [window.showDirectoryPicker] exists,
      whether the user grants a directory when asked, whether the grant
      includes writing, and the files of the granted directory. *)
  fs_api : bool;
  picker_grant : bool;
  dir_writable : bool;
  dir : gmap string text;
  (** The [LocalStorage] objects allocated so far, by address. *)
  locals : list LocalStorageObj;
  (** The WebDAV server: whether it can be reached, and what it holds by
      path. A path that ends in [/] stands for a collection that [MKCOL]
      made; a collection exists when the server holds it or something
      under it. *)
  dav_up : bool;
  dav : gmap string text;
  (** [new Date().toISOString()]. *)
  now : string
}.

Definition set_idb (f : gmap string value -> gmap string value) (w : World) : World :=
  mkWorld (idb_up w) (f (idb w)) (fs_api w) (picker_grant w) (dir_writable w)
          (dir w) (locals w) (dav_up w) (dav w) (now w).
Definition set_dir (f : gmap string text -> gmap string text) (w : World) : World :=
  mkWorld (idb_up w) (idb w) (fs_api w) (picker_grant w) (dir_writable w)
          (f (dir w)) (locals w) (dav_up w) (dav w) (now w).
Definition set_locals (f : list LocalStorageObj -> list LocalStorageObj) (w : World) : World :=
  mkWorld (idb_up w) (idb w) (fs_api w) (picker_grant w) (dir_writable w)
          (dir w) (f (locals w)) (dav_up w) (dav w) (now w).
Definition set_dav (f : gmap string text -> gmap string text) (w : World) : World :=
  mkWorld (idb_up w) (idb w) (fs_api w) (picker_grant w) (dir_writable w)
          (dir w) (locals w) (dav_up w) (f (dav w)) (now w).

(** ** localforage *)

Module localforage.

Definition no_driver : error := Error "No available storage method found.".

(** Every call first waits for a driver. *)
Definition ready : Task World unit :=
  fun w => if idb_up w then (Ok tt, w) else (Throw no_driver, w).

(** [setItem] stores a structured clone; [undefined] is stored as
    [null]. *)
Definition setItem (key : string) (v : value) : Task World value :=
  ready ;;
  let stored := match v with VUndef => VNull | _ => v end in
  modify (set_idb (fun m => <[key := stored]> m)) ;;
  ret stored.

(** [getItem] answers [null] for a key that is not stored. *)
Definition getItem (key : string) : Task World value :=
  ready ;;
  gets (fun w => default VNull (idb w !! key)).

Definition removeItem (key : string) : Task World unit :=
  ready ;;
  modify (set_idb (fun m => delete key m)).

Definition keys : Task World (list string) :=
  ready ;;
  gets (fun w => (map_to_list (idb w)).*1).

Definition clear : Task World unit :=
  ready ;;
  modify (set_idb (fun _ => ∅)).

End localforage.

(** ** BrowserStorage *)

Module BrowserStorage.

Definition isAvailable : Task World bool :=
  try_catch (localforage.ready ;; ret true) (fun _ => ret false).

Definition testConnection : Task World bool := isAvailable.

Definition saveWorkspace (workspace : value) : Task World unit :=
  try_catch
    (id <- lift_res (get_prop "id" workspace) ;;
     localforage.setItem ("workspace_" +:+ to_string id) workspace ;;
     ret tt)
    (fun error =>
       throw (Error ("Failed to save workspace: " +:+ error_to_string error))).

Definition getWorkspace (workspaceId : string) : Task World value :=
  try_catch
    (localforage.getItem ("workspace_" +:+ workspaceId))
    (fun _ => ret VNull).

Definition savePage (page : value) : Task World unit :=
  try_catch
    (id <- lift_res (get_prop "id" page) ;;
     localforage.setItem ("page_" +:+ to_string id) page ;;
     ret tt)
    (fun error =>
       throw (Error ("Failed to save page: " +:+ error_to_string error))).

Definition getPage (pageId : string) : Task World value :=
  try_catch
    (localforage.getItem ("page_" +:+ pageId))
    (fun _ => ret VNull).

Definition deletePage (pageId : string) : Task World unit :=
  try_catch
    (localforage.removeItem ("page_" +:+ pageId))
    (fun error =>
       throw (Error ("Failed to delete page: " +:+ error_to_string error))).

Definition getAllWorkspaces : Task World (list value) :=
  try_catch
    (keys <- localforage.keys ;;
     let workspaceKeys := List.filter (String.prefix "workspace_") keys in
     for_fold workspaceKeys []
       (fun workspaces key =>
          workspace <- localforage.getItem key ;;
          ret (if truthy workspace then push workspaces workspace
               else workspaces)))
    (fun _ => ret []).

Definition clearAll : Task World unit :=
  try_catch
    localforage.clear
    (fun error =>
       throw (Error ("Failed to clear storage: " +:+ error_to_string error))).

Definition exportData : Task World text :=
  try_catch
    (keys <- localforage.keys ;;
     data <- for_fold keys []
               (fun data key =>
                  item <- localforage.getItem key ;;
                  ret (assoc_set key item data)) ;;
     ret (JSON_stringify (VObj data)))
    (fun error =>
       throw (Error ("Failed to export data: " +:+ error_to_string error))).

Definition importData (jsonData : text) : Task World unit :=
  try_catch
    (data <- JSON_parse jsonData ;;
     clearAll ;;
     entries <- lift_res (Object_entries data) ;;
     for_each entries
       (fun kv => localforage.setItem (fst kv) (snd kv) ;; ret tt))
    (fun error =>
       throw (Error ("Failed to import data: " +:+ error_to_string error))).

End BrowserStorage.

(** [s.endsWith(suffix)]: [s] is [suffix], or its tail ends with it. *)
Fixpoint endsWith (s suffix : string) : bool :=
  String.eqb s suffix
  || match s with
     | EmptyString => false
     | String _ r => endsWith r suffix
     end.

(** ** The granted directory (File System Access API) *)

Module FileSystem.

Definition NotFoundError : error :=
  DOMException "NotFoundError"
    "A requested file or directory could not be found at the time an operation was processed.".
Definition NotAllowedError : error :=
  DOMException "NotAllowedError"
    "The request is not allowed by the user agent or the platform in the current context.".
Definition AbortError : error :=
  DOMException "AbortError" "The user aborted a request.".

Definition showDirectoryPicker : Task World unit :=
  fun w =>
    if negb (fs_api w) then
      (Throw (TypeError "window.showDirectoryPicker is not a function"), w)
    else if negb (picker_grant w) then (Throw AbortError, w)
    else (Ok tt, w).

(** A valid file name of the File System standard: not empty, not [.] or
    [..], and without the path separator, which is taken to be [/]. What
    a platform refuses beyond that is not modelled. *)
Definition valid_name (name : string) : bool :=
  negb (String.eqb name "") && negb (String.eqb name ".")
  && negb (String.eqb name "..") && negb (has_slash name).

(** What the method of the directory handle throws for a name that is
    not valid. *)
Definition invalid_name (method : string) : error :=
  TypeError ("Failed to execute '" +:+ method
             +:+ "' on 'FileSystemDirectoryHandle': Name is not allowed.").

(** [directoryHandle.getFileHandle(fileName, { create })]: the name is
    checked first; creating needs the write grant and leaves an empty file
    when there was none. *)
Definition getFileHandle (fileName : string) (create : bool) : Task World string :=
  fun w =>
    if negb (valid_name fileName) then (Throw (invalid_name "getFileHandle"), w)
    else if create then
      if dir_writable w then
        match dir w !! fileName with
        | Some _ => (Ok fileName, w)
        | None => (Ok fileName, set_dir (fun d => <[fileName := Garbage ""]> d) w)
        end
      else (Throw NotAllowedError, w)
    else
      match dir w !! fileName with
      | Some _ => (Ok fileName, w)
      | None => (Throw NotFoundError, w)
      end.

(** [createWritable], [write], [close]. *)
Definition write (fileHandle : string) (contents : text) : Task World unit :=
  fun w =>
    if dir_writable w then
      (Ok tt, set_dir (fun d => <[fileHandle := contents]> d) w)
    else (Throw NotAllowedError, w).

(** [getFile], [text]. *)
Definition read (fileHandle : string) : Task World text :=
  fun w =>
    match dir w !! fileHandle with
    | Some t => (Ok t, w)
    | None => (Throw NotFoundError, w)
    end.

(** [directoryHandle.removeEntry(fileName)]: the name is checked first,
    then the write grant, then that the entry exists. *)
Definition removeEntry (fileName : string) : Task World unit :=
  fun w =>
    if negb (valid_name fileName) then (Throw (invalid_name "removeEntry"), w)
    else if dir_writable w then
      match dir w !! fileName with
      | Some _ => (Ok tt, set_dir (fun d => delete fileName d) w)
      | None => (Throw NotFoundError, w)
      end
    else (Throw NotAllowedError, w).

(** The names that [directoryHandle.entries()] yields; every entry is a
    file. *)
Definition entries : Task World (list string) :=
  gets (fun w => (map_to_list (dir w)).*1).

End FileSystem.

(** ** LocalStorage *)

Module LocalStorage.

(** [new LocalStorage(basePath)]: a fresh object without a handle. *)
Definition new (basePath : string) : Task World nat :=
  fun w => (Ok (length (locals w)),
            set_locals (fun l => push l (mkLocal basePath None)) w).

Definition isAvailable (this : nat) : Task World bool :=
  gets fs_api.

(** [if (!this.directoryHandle) this.directoryHandle = await
    window.showDirectoryPicker()]. *)
Definition ensureDirectoryHandle (this : nat) : Task World unit :=
  h <- gets (fun w => locals w !! this ≫= directoryHandle) ;;
  match h with
  | Some d => ret d
  | None =>
      d <- FileSystem.showDirectoryPicker ;;
      modify (set_locals
                (alter (fun o => mkLocal (basePath o) (Some d)) this)) ;;
      ret d
  end.

Definition testConnection (this : nat) : Task World bool :=
  available <- isAvailable this ;;
  if negb available then ret false
  else
    try_catch
      (ensureDirectoryHandle this ;;
       testFileHandle <- FileSystem.getFileHandle "test-connection.json" true ;;
       FileSystem.removeEntry testFileHandle ;;
       ret true)
      (fun _ => ret false).

Definition saveWorkspace (this : nat) (workspace : value) : Task World unit :=
  ensureDirectoryHandle this ;;
  id <- lift_res (get_prop "id" workspace) ;;
  let fileName := "workspace-" +:+ to_string id +:+ ".json" in
  try_catch
    (fileHandle <- FileSystem.getFileHandle fileName true ;;
     FileSystem.write fileHandle (JSON_stringify workspace))
    (fun error => throw (Error ("Failed to save workspace: " +:+ message error))).

Definition getWorkspace (this : nat) (workspaceId : string) : Task World value :=
  ensureDirectoryHandle this ;;
  let fileName := "workspace-" +:+ workspaceId +:+ ".json" in
  try_catch
    (fileHandle <- FileSystem.getFileHandle fileName false ;;
     text <- FileSystem.read fileHandle ;;
     JSON_parse text)
    (fun error =>
       if String.eqb (name error) "NotFoundError" then ret VNull
       else throw (Error ("Failed to get workspace: " +:+ message error))).

Definition savePage (this : nat) (page : value) : Task World unit :=
  ensureDirectoryHandle this ;;
  id <- lift_res (get_prop "id" page) ;;
  let fileName := "page-" +:+ to_string id +:+ ".json" in
  try_catch
    (fileHandle <- FileSystem.getFileHandle fileName true ;;
     FileSystem.write fileHandle (JSON_stringify page))
    (fun error => throw (Error ("Failed to save page: " +:+ message error))).

Definition getPage (this : nat) (pageId : string) : Task World value :=
  ensureDirectoryHandle this ;;
  let fileName := "page-" +:+ pageId +:+ ".json" in
  try_catch
    (fileHandle <- FileSystem.getFileHandle fileName false ;;
     text <- FileSystem.read fileHandle ;;
     JSON_parse text)
    (fun error =>
       if String.eqb (name error) "NotFoundError" then ret VNull
       else throw (Error ("Failed to get page: " +:+ message error))).

Definition deletePage (this : nat) (pageId : string) : Task World unit :=
  ensureDirectoryHandle this ;;
  let fileName := "page-" +:+ pageId +:+ ".json" in
  try_catch
    (FileSystem.removeEntry fileName)
    (fun error =>
       if String.eqb (name error) "NotFoundError" then ret tt
       else throw (Error ("Failed to delete page: " +:+ message error))).

Definition getAllWorkspaces (this : nat) : Task World (list value) :=
  ensureDirectoryHandle this ;;
  try_catch
    (names <- FileSystem.entries ;;
     for_fold names []
       (fun workspaces name =>
          if String.prefix "workspace-" name && endsWith name ".json" then
            text <- FileSystem.read name ;;
            workspace <- JSON_parse text ;;
            ret (push workspaces workspace)
          else ret workspaces))
    (fun error => throw (Error ("Failed to get workspaces: " +:+ message error))).

Definition clearAll (this : nat) : Task World unit :=
  ensureDirectoryHandle this ;;
  try_catch
    (names <- FileSystem.entries ;;
     for_each names
       (fun name =>
          if (String.prefix "workspace-" name || String.prefix "page-" name)
             && endsWith name ".json"
          then FileSystem.removeEntry name
          else ret tt))
    (fun error => throw (Error ("Failed to clear all data: " +:+ message error))).

Definition exportData (this : nat) : Task World text :=
  workspaces <- getAllWorkspaces this ;;
  ensureDirectoryHandle this ;;
  allPages <-
    try_catch
      (names <- FileSystem.entries ;;
       for_fold names []
         (fun allPages name =>
            if String.prefix "page-" name && endsWith name ".json" then
              text <- FileSystem.read name ;;
              page <- JSON_parse text ;;
              ret (push allPages page)
            else ret allPages))
      (fun error => throw (Error ("Failed to export data: " +:+ message error))) ;;
  exportDate <- gets now ;;
  ret (JSON_stringify
         (VObj [("workspaces", VArr workspaces);
                ("pages", VArr allPages);
                ("exportDate", VStr exportDate)])).

Definition importData (this : nat) (jsonData : text) : Task World unit :=
  try_catch
    (data <- JSON_parse jsonData ;;
     workspaces <- lift_res (get_prop "workspaces" data) ;;
     (if truthy workspaces then
        items <- lift_res (iterate workspaces) ;;
        for_each items (saveWorkspace this)
      else ret tt) ;;
     pages <- lift_res (get_prop "pages" data) ;;
     if truthy pages then
       items <- lift_res (iterate pages) ;;
       for_each items (savePage this)
     else ret tt)
    (fun error => throw (Error ("Failed to import data: " +:+ message error))).

End LocalStorage.

(** ** The WebDAV server *)

Module Http.

Inductive method : Type := GET | PUT | DELETE | PROPFIND | MKCOL.

Record Response : Type := mkResponse { status : Z; body : text }.

(** What the server holds at the path of a collection that [MKCOL] made. *)
Definition collection : text := Garbage "".

(** A collection's path ends in [/]. *)
Definition as_collection (path : string) : string :=
  if endsWith path "/" then path else path +:+ "/".

(** The collection that a path lies in. *)
Definition parent (path : string) : string := dirname (without_final_slash path).

(** The root is a collection, and so is every path ending in [/] that the
    server holds or holds something under. *)
Definition has_collection (d : gmap string text) (path : string) : bool :=
  endsWith path "/"
  && (String.eqb path "/" || existsb (String.prefix path) (map_to_list d).*1).

(** [PUT] at the path is accepted: the path is not that of a collection,
    and the collection it lies in exists. *)
Definition writable (d : gmap string text) (path : string) : bool :=
  negb (endsWith path "/") && has_collection d (parent path).

(** Nothing is at the path, as a collection or as a resource. *)
Definition unmapped (d : gmap string text) (path : string) : bool :=
  negb (has_collection d (as_collection path))
  && negb (bool_decide (is_Some (d !! without_final_slash path))).

(** [MKCOL] at the path is accepted: nothing is there, and the collection
    it lies in exists. *)
Definition creatable (d : gmap string text) (path : string) : bool :=
  unmapped d path && has_collection d (parent path).

(** What the server holds after a [MKCOL] at the path. *)
Definition mkcol (path : string) (d : gmap string text) : gmap string text :=
  if creatable d path then <[as_collection path := collection]> d else d.

(** [fetch(base + path, { method, headers: { Authorization }, body })]
    against the one server of the world, which is the one at [base] and
    answers whatever the credentials. The server follows RFC 4918 where it
    has no choice: [PUT] into a collection that does not exist is answered
    409 and so is [MKCOL] into one, [MKCOL] where something is already is
    answered 405, and [DELETE] of a path ending in [/] removes what lies
    under it. The server makes no collection of its own, and one that
    [MKCOL] did not make goes with the last thing under it. Bodies are
    delivered as text, under a content type other than
    [application/json], so that [makeRequest] reads them with
    [response.text()]. A server that cannot be reached makes [fetch]
    reject. *)
Definition fetch (m : method) (base path authorization : string)
    (payload : option text) : Task World Response :=
  fun w =>
    if negb (dav_up w) then (Throw (TypeError "Failed to fetch"), w)
    else
      match m with
      | GET =>
          match dav w !! path with
          | Some t => (Ok (mkResponse 200 t), w)
          | None => (Ok (mkResponse 404 (Garbage "Not Found")), w)
          end
      | PUT =>
          if endsWith path "/" then
            (Ok (mkResponse 405 (Garbage "Method Not Allowed")), w)
          else if has_collection (dav w) (parent path) then
            (Ok (mkResponse (match dav w !! path with Some _ => 204 | None => 201 end)
                            (Garbage "")),
             set_dav (fun d => <[path := default (Garbage "") payload]> d) w)
          else (Ok (mkResponse 409 (Garbage "Conflict")), w)
      | DELETE =>
          if endsWith path "/" then
            if existsb (String.prefix path) (map_to_list (dav w)).*1 then
              (Ok (mkResponse 204 (Garbage "")),
               set_dav (filter (fun kv => String.prefix path kv.1 = false)) w)
            else (Ok (mkResponse 404 (Garbage "Not Found")), w)
          else
            match dav w !! path with
            | Some _ =>
                (Ok (mkResponse 204 (Garbage "")),
                 set_dav (fun d => delete path d) w)
            | None => (Ok (mkResponse 404 (Garbage "Not Found")), w)
            end
      | PROPFIND => (Ok (mkResponse 207 (Garbage "<D:multistatus/>")), w)
      | MKCOL =>
          if creatable (dav w) path then
            (Ok (mkResponse 201 (Garbage "")), set_dav (mkcol path) w)
          else if unmapped (dav w) path then
            (Ok (mkResponse 409 (Garbage "Conflict")), w)
          else (Ok (mkResponse 405 (Garbage "Method Not Allowed")), w)
      end.

End Http.

(** ** WebDAVStorage *)

Module WebDAVStorage.

Record WebDAVResponse : Type := mkWebDAVResponse {
  ok : bool;
  status : Z;
  data : option text;
  error : option string
}.

(** [response.ok]: a status in the range 200-299. *)
Definition status_ok (s : Z) : bool := (200 <=? s) && (s <=? 299).

(** The credentials can go into a header: [btoa] accepts them. *)
Definition encodable (config : WebDAVConfig) : bool :=
  latin1 (username config +:+ ":" +:+ password config).

(** [makeRequest]: the URL is the configured base URL, less the slash
    that ends it, followed by [path]; the credentials are encoded for the
    [Authorization] header, and [btoa] throws before the [try] is entered.
    What [fetch] throws is turned into a response of status 0. *)
Definition makeRequest (config : WebDAVConfig) (path : string)
    (m : Http.method) (payload : option text) : Task World WebDAVResponse :=
  let base := without_final_slash (url config) in
  auth <- lift_res (btoa (username config +:+ ":" +:+ password config)) ;;
  try_catch
    (response <- Http.fetch m base path ("Basic " +:+ auth) payload ;;
     ret (mkWebDAVResponse (status_ok (Http.status response))
                           (Http.status response)
                           (Some (Http.body response)) None))
    (fun error => ret (mkWebDAVResponse false 0 None (Some (message error)))).

(** [response.error || 'Unknown error']. *)
Definition error_or_unknown (response : WebDAVResponse) : string :=
  match error response with
  | Some e => if String.eqb e "" then "Unknown error" else e
  | None => "Unknown error"
  end.

(** [typeof response.data === 'string' ? JSON.parse(response.data) :
    response.data]. The server delivers bodies as text, so a response
    that has data takes the first branch. Under a JSON content type,
    which is not modelled, the source parses in [response.json()]
    instead: to the same value for every document that is not a bare JSON
    string, and with a response of status 0 for a body that is not
    JSON. *)
Definition parse_data (response : WebDAVResponse) : Task World value :=
  match data response with
  | Some t => JSON_parse t
  | None => ret VUndef
  end.

Definition testConnection (config : WebDAVConfig) : Task World bool :=
  try_catch
    (response <- makeRequest config "/" Http.PROPFIND None ;;
     ret (ok response))
    (fun _ => ret false).

Definition isAvailable (config : WebDAVConfig) : Task World bool :=
  testConnection config.

Definition workspace_path (workspaceId : string) : string :=
  "/workspace-" +:+ workspaceId +:+ ".json".

Definition saveWorkspace (config : WebDAVConfig) (workspace : value)
  : Task World unit :=
  id <- lift_res (get_prop "id" workspace) ;;
  name <- lift_res (get_prop "name" workspace) ;;
  pages <- lift_res (get_prop "pages" workspace) ;;
  currentPageId <- lift_res (get_prop "currentPageId" workspace) ;;
  lastSync <- gets now ;;
  let workspaceData :=
    VObj [("id", id); ("name", name); ("pages", pages);
          ("currentPageId", currentPageId); ("lastSync", VStr lastSync)] in
  response <- makeRequest config (workspace_path (to_string id))
                Http.PUT (Some (JSON_stringify workspaceData)) ;;
  if negb (ok response) then
    throw (Error ("Failed to save workspace: " +:+ error_or_unknown response))
  else ret tt.

Definition getWorkspace (config : WebDAVConfig) (workspaceId : string)
  : Task World value :=
  response <- makeRequest config (workspace_path workspaceId)
                Http.GET None ;;
  if negb (ok response) then
    if status response =? 404 then ret VNull
    else throw (Error ("Failed to get workspace: " +:+ error_or_unknown response))
  else parse_data response.

Definition commonWorkspaceIds : list string := ["default"; "main"; "primary"].

Definition getAllWorkspaces (config : WebDAVConfig) : Task World (list value) :=
  response <- makeRequest config "/" Http.PROPFIND
                (Some (Garbage "<D:propfind xmlns:D='DAV:'><D:prop><D:displayname/><D:getlastmodified/><D:getcontentlength/><D:resourcetype/></D:prop></D:propfind>")) ;;
  if negb (ok response) then
    throw (Error ("Failed to list files: " +:+ error_or_unknown response))
  else
    for_fold commonWorkspaceIds []
      (fun workspaces id =>
         workspace <- getWorkspace config id ;;
         ret (if truthy workspace then push workspaces workspace
              else workspaces)).

(** [pages.some(p => p.id === page.id)], where reading [pages.some] or a
    property of an item can throw. *)
Fixpoint some_page (items : list value) (page : value) : Res bool :=
  match items with
  | [] => Ok false
  | p :: rest =>
      match get_prop "id" p with
      | Throw e => Throw e
      | Ok pid =>
          match get_prop "id" page with
          | Throw e => Throw e
          | Ok id => if strict_eq pid id then Ok true else some_page rest page
          end
      end
  end.

Definition contains_page (w page : value) : Res bool :=
  match get_prop "pages" w with
  | Throw e => Throw e
  | Ok (VArr items) => some_page items page
  | Ok pages =>
      Throw (TypeError (match pages with
                        | VUndef | VNull =>
                            "Cannot read properties of " +:+ to_string pages
                              +:+ " (reading 'some')"
                        | _ => "w.pages.some is not a function"
                        end))
  end.

(** [workspaces.find(w => w.pages.some(p => p.id === page.id))]. *)
Fixpoint find_workspace (workspaces : list value) (page : value) : Res value :=
  match workspaces with
  | [] => Ok VUndef
  | w :: rest =>
      match contains_page w page with
      | Throw e => Throw e
      | Ok true => Ok w
      | Ok false => find_workspace rest page
      end
  end.

Definition page_path (workspaceId pageId : string) : string :=
  "/pages/workspace-" +:+ workspaceId +:+ "/page-" +:+ pageId +:+ ".json".

Definition savePage (config : WebDAVConfig) (page : value) : Task World unit :=
  workspaces <- getAllWorkspaces config ;;
  workspace <- lift_res (find_workspace workspaces page) ;;
  if negb (truthy workspace) then
    id <- lift_res (get_prop "id" page) ;;
    throw (Error ("Workspace not found for page " +:+ to_string id))
  else
    lastSync <- gets now ;;
    let pageData := VObj (assoc_set "lastSync" (VStr lastSync) (spread page)) in
    wid <- lift_res (get_prop "id" workspace) ;;
    makeRequest config ("/pages/workspace-" +:+ to_string wid +:+ "/")
      Http.MKCOL None ;;
    id <- lift_res (get_prop "id" page) ;;
    response <- makeRequest config (page_path (to_string wid) (to_string id))
                  Http.PUT (Some (JSON_stringify pageData)) ;;
    if negb (ok response) then
      throw (Error ("Failed to save page: " +:+ error_or_unknown response))
    else ret tt.

(** The loop of [getPage]: the first workspace whose page path answers. *)
Fixpoint getPage_loop (config : WebDAVConfig) (pageId : string)
    (workspaces : list value) : Task World value :=
  match workspaces with
  | [] => ret VNull
  | workspace :: rest =>
      wid <- lift_res (get_prop "id" workspace) ;;
      response <- makeRequest config (page_path (to_string wid) pageId)
                    Http.GET None ;;
      if ok response then parse_data response
      else getPage_loop config pageId rest
  end.

Definition getPage (config : WebDAVConfig) (pageId : string) : Task World value :=
  workspaces <- getAllWorkspaces config ;;
  getPage_loop config pageId workspaces.

(** The loop of [deletePage], and the [throw] that follows it. *)
Fixpoint deletePage_loop (config : WebDAVConfig) (pageId : string)
    (workspaces : list value) : Task World unit :=
  match workspaces with
  | [] => throw (Error "Failed to delete page: Page not found")
  | workspace :: rest =>
      wid <- lift_res (get_prop "id" workspace) ;;
      response <- makeRequest config (page_path (to_string wid) pageId)
                    Http.DELETE None ;;
      if ok response then ret tt
      else deletePage_loop config pageId rest
  end.

Definition deletePage (config : WebDAVConfig) (pageId : string) : Task World unit :=
  workspaces <- getAllWorkspaces config ;;
  deletePage_loop config pageId workspaces.

Definition clearAll (config : WebDAVConfig) : Task World unit :=
  workspaces <- getAllWorkspaces config ;;
  for_each workspaces
    (fun workspace =>
       wid <- lift_res (get_prop "id" workspace) ;;
       makeRequest config (workspace_path (to_string wid))
         Http.DELETE None ;;
       makeRequest config ("/pages/workspace-" +:+ to_string wid +:+ "/")
         Http.DELETE None ;;
       ret tt).

Definition exportData (config : WebDAVConfig) : Task World text :=
  workspaces <- getAllWorkspaces config ;;
  data <- for_fold workspaces []
            (fun data workspace =>
               wid <- lift_res (get_prop "id" workspace) ;;
               let data := assoc_set ("workspace_" +:+ to_string wid) workspace data in
               pages <- lift_res (get_prop "pages" workspace) ;;
               items <- lift_res (iterate pages) ;;
               for_fold items data
                 (fun data page =>
                    id <- lift_res (get_prop "id" page) ;;
                    pageData <- getPage config (to_string id) ;;
                    ret (if truthy pageData
                         then assoc_set ("page_" +:+ to_string id) pageData data
                         else data))) ;;
  ret (JSON_stringify (VObj data)).

Definition importData (config : WebDAVConfig) (jsonData : text) : Task World unit :=
  data <- JSON_parse jsonData ;;
  clearAll config ;;
  entries <- lift_res (Object_entries data) ;;
  let workspaces :=
    (List.filter (fun kv => String.prefix "workspace_" (fst kv)) entries).*2 in
  let pages :=
    (List.filter (fun kv => negb (String.prefix "workspace_" (fst kv))
                            && String.prefix "page_" (fst kv)) entries).*2 in
  for_each workspaces (saveWorkspace config) ;;
  for_each pages (savePage config).

End WebDAVStorage.

(** ** The provider interface and its three implementations *)

Module StorageProvider.

Record t : Type := mk {
  saveWorkspace : value -> Task World unit;
  getWorkspace : string -> Task World value;
  savePage : value -> Task World unit;
  getPage : string -> Task World value;
  deletePage : string -> Task World unit;
  getAllWorkspaces : Task World (list value);
  clearAll : Task World unit;
  exportData : Task World text;
  importData : text -> Task World unit;
  testConnection : Task World bool;
  isAvailable : Task World bool
}.

End StorageProvider.

Definition BrowserStorage_provider : StorageProvider.t :=
  StorageProvider.mk BrowserStorage.saveWorkspace BrowserStorage.getWorkspace
             BrowserStorage.savePage BrowserStorage.getPage
             BrowserStorage.deletePage BrowserStorage.getAllWorkspaces
             BrowserStorage.clearAll BrowserStorage.exportData
             BrowserStorage.importData BrowserStorage.testConnection
             BrowserStorage.isAvailable.

(** The methods of the [LocalStorage] object at address [this]. *)
Definition LocalStorage_provider (this : nat) : StorageProvider.t :=
  StorageProvider.mk (LocalStorage.saveWorkspace this) (LocalStorage.getWorkspace this)
             (LocalStorage.savePage this) (LocalStorage.getPage this)
             (LocalStorage.deletePage this) (LocalStorage.getAllWorkspaces this)
             (LocalStorage.clearAll this) (LocalStorage.exportData this)
             (LocalStorage.importData this) (LocalStorage.testConnection this)
             (LocalStorage.isAvailable this).

Definition WebDAVStorage_provider (config : WebDAVConfig) : StorageProvider.t :=
  StorageProvider.mk (WebDAVStorage.saveWorkspace config) (WebDAVStorage.getWorkspace config)
             (WebDAVStorage.savePage config) (WebDAVStorage.getPage config)
             (WebDAVStorage.deletePage config) (WebDAVStorage.getAllWorkspaces config)
             (WebDAVStorage.clearAll config) (WebDAVStorage.exportData config)
             (WebDAVStorage.importData config) (WebDAVStorage.testConnection config)
             (WebDAVStorage.isAvailable config).

(** ** StorageManager *)

(** [StorageConfig]. The static type of [type] is a union of three string
    literals; at run time it is whatever string the caller (a settings
    form, [configureStorage(config: any)]) supplies. *)
Record StorageConfig : Type := mkConfig {
  type : string;
  localPath : option string;
  webdavConfig : option WebDAVConfig
}.

Module StorageManager.

Record t : Type := mk {
  provider : StorageProvider.t;
  config : StorageConfig;
  fallbackProvider : StorageProvider.t
}.

(** The state a method of the manager runs in: the fields of [this] and
    the world. *)
Definition Sys : Type := t * World.

Definition this_provider : Task Sys StorageProvider.t := gets (fun s => provider (fst s)).
Definition this_fallbackProvider : Task Sys StorageProvider.t :=
  gets (fun s => fallbackProvider (fst s)).
Definition this_config : Task Sys StorageConfig := gets (fun s => config (fst s)).
Definition set_config (c : StorageConfig) : Task Sys unit :=
  modify (fun s => (mk (provider (fst s)) c (fallbackProvider (fst s)), snd s)).
Definition set_provider (p : StorageProvider.t) : Task Sys unit :=
  modify (fun s => (mk p (config (fst s)) (fallbackProvider (fst s)), snd s)).

(** A call into a provider or into the world leaves the fields alone. *)
Definition call {A} (c : Task World A) : Task Sys A :=
  fun s => let (r, w) := c (snd s) in (r, (fst s, w)).

(** [!config.localPath] holds of an absent path and of the empty
    string. *)
Definition createProvider (config : StorageConfig) : Task World StorageProvider.t :=
  if String.eqb (type config) "webdav" then
    match webdavConfig config with
    | None => throw (Error "WebDAV config is required for WebDAV storage")
    | Some c => ret (WebDAVStorage_provider c)
    end
  else if String.eqb (type config) "browser" then
    ret BrowserStorage_provider
  else if String.eqb (type config) "local" then
    match localPath config with
    | Some path =>
        if String.eqb path "" then
          throw (Error "Local path is required for local storage")
        else
          this <- LocalStorage.new path ;;
          ret (LocalStorage_provider this)
    | None => throw (Error "Local path is required for local storage")
    end
  else throw (Error ("Unsupported storage type: " +:+ type config)).

(** [new StorageManager(config)]. *)
Definition new (config : StorageConfig) : Task World t :=
  provider <- createProvider config ;;
  ret (mk provider config BrowserStorage_provider).

Definition updateConfig (config : StorageConfig) : Task Sys unit :=
  set_config config ;;
  provider <- call (createProvider config) ;;
  set_provider provider.

Definition getConfig : Task Sys StorageConfig := this_config.

Definition isAvailable : Task Sys bool :=
  p <- this_provider ;; call (StorageProvider.isAvailable p).

Definition testConnection : Task Sys bool :=
  p <- this_provider ;; call (StorageProvider.testConnection p).

Definition executeWithFallback {A} (operation : Task Sys A)
    (fallbackOperation : option (Task Sys A)) : Task Sys A :=
  try_catch operation
    (fun error =>
       match fallbackOperation with
       | Some fallback =>
           try_catch fallback (fun fallbackError => throw fallbackError)
       | None => throw error
       end).

(** [() => this.provider.m(args)] and [() => this.fallbackProvider.m(args)]. *)
Definition on_provider {A} (m : StorageProvider.t -> Task World A) : Task Sys A :=
  p <- this_provider ;; call (m p).
Definition on_fallback {A} (m : StorageProvider.t -> Task World A) : Task Sys A :=
  p <- this_fallbackProvider ;; call (m p).

Definition saveWorkspace (workspace : value) : Task Sys unit :=
  executeWithFallback
    (on_provider (fun p => StorageProvider.saveWorkspace p workspace))
    (Some (on_fallback (fun p => StorageProvider.saveWorkspace p workspace))).

Definition getWorkspace (workspaceId : string) : Task Sys value :=
  executeWithFallback
    (on_provider (fun p => StorageProvider.getWorkspace p workspaceId))
    (Some (on_fallback (fun p => StorageProvider.getWorkspace p workspaceId))).

Definition savePage (page : value) : Task Sys unit :=
  executeWithFallback
    (on_provider (fun p => StorageProvider.savePage p page))
    (Some (on_fallback (fun p => StorageProvider.savePage p page))).

Definition getPage (pageId : string) : Task Sys value :=
  executeWithFallback
    (on_provider (fun p => StorageProvider.getPage p pageId))
    (Some (on_fallback (fun p => StorageProvider.getPage p pageId))).

Definition deletePage (pageId : string) : Task Sys unit :=
  executeWithFallback
    (on_provider (fun p => StorageProvider.deletePage p pageId))
    (Some (on_fallback (fun p => StorageProvider.deletePage p pageId))).

Definition getAllWorkspaces : Task Sys (list value) :=
  executeWithFallback
    (on_provider StorageProvider.getAllWorkspaces)
    (Some (on_fallback StorageProvider.getAllWorkspaces)).

Definition clearAll : Task Sys unit :=
  executeWithFallback
    (on_provider StorageProvider.clearAll)
    (Some (on_fallback StorageProvider.clearAll)).

Definition exportData : Task Sys text :=
  executeWithFallback
    (on_provider StorageProvider.exportData)
    (Some (on_fallback StorageProvider.exportData)).

Definition importData (jsonData : text) : Task Sys unit :=
  executeWithFallback
    (on_provider (fun p => StorageProvider.importData p jsonData))
    (Some (on_fallback (fun p => StorageProvider.importData p jsonData))).

Definition migrateData (targetConfig : StorageConfig) : Task Sys unit :=
  data <- exportData ;;
  newProvider <- call (createProvider targetConfig) ;;
  isAvailable <- call (StorageProvider.isAvailable newProvider) ;;
  if negb isAvailable then
    throw (Error "Target storage provider is not available")
  else
    call (StorageProvider.importData newProvider data) ;;
    set_config targetConfig ;;
    set_provider newProvider.

Definition syncBetweenProviders : Task Sys unit :=
  config <- this_config ;;
  if String.eqb (type config) "browser" then ret tt
  else
    try_catch
      (primaryData <- on_provider StorageProvider.exportData ;;
       on_fallback (fun p => StorageProvider.importData p primaryData))
      (fun _ => ret tt).

End StorageManager.


(** ** The operations of the interface, as data

    The nine storage operations that the manager wraps, indexed by their
    result type, so that a statement can range over all of them. *)

Inductive Op : Type -> Type :=
| OpSaveWorkspace (workspace : value) : Op unit
| OpGetWorkspace (workspaceId : string) : Op value
| OpSavePage (page : value) : Op unit
| OpGetPage (pageId : string) : Op value
| OpDeletePage (pageId : string) : Op unit
| OpGetAllWorkspaces : Op (list value)
| OpClearAll : Op unit
| OpExportData : Op text
| OpImportData (jsonData : text) : Op unit.

(** The method of a provider that an operation names. *)
Definition provider_call {A} (op : Op A) (p : StorageProvider.t) : Task World A :=
  match op with
  | OpSaveWorkspace workspace => StorageProvider.saveWorkspace p workspace
  | OpGetWorkspace workspaceId => StorageProvider.getWorkspace p workspaceId
  | OpSavePage page => StorageProvider.savePage p page
  | OpGetPage pageId => StorageProvider.getPage p pageId
  | OpDeletePage pageId => StorageProvider.deletePage p pageId
  | OpGetAllWorkspaces => StorageProvider.getAllWorkspaces p
  | OpClearAll => StorageProvider.clearAll p
  | OpExportData => StorageProvider.exportData p
  | OpImportData jsonData => StorageProvider.importData p jsonData
  end.

(** The method of the manager that an operation names. *)
Definition manager_call {A} (op : Op A) : Task StorageManager.Sys A :=
  match op with
  | OpSaveWorkspace workspace => StorageManager.saveWorkspace workspace
  | OpGetWorkspace workspaceId => StorageManager.getWorkspace workspaceId
  | OpSavePage page => StorageManager.savePage page
  | OpGetPage pageId => StorageManager.getPage pageId
  | OpDeletePage pageId => StorageManager.deletePage pageId
  | OpGetAllWorkspaces => StorageManager.getAllWorkspaces
  | OpClearAll => StorageManager.clearAll
  | OpExportData => StorageManager.exportData
  | OpImportData jsonData => StorageManager.importData jsonData
  end.

(** A configuration that breaks the invariant of [StorageConfig]. *)
Inductive invalid_config (c : StorageConfig) : Prop :=
| local_without_path : type c = "local" -> localPath c = None -> invalid_config c
| local_with_empty_path : type c = "local" -> localPath c = Some "" -> invalid_config c
| webdav_without_config : type c = "webdav" -> webdavConfig c = None -> invalid_config c
| unrecognized_type :
    type c <> "webdav" -> type c <> "browser" -> type c <> "local" -> invalid_config c.

(** The error that [createProvider] raises for such a configuration. *)
Definition configuration_error (c : StorageConfig) : error :=
  if String.eqb (type c) "webdav" then
    Error "WebDAV config is required for WebDAV storage"
  else if String.eqb (type c) "local" then
    Error "Local path is required for local storage"
  else Error ("Unsupported storage type: " +:+ type c).

Definition target_unavailable : error :=
  Error "Target storage provider is not available".

(** ** Sample data

    A healthy, empty world, one page, one workspace that lists it, and a
    few managers. *)

Definition world0 : World :=
  mkWorld true ∅ true true true ∅ [] true ∅ "2026-01-01T00:00:00.000Z".

Definition page1 : value :=
  VObj [("id", VStr "p1"); ("title", VStr "Notes"); ("content", VStr "<p>hello</p>");
        ("isFolder", VBool false);
        ("createdAt", VDate "2025-06-01T10:00:00.000Z");
        ("updatedAt", VDate "2025-06-02T10:00:00.000Z")].

Definition workspace1 : value :=
  VObj [("id", VStr "default"); ("name", VStr "My Workspace");
        ("pages", VArr [page1]); ("currentPageId", VStr "p1")].

Definition dav_config : WebDAVConfig :=
  mkWebDAVConfig "https://x/dav" "u" "p" true.

Definition browser_config : StorageConfig := mkConfig "browser" None None.
Definition local_config : StorageConfig := mkConfig "local" (Some "/tmp/notes") None.
Definition webdav_config : StorageConfig := mkConfig "webdav" None (Some dav_config).

(** The manager that [new StorageManager({ type: 'browser' })] builds. *)
Definition browser_manager : StorageManager.t :=
  StorageManager.mk BrowserStorage_provider browser_config BrowserStorage_provider.

(** The manager that [new StorageManager] builds for [webdav_config]. *)
Definition webdav_manager : StorageManager.t :=
  StorageManager.mk (WebDAVStorage_provider dav_config) webdav_config
    BrowserStorage_provider.

(** Worlds in which something is out of order. *)
Definition world_no_idb : World :=
  mkWorld false ∅ false true true ∅ [] true ∅ "2026-01-01T00:00:00.000Z".
Definition world_no_picker : World :=
  mkWorld true ∅ false true true ∅ [] true ∅ "2026-01-01T00:00:00.000Z".
Definition world_dav_down : World :=
  mkWorld true ∅ true true true ∅ [] false ∅ "2026-01-01T00:00:00.000Z".

(** ** The listing of the WebDAV provider, as a function of the server *)

(** What the probe of one id contributes to the listing: the workspace
    parsed from the resource at its path, when there is one. *)
Definition probe (d : gmap string text) (id : string) : option value :=
  match d !! WebDAVStorage.workspace_path id with
  | Some (Doc j) => if truthy (value_of j) then Some (value_of j) else None
  | _ => None
  end.

(** The loop of [getAllWorkspaces] over a server that answers. *)
Fixpoint listing (d : gmap string text) (ids : list string) (acc : list value)
  : Res (list value) :=
  match ids with
  | [] => Ok acc
  | id :: rest =>
      match d !! WebDAVStorage.workspace_path id with
      | Some (Garbage _) => Throw (SyntaxError "Unexpected token in JSON")
      | Some (Doc j) =>
          listing d rest (if truthy (value_of j) then push acc (value_of j) else acc)
      | None => listing d rest acc
      end
  end.

(** The workspace resources of the server are objects that carry the id
    of their path, as [saveWorkspace] writes them. *)
Definition workspaces_consistent (d : gmap string text) : Prop :=
  forall (id : string) (t : text),
    d !! WebDAVStorage.workspace_path id = Some t ->
    exists members, t = Doc (JObj members) /\ assoc "id" members = Some (JStr id).

(** ** Pages *)




(** [`${v.id}`], for a value whose [id] can be read. *)
Definition id_of (v : value) : string :=
  match get_prop "id" v with
  | Ok id => to_string id
  | Throw _ => ""
  end.

(** [{ ...page, lastSync: new Date().toISOString() }]. *)
Definition with_lastSync (page : value) (lastSync : string) : value :=
  VObj (assoc_set "lastSync" (VStr lastSync) (spread page)).

(** ** Conditions on the world *)

(** The [LocalStorage] object at [this] can get at the directory: it holds
    a handle already, or the picker exists and the user grants one. *)
Definition directory_granted (this : nat) (w : World) : Prop :=
  is_Some (locals w !! this ≫= directoryHandle) \/
  (fs_api w = true /\ picker_grant w = true).

(** The server answers, and what it holds at the three conventional
    workspace paths is JSON: the listing of a provider whose credentials
    can be encoded returns. *)
Definition server_lists (w : World) : Prop :=
  dav_up w = true /\
  forall id raw, id ∈ WebDAVStorage.commonWorkspaceIds ->
                 dav w !! WebDAVStorage.workspace_path id <> Some (Garbage raw).

(** Every name in the directory is one that an entry can bear. *)
Definition valid_names (d : gmap string text) : Prop :=
  map_Forall (fun name _ => FileSystem.valid_name name = true) d.

(** [workspace1] as the WebDAV provider stores it and reads it back. *)
Definition workspace1_stored : value :=
  json_image
    (VObj [("id", VStr "default"); ("name", VStr "My Workspace");
           ("pages", VArr [page1]); ("currentPageId", VStr "p1");
           ("lastSync", VStr "2026-01-01T00:00:00.000Z")]).

(** Worlds that hold data: the browser store with [workspace1] and
    [page1]; a server on which the collection [/pages/] has been made;
    that server with [workspace1]; that server with [workspace1] and the
    page resource of [page1]; a server without [/pages/] that holds
    [workspace1]; a [LocalStorage] object at address 0 with an empty
    directory. *)
Definition world_browser1 : World :=
  snd ((BrowserStorage.saveWorkspace workspace1 ;;
        BrowserStorage.savePage page1) world0).
Definition world_pages : World :=
  set_dav (Http.mkcol "/pages/") world0.
Definition world_dav1 : World :=
  snd (WebDAVStorage.saveWorkspace dav_config workspace1 world_pages).
Definition world_dav2 : World :=
  snd (WebDAVStorage.savePage dav_config page1 world_dav1).
Definition world_local0 : World :=
  snd (LocalStorage.new "/tmp/notes" world0).

(** The directory with [workspace1] and [page1] saved through the
    [LocalStorage] object at address 0, and the manager active on it. *)
Definition world_local1 : World :=
  snd ((LocalStorage.saveWorkspace 0 workspace1 ;;
        LocalStorage.savePage 0 page1) world_local0).
Definition local_manager : StorageManager.t :=
  StorageManager.mk (LocalStorage_provider 0) local_config BrowserStorage_provider.

(** ** Further definitions used in the statements below *)

(** What [localforage.setItem] stores for a value. *)
Definition stored_item (v : value) : value :=
  match v with VUndef => VNull | _ => v end.

(** What [window.showDirectoryPicker()] throws when it does not return:
    a [TypeError] where the picker does not exist, an [AbortError] where
    the user grants nothing. *)
Definition picker_error (w : World) : error :=
  if fs_api w then FileSystem.AbortError
  else TypeError "window.showDirectoryPicker is not a function".

(** What [method] throws for the file [name] in a directory granted
    without the right to write: the name is checked before the grant. *)
Definition write_refusal (method name : string) : error :=
  if FileSystem.valid_name name then FileSystem.NotAllowedError
  else FileSystem.invalid_name method.

(** The [LocalStorage] object at [this] holds no handle and cannot get
    one. *)
Definition no_directory (this : nat) (w : World) : Prop :=
  locals w !! this ≫= directoryHandle = None /\
  (fs_api w = false \/ picker_grant w = false).

(** The file names that [LocalStorage] treats as its own. *)
Definition is_workspace_file (name : string) : bool :=
  String.prefix "workspace-" name && endsWith name ".json".
Definition is_data_file (name : string) : bool :=
  (String.prefix "workspace-" name || String.prefix "page-" name)
  && endsWith name ".json".

(** A computation that leaves the world as it found it, whatever it
    answers. *)
Definition read_only {A} (c : Task World A) : Prop :=
  forall w, snd (c w) = w.

(** [workspace.k] for a workspace whose properties can be read. *)
Definition field (k : string) (v : value) : value :=
  match get_prop k v with
  | Ok x => x
  | Throw _ => VUndef
  end.

(** The object that [WebDAVStorage.saveWorkspace] uploads. *)
Definition workspaceData (workspace : value) (lastSync : string) : value :=
  VObj [("id", field "id" workspace); ("name", field "name" workspace);
        ("pages", field "pages" workspace);
        ("currentPageId", field "currentPageId" workspace);
        ("lastSync", VStr lastSync)].

(** The collection that holds the pages of a workspace. *)
Definition pages_collection (workspaceId : string) : string :=
  "/pages/workspace-" +:+ workspaceId +:+ "/".


(** What the two [DELETE] requests of [WebDAVStorage.clearAll] for one
    workspace leave of the server's resources. *)
Definition remove_workspace (workspaceId : string) (d : gmap string text)
  : gmap string text :=
  filter (fun kv => String.prefix (pages_collection workspaceId) kv.1 = false)
         (delete (WebDAVStorage.workspace_path workspaceId) d).

(** The files that [LocalStorage.exportData] reads as pages. *)
Definition is_page_file (name : string) : bool :=
  String.prefix "page-" name && endsWith name ".json".

(** What a scan of the directory for the files [<pre>*.json] parses from
    the file [name]. *)
Definition parsed_file (pre : string) (d : gmap string text) (name : string)
  : option value :=
  if String.prefix pre name && endsWith name ".json" then
    match d !! name with
    | Some (Doc j) => Some (value_of j)
    | _ => None
    end
  else None.

(** The data files of a directory hold JSON and carry the id of their
    name, as [saveWorkspace] and [savePage] of [LocalStorage] write
    them. *)
Definition files_named_by_id (d : gmap string text) : Prop :=
  forall (pre n : string) (t : text),
    pre = "workspace-" \/ pre = "page-" ->
    String.prefix pre n && endsWith n ".json" = true ->
    d !! n = Some t ->
    exists j id, t = Doc j /\ get_prop "id" (value_of j) = Ok id /\
                 n = pre +:+ to_string id +:+ ".json".

(** The items of [workspace.pages] that a loop over them visits. *)
Definition referenced_pages (workspace : value) : list value :=
  match get_prop "pages" workspace with
  | Ok pages =>
      match iterate pages with
      | Ok items => items
      | Throw _ => []
      end
  | Throw _ => []
  end.

(** A computation that leaves the browser store as it found it, whatever
    it answers. *)
Definition keeps_idb {A} (c : Task World A) : Prop :=
  forall w, idb_up (snd (c w)) = idb_up w /\ idb (snd (c w)) = idb w.

(** ** The platform functions on sample inputs *)

Example btoa_basic_credentials :
  btoa "u:p" = Ok "dTpw" /\
  btoa "Aladdin:open sesame" = Ok "QWxhZGRpbjpvcGVuIHNlc2FtZQ==" /\
  btoa (String "195" (String "169" "")) = Ok "6Q==" /\
  btoa (String "226" (String "130" (String "172" ""))) = Throw InvalidCharacterError.
Proof. repeat split. Qed.

Example to_string_of_numbers :
  to_string (VNum 42) = "42" /\
  to_string (VNum (-7)) = "-7" /\
  to_string (VNum 999999999999999999999) = "999999999999999999999" /\
  to_string (VNum (10 ^ 21)) = "1e+21" /\
  to_string (VNum (-1234 * 10 ^ 20)) = "-1.234e+23".
Proof. repeat split; vm_compute; reflexivity. Qed.

Example chars_of_a_string :
  chars (String "097" (String "195" (String "169" (String "098" ""))))
  = [VStr "a"; VStr (String "195" (String "169" "")); VStr "b"].
Proof. reflexivity. Qed.

Example paths_and_names :
  dirname "/pages/workspace-default/page-p1.json" = "/pages/workspace-default/" /\
  Http.parent "/pages/workspace-default/" = "/pages/" /\
  Http.parent "/workspace-default.json" = "/" /\
  without_final_slash "https://x/dav/" = "https://x/dav" /\
  FileSystem.valid_name "page-p1.json" = true /\
  FileSystem.valid_name "page-a/b.json" = false /\
  FileSystem.valid_name ".." = false.
Proof. repeat split. Qed.

(** ** Facts about the manager *)

Ltac run :=
  unfold StorageManager.on_provider, StorageManager.on_fallback,
    StorageManager.this_provider, StorageManager.this_fallbackProvider,
    StorageManager.this_config, StorageManager.set_config,
    StorageManager.set_provider, StorageManager.call,
    bind, ret, throw, try_catch, gets, modify, lift_res; cbn.

Lemma bind_eq {S A B} (c : Task S A) (k : A -> Task S B) s :
  bind c k s = match c s with
               | (Ok a, s') => k a s'
               | (Throw e, s') => (Throw e, s')
               end.
Proof. reflexivity. Qed.

Lemma executeWithFallback_eq {A} (operation fallback : Task StorageManager.Sys A) s :
  StorageManager.executeWithFallback operation (Some fallback) s =
  match operation s with
  | (Ok a, s1) => (Ok a, s1)
  | (Throw _, s1) => fallback s1
  end.
Proof.
  unfold StorageManager.executeWithFallback, try_catch, throw.
  destruct (operation s) as [[a|e] s1]; [reflexivity|].
  destruct (fallback s1) as [[b|e'] s2]; reflexivity.
Qed.

Lemma on_provider_eq {A} (f : StorageProvider.t -> Task World A) m w :
  StorageManager.on_provider f (m, w) =
  (fst (f (StorageManager.provider m) w), (m, snd (f (StorageManager.provider m) w))).
Proof. run. destruct (f _ w); reflexivity. Qed.

Lemma on_fallback_eq {A} (f : StorageProvider.t -> Task World A) m w :
  StorageManager.on_fallback f (m, w) =
  (fst (f (StorageManager.fallbackProvider m) w),
   (m, snd (f (StorageManager.fallbackProvider m) w))).
Proof. run. destruct (f _ w); reflexivity. Qed.

Lemma createProvider_invalid c w :
  invalid_config c ->
  StorageManager.createProvider c w = (Throw (configuration_error c), w).
Proof.
  unfold StorageManager.createProvider, configuration_error.
  intros [Ht Hp | Ht Hp | Ht Hc | H1 H2 H3].
  - rewrite Ht, Hp. reflexivity.
  - rewrite Ht, Hp. reflexivity.
  - rewrite Ht, Hc. reflexivity.
  - apply String.eqb_neq in H1, H2, H3. rewrite H1, H2, H3. reflexivity.
Qed.

Lemma wrapped_eq {A} (f : StorageProvider.t -> Task World A) m w :
  StorageManager.executeWithFallback
    (StorageManager.on_provider f) (Some (StorageManager.on_fallback f)) (m, w) =
  match f (StorageManager.provider m) w with
  | (Ok a, w1) => (Ok a, (m, w1))
  | (Throw _, w1) =>
      match f (StorageManager.fallbackProvider m) w1 with
      | (Ok b, w2) => (Ok b, (m, w2))
      | (Throw fallbackError, w2) => (Throw fallbackError, (m, w2))
      end
  end.
Proof.
  rewrite executeWithFallback_eq, on_provider_eq.
  destruct (f (StorageManager.provider m) w) as [[a|e] w1]; cbn [fst snd];
    [reflexivity|].
  rewrite on_fallback_eq.
  destruct (f (StorageManager.fallbackProvider m) w1) as [[b|e'] w2];
    reflexivity.
Qed.

Lemma manager_call_eq :
  forall (A : Type) (op : Op A) (m : StorageManager.t) (w : World),
    manager_call op (m, w) =
    match provider_call op (StorageManager.provider m) w with
    | (Ok a, w1) => (Ok a, (m, w1))
    | (Throw _, w1) =>
        match provider_call op (StorageManager.fallbackProvider m) w1 with
        | (Ok b, w2) => (Ok b, (m, w2))
        | (Throw fallbackError, w2) => (Throw fallbackError, (m, w2))
        end
    end.
Proof.
  intros A op m w.
  destruct op; exact (wrapped_eq _ m w).
Qed.

Lemma manager_call_fields {A} (op : Op A) m w :
  fst (snd (manager_call op (m, w))) = m.
Proof.
  rewrite manager_call_eq.
  destruct (provider_call op (StorageManager.provider m) w) as [[a|e] w1];
    [reflexivity|].
  destruct (provider_call op (StorageManager.fallbackProvider m) w1) as [[b|e'] w2];
    reflexivity.
Qed.

Lemma migrateData_fallback c m w :
  StorageManager.fallbackProvider (fst (snd (StorageManager.migrateData c (m, w))))
  = StorageManager.fallbackProvider m.
Proof.
  unfold StorageManager.migrateData. rewrite bind_eq.
  pose proof (manager_call_fields OpExportData m w) as F. cbn [manager_call] in F.
  destruct (StorageManager.exportData (m, w)) as [[data|e] [m1 w1]];
    cbn in F; subst m1; [|reflexivity].
  run.
  destruct (StorageManager.createProvider c w1) as [[newProvider|e] w2];
    cbn; [|reflexivity].
  destruct (StorageProvider.isAvailable newProvider w2) as [[[|]|e] w3];
    cbn; try reflexivity.
  destruct (StorageProvider.importData newProvider data w3) as [[[]|e] w4];
    reflexivity.
Qed.

(** C2. Each of the nine storage operations of the manager is first
    attempted on the active provider. When that attempt returns, its value
    is the manager's and nothing else runs; when it throws, the same
    operation runs on the fallback provider, from the state the failed
    attempt left, and the manager answers what the fallback answers: its
    value, or its error (the active provider's error is dropped). The
    fields of the manager are not touched. The fallback provider is the
    browser provider that the constructor installs, and neither
    [updateConfig] nor [migrateData] replaces it. *)
Theorem C2_fallback_wrapper :
  (forall (A : Type) (op : Op A) (m : StorageManager.t) (w : World),
      manager_call op (m, w) =
      match provider_call op (StorageManager.provider m) w with
      | (Ok a, w1) => (Ok a, (m, w1))
      | (Throw _, w1) =>
          match provider_call op (StorageManager.fallbackProvider m) w1 with
          | (Ok b, w2) => (Ok b, (m, w2))
          | (Throw fallbackError, w2) => (Throw fallbackError, (m, w2))
          end
      end) /\
  (forall (c : StorageConfig) (w : World) (m : StorageManager.t) (w' : World),
      StorageManager.new c w = (Ok m, w') ->
      StorageManager.fallbackProvider m = BrowserStorage_provider) /\
  (forall (c : StorageConfig) (m : StorageManager.t) (w : World),
      StorageManager.fallbackProvider
        (fst (snd (StorageManager.updateConfig c (m, w))))
      = StorageManager.fallbackProvider m /\
      StorageManager.fallbackProvider
        (fst (snd (StorageManager.migrateData c (m, w))))
      = StorageManager.fallbackProvider m).
Proof.
  split; [exact manager_call_eq|]. split.
  - intros c w m w'. unfold StorageManager.new. rewrite bind_eq.
    destruct (StorageManager.createProvider c w) as [[p|e] w1]; [|discriminate].
    intros [= <- _]. reflexivity.
  - intros c m w. split; [|apply migrateData_fallback].
    unfold StorageManager.updateConfig. run.
    destruct (StorageManager.createProvider c w) as [[p|e] w1]; reflexivity.
Qed.

Lemma C2_witness :
  StorageManager.fallbackProvider browser_manager = BrowserStorage_provider.
Proof.
  exact (proj1 (proj2 C2_fallback_wrapper) browser_config world0 browser_manager
           world0 eq_refl).
Defined.

(** C7. A configuration of type 'local' without a path, one of type
    'webdav' without a WebDAV configuration, and one of an unrecognized
    type make [createProvider] throw a configuration error; no provider is
    produced and no object is allocated. The constructor of the manager
    and [updateConfig] fail with that same error. *)
Theorem C7_invalid_config_fails_fast :
  forall (c : StorageConfig) (m : StorageManager.t) (w : World),
    invalid_config c ->
    StorageManager.createProvider c w = (Throw (configuration_error c), w) /\
    StorageManager.new c w = (Throw (configuration_error c), w) /\
    fst (StorageManager.updateConfig c (m, w)) = Throw (configuration_error c) /\
    snd (snd (StorageManager.updateConfig c (m, w))) = w.
Proof.
  intros c m w H. pose proof (createProvider_invalid c w H) as E.
  split; [exact E|]. split.
  - unfold StorageManager.new, bind. rewrite E. reflexivity.
  - unfold StorageManager.updateConfig. run. rewrite E. split; reflexivity.
Qed.

Lemma C7_witness :
  StorageManager.new (mkConfig "local" None None)
    (mkWorld true ∅ true true true ∅ [] true ∅ "2026-01-01T00:00:00.000Z")
  = (Throw (Error "Local path is required for local storage"),
     mkWorld true ∅ true true true ∅ [] true ∅ "2026-01-01T00:00:00.000Z").
Proof.
  refine (proj1 (proj2 (C7_invalid_config_fails_fast (mkConfig "local" None None)
            (StorageManager.mk BrowserStorage_provider (mkConfig "browser" None None)
               BrowserStorage_provider) _ _))).
  apply local_without_path; reflexivity.
Defined.

(** C9. [updateConfig] with an invalid configuration throws after it has
    stored that configuration: [getConfig] then returns the rejected
    configuration, while the active provider is still the one built from
    the previous configuration, and every storage operation answers as it
    would have before the call. *)
Theorem C9_updateConfig_not_atomic :
  forall (c : StorageConfig) (m : StorageManager.t) (w : World),
    invalid_config c ->
    let m' := StorageManager.mk (StorageManager.provider m) c
                (StorageManager.fallbackProvider m) in
    StorageManager.updateConfig c (m, w) = (Throw (configuration_error c), (m', w)) /\
    StorageManager.getConfig (m', w) = (Ok c, (m', w)) /\
    StorageManager.provider m' = StorageManager.provider m /\
    forall (A : Type) (op : Op A),
      fst (manager_call op (m', w)) = fst (manager_call op (m, w)) /\
      snd (snd (manager_call op (m', w))) = snd (snd (manager_call op (m, w))).
Proof.
  intros c m w H m'. split; [|split; [reflexivity|split; [reflexivity|]]].
  - unfold StorageManager.updateConfig. run.
    rewrite (createProvider_invalid c w H). reflexivity.
  - intros A op. rewrite !manager_call_eq. subst m'. cbn [StorageManager.provider
      StorageManager.fallbackProvider].
    destruct (provider_call op (StorageManager.provider m) w) as [[a|e] w1];
      [split; reflexivity|].
    destruct (provider_call op (StorageManager.fallbackProvider m) w1) as [[b|e'] w2];
      split; reflexivity.
Qed.

(** [migrateData], step by step. *)
Lemma migrateData_eq target m w :
  StorageManager.migrateData target (m, w) =
  match StorageManager.exportData (m, w) with
  | (Throw e, s1) => (Throw e, s1)
  | (Ok data, (m1, w1)) =>
      match StorageManager.createProvider target w1 with
      | (Throw e, w2) => (Throw e, (m1, w2))
      | (Ok newProvider, w2) =>
          match StorageProvider.isAvailable newProvider w2 with
          | (Throw e, w3) => (Throw e, (m1, w3))
          | (Ok false, w3) => (Throw target_unavailable, (m1, w3))
          | (Ok true, w3) =>
              match StorageProvider.importData newProvider data w3 with
              | (Throw e, w4) => (Throw e, (m1, w4))
              | (Ok _, w4) =>
                  (Ok tt, (StorageManager.mk newProvider target
                             (StorageManager.fallbackProvider m1), w4))
              end
          end
      end
  end.
Proof.
  unfold StorageManager.migrateData, bind at 1.
  destruct (StorageManager.exportData (m, w)) as [[data|e] [m1 w1]]; [|reflexivity].
  run.
  destruct (StorageManager.createProvider target w1) as [[newProvider|e] w2];
    cbn; [|reflexivity].
  destruct (StorageProvider.isAvailable newProvider w2) as [[[|]|e] w3];
    cbn; try reflexivity.
  destruct (StorageProvider.importData newProvider data w3) as [[[]|e] w4];
    reflexivity.
Qed.

Lemma manager_exportData_eq m w :
  StorageManager.exportData (m, w) =
  match StorageProvider.exportData (StorageManager.provider m) w with
  | (Ok a, w1) => (Ok a, (m, w1))
  | (Throw _, w1) =>
      match StorageProvider.exportData (StorageManager.fallbackProvider m) w1 with
      | (Ok b, w2) => (Ok b, (m, w2))
      | (Throw fallbackError, w2) => (Throw fallbackError, (m, w2))
      end
  end.
Proof. exact (manager_call_eq _ OpExportData m w). Qed.

(** C10. [migrateData] takes its export from the wrapped [exportData]:
    when the active provider's [exportData] throws and the fallback
    provider's returns, the migration goes on with the fallback's data, and
    with a target that can be built and is available that data is what
    [importData] of the target receives; the manager is switched to the
    target when that import returns. *)
Theorem C10_migration_exports_through_fallback :
  forall (m : StorageManager.t) (w : World) (target : StorageConfig)
         (e : error) (w1 : World) (data : text) (w2 : World)
         (newProvider : StorageProvider.t) (w3 w4 : World),
    StorageProvider.exportData (StorageManager.provider m) w = (Throw e, w1) ->
    StorageProvider.exportData (StorageManager.fallbackProvider m) w1 = (Ok data, w2) ->
    StorageManager.createProvider target w2 = (Ok newProvider, w3) ->
    StorageProvider.isAvailable newProvider w3 = (Ok true, w4) ->
    StorageManager.migrateData target (m, w) =
    match StorageProvider.importData newProvider data w4 with
    | (Ok _, w5) =>
        (Ok tt, (StorageManager.mk newProvider target
                   (StorageManager.fallbackProvider m), w5))
    | (Throw importError, w5) => (Throw importError, (m, w5))
    end.
Proof.
  intros m w target e w1 data w2 newProvider w3 w4 He Hf Hc Ha.
  rewrite migrateData_eq, manager_exportData_eq, He, Hf, Hc, Ha.
  destruct (StorageProvider.importData newProvider data w4) as [[[]|e'] w5];
    reflexivity.
Qed.

Lemma createProvider_probe c w p w2 r w3 :
  StorageManager.createProvider c w = (Ok p, w2) ->
  StorageProvider.isAvailable p w2 = (r, w3) ->
  idb w3 = idb w /\ dir w3 = dir w /\ dav w3 = dav w.
Proof.
  unfold StorageManager.createProvider.
  destruct (String.eqb (type c) "webdav").
  { destruct (webdavConfig c) as [cfg|]; [|discriminate].
    intros [= <- <-]. cbn [StorageProvider.isAvailable WebDAVStorage_provider].
    unfold WebDAVStorage.isAvailable, WebDAVStorage.testConnection,
      WebDAVStorage.makeRequest, Http.fetch, try_catch, bind, ret, lift_res.
    destruct (btoa _); [|intros [= _ <-]; repeat split].
    destruct (dav_up w); intros [= _ <-]; repeat split. }
  destruct (String.eqb (type c) "browser").
  { intros [= <- <-]. cbn [StorageProvider.isAvailable BrowserStorage_provider].
    unfold BrowserStorage.isAvailable, localforage.ready, try_catch, bind, ret.
    destruct (idb_up w); intros [= _ <-]; repeat split. }
  destruct (String.eqb (type c) "local"); [|discriminate].
  destruct (localPath c) as [path|]; [|discriminate].
  destruct (String.eqb path ""); [discriminate|].
  unfold LocalStorage.new, bind, ret. intros [= <- <-].
  cbn [StorageProvider.isAvailable LocalStorage_provider].
  unfold LocalStorage.isAvailable, gets. intros [= _ <-]. repeat split.
Qed.

(** C6, as amended. When the wrapped export returns, and the provider
    built for the target reports that it is not available, [migrateData]
    throws the 'target unavailable' error; nothing runs after the
    availability probe, so nothing is imported: the browser store, the
    directory and the server are as the export left them, and the fields
    of the manager are as before. Whatever the outcome of [migrateData],
    the manager either keeps its fields or has been switched to the target
    after the target's [importData] returned. When the export throws on
    the active provider and on the fallback provider, [migrateData] throws
    the fallback's error and stops there, whatever the target: the manager
    is as before and the world is as the two exports left it, so that no
    provider object has been made for the target. *)
Theorem C6_migration_unavailable_target :
  forall (m : StorageManager.t) (w : World) (target : StorageConfig),
    (forall (data : text) (s1 : StorageManager.Sys)
            (newProvider : StorageProvider.t) (w2 w3 : World),
        StorageManager.exportData (m, w) = (Ok data, s1) ->
        StorageManager.createProvider target (snd s1) = (Ok newProvider, w2) ->
        StorageProvider.isAvailable newProvider w2 = (Ok false, w3) ->
        StorageManager.migrateData target (m, w) =
        (Throw target_unavailable, (m, w3)) /\
        idb w3 = idb (snd s1) /\ dir w3 = dir (snd s1) /\ dav w3 = dav (snd s1)) /\
    (forall (r : Res unit) (m' : StorageManager.t) (w' : World),
        StorageManager.migrateData target (m, w) = (r, (m', w')) ->
        m' = m \/
        (r = Ok tt /\
         exists (data : text) (newProvider : StorageProvider.t) (wi : World),
           StorageProvider.importData newProvider data wi = (Ok tt, w') /\
           m' = StorageManager.mk newProvider target
                  (StorageManager.fallbackProvider m))) /\
    (forall (e0 e : error) (w1 w2 : World),
        StorageProvider.exportData (StorageManager.provider m) w = (Throw e0, w1) ->
        StorageProvider.exportData (StorageManager.fallbackProvider m) w1
        = (Throw e, w2) ->
        StorageManager.migrateData target (m, w) = (Throw e, (m, w2))).
Proof.
  intros m w target. split; [|split].
  - intros data [m1 w1] newProvider w2 w3 He Hc Ha.
    assert (m1 = m) as ->.
    { pose proof (manager_call_fields OpExportData m w) as F.
      cbn [manager_call] in F. rewrite He in F. exact F. }
    cbn [snd] in *. split; [|exact (createProvider_probe _ _ _ _ _ _ Hc Ha)].
    rewrite migrateData_eq, He, Hc, Ha. reflexivity.
  - intros r m' w'. rewrite migrateData_eq.
    pose proof (manager_call_fields OpExportData m w) as F.
    cbn [manager_call] in F.
    destruct (StorageManager.exportData (m, w)) as [[data|e] [m1 w1]];
      cbn in F; subst m1.
    2: { intros [= <- <- <-]. left; reflexivity. }
    destruct (StorageManager.createProvider target w1) as [[newProvider|e] w2].
    2: { intros [= <- <- <-]. left; reflexivity. }
    destruct (StorageProvider.isAvailable newProvider w2) as [[[|]|e] w3].
    2,3: intros [= <- <- <-]; left; reflexivity.
    destruct (StorageProvider.importData newProvider data w3) as [[[]|e] w4] eqn:Hi.
    2: { intros [= <- <- <-]. left; reflexivity. }
    intros [= <- <- <-]. right. split; [reflexivity|].
    exists data, newProvider, w3. split; [exact Hi|reflexivity].
  - intros e0 e w1 w2 He Hf.
    rewrite migrateData_eq, manager_exportData_eq, He, Hf. reflexivity.
Qed.

Lemma C9_witness :
  StorageManager.updateConfig (mkConfig "ftp" None None) (browser_manager, world0) =
  (Throw (Error "Unsupported storage type: ftp"),
   (StorageManager.mk BrowserStorage_provider (mkConfig "ftp" None None)
      BrowserStorage_provider, world0)).
Proof.
  refine (proj1 (C9_updateConfig_not_atomic (mkConfig "ftp" None None)
                   browser_manager world0 _)).
  apply unrecognized_type; discriminate.
Defined.

Lemma C10_witness :
  fst (StorageManager.migrateData local_config (webdav_manager, world_dav_down)) = Ok tt /\
  StorageManager.config
    (fst (snd (StorageManager.migrateData local_config (webdav_manager, world_dav_down))))
  = local_config.
Proof.
  rewrite (C10_migration_exports_through_fallback webdav_manager world_dav_down
             local_config (Error "Failed to list files: Failed to fetch")
             world_dav_down (Doc (JObj [])) world_dav_down
             (LocalStorage_provider 0)
             (snd (StorageManager.createProvider local_config world_dav_down))
             (snd (StorageManager.createProvider local_config world_dav_down))
             eq_refl eq_refl eq_refl eq_refl).
  split; reflexivity.
Defined.

(** C6 as the specification states it fails when the export fails: with no usable
    localforage driver, both the active and the fallback [exportData]
    throw, and [migrateData] to a target whose provider is not available
    throws the fallback's export error, not 'target unavailable'; no
    [LocalStorage] object has been made. *)
Lemma C6_counterexample :
  StorageManager.createProvider local_config world_no_idb
  = (Ok (LocalStorage_provider 0),
     snd (StorageManager.createProvider local_config world_no_idb)) /\
  fst (StorageProvider.isAvailable (LocalStorage_provider 0)
         (snd (StorageManager.createProvider local_config world_no_idb)))
  = Ok false /\
  fst (StorageManager.migrateData local_config (browser_manager, world_no_idb)) =
    Throw (Error "Failed to export data: Error: No available storage method found.") /\
  fst (StorageManager.migrateData local_config (browser_manager, world_no_idb)) <>
    Throw target_unavailable /\
  locals (snd (snd (StorageManager.migrateData local_config
                      (browser_manager, world_no_idb)))) = [].
Proof.
  split; [reflexivity|]. split; [reflexivity|]. split; [|split].
  - vm_compute; reflexivity.
  - vm_compute. discriminate.
  - vm_compute; reflexivity.
Qed.

Lemma C6_witness :
  StorageManager.migrateData local_config (browser_manager, world_no_picker) =
  (Throw target_unavailable,
   (browser_manager,
    snd (StorageManager.createProvider local_config world_no_picker))) /\
  StorageManager.migrateData local_config (browser_manager, world_no_idb) =
  (Throw (Error "Failed to export data: Error: No available storage method found."),
   (browser_manager, world_no_idb)).
Proof.
  split.
  - exact (proj1 (proj1 (C6_migration_unavailable_target browser_manager
                           world_no_picker local_config)
                    (Doc (JObj [])) (browser_manager, world_no_picker)
                    (LocalStorage_provider 0)
                    (snd (StorageManager.createProvider local_config world_no_picker))
                    (snd (StorageManager.createProvider local_config world_no_picker))
                    eq_refl eq_refl eq_refl)).
  - exact (proj2 (proj2 (C6_migration_unavailable_target browser_manager
                           world_no_idb local_config))
             (Error "Failed to export data: Error: No available storage method found.")
             (Error "Failed to export data: Error: No available storage method found.")
             world_no_idb world_no_idb eq_refl eq_refl).
Defined.

(** ** Facts about strings and paths *)

Lemma length_app (a b : string) :
  String.length (a +:+ b) = (String.length a + String.length b)%nat.
Proof.
  induction a as [|c a IH]; [reflexivity|].
  change (S (String.length (a +:+ b)) = S (String.length a + String.length b)%nat).
  rewrite IH. reflexivity.
Qed.

Lemma app_inj_tail (a b s : string) : a +:+ s = b +:+ s -> a = b.
Proof.
  revert b. induction a as [|c a IH]; intros [|c' b] H; cbn in H.
  - reflexivity.
  - apply (f_equal String.length) in H.
    change (String.length s = S (String.length (b +:+ s))) in H.
    rewrite length_app in H. lia.
  - apply (f_equal String.length) in H.
    change (S (String.length (a +:+ s)) = String.length s) in H.
    rewrite length_app in H. lia.
  - injection H as -> H. f_equal. exact (IH _ H).
Qed.

Lemma app_cons (c : ascii) (a b : string) : String c a +:+ b = String c (a +:+ b).
Proof. reflexivity. Qed.

Lemma app_empty (b : string) : "" +:+ b = b.
Proof. reflexivity. Qed.

(** Computes the appends whose left operand is a literal. *)
Ltac app_literals := rewrite ?app_cons, ?app_empty.

Lemma workspace_path_inj a b :
  WebDAVStorage.workspace_path a = WebDAVStorage.workspace_path b -> a = b.
Proof.
  unfold WebDAVStorage.workspace_path. app_literals. intros [= H].
  exact (app_inj_tail _ _ _ H).
Qed.

Lemma page_path_not_workspace_path wid pid id :
  WebDAVStorage.page_path wid pid <> WebDAVStorage.workspace_path id.
Proof.
  unfold WebDAVStorage.page_path, WebDAVStorage.workspace_path. app_literals.
  discriminate.
Qed.

(** ** Facts about the WebDAV provider *)

Lemma makeRequest_eq cfg path m payload w :
  WebDAVStorage.makeRequest cfg path m payload w =
  if WebDAVStorage.encodable cfg then
    match Http.fetch m (without_final_slash (url cfg)) path
            ("Basic " +:+ base64 (code_units (username cfg +:+ ":" +:+ password cfg)))
            payload w with
    | (Ok response, w') =>
        (Ok (WebDAVStorage.mkWebDAVResponse
               (WebDAVStorage.status_ok (Http.status response))
               (Http.status response) (Some (Http.body response)) None), w')
    | (Throw e, w') =>
        (Ok (WebDAVStorage.mkWebDAVResponse false 0 None (Some (message e))), w')
    end
  else (Throw InvalidCharacterError, w).
Proof.
  unfold WebDAVStorage.makeRequest, WebDAVStorage.encodable, lift_res, btoa.
  rewrite bind_eq.
  destruct (latin1 (username cfg +:+ ":" +:+ password cfg)); [|reflexivity].
  cbv beta iota. unfold try_catch. rewrite bind_eq.
  destruct (Http.fetch _ _ _ _ _ w) as [[response|e] w']; reflexivity.
Qed.

Lemma makeRequest_unencodable cfg path m payload w :
  WebDAVStorage.encodable cfg = false ->
  WebDAVStorage.makeRequest cfg path m payload w = (Throw InvalidCharacterError, w).
Proof. intros Henc. rewrite makeRequest_eq, Henc. reflexivity. Qed.

Lemma makeRequest_down cfg path m payload w :
  WebDAVStorage.encodable cfg = true ->
  dav_up w = false ->
  WebDAVStorage.makeRequest cfg path m payload w =
  (Ok (WebDAVStorage.mkWebDAVResponse false 0 None (Some "Failed to fetch")), w).
Proof.
  intros Henc Hup. rewrite makeRequest_eq, Henc. unfold Http.fetch.
  rewrite Hup. reflexivity.
Qed.

Lemma makeRequest_GET cfg path payload w :
  WebDAVStorage.encodable cfg = true ->
  dav_up w = true ->
  WebDAVStorage.makeRequest cfg path Http.GET payload w =
  (Ok (match dav w !! path with
       | Some t => WebDAVStorage.mkWebDAVResponse true 200 (Some t) None
       | None => WebDAVStorage.mkWebDAVResponse false 404
                   (Some (Garbage "Not Found")) None
       end), w).
Proof.
  intros Henc Hup. rewrite makeRequest_eq, Henc. unfold Http.fetch.
  rewrite Hup. cbn [negb]. destruct (dav w !! path); reflexivity.
Qed.

Lemma makeRequest_PROPFIND cfg path payload w :
  WebDAVStorage.encodable cfg = true ->
  dav_up w = true ->
  WebDAVStorage.makeRequest cfg path Http.PROPFIND payload w =
  (Ok (WebDAVStorage.mkWebDAVResponse true 207
         (Some (Garbage "<D:multistatus/>")) None), w).
Proof.
  intros Henc Hup. rewrite makeRequest_eq, Henc. unfold Http.fetch.
  rewrite Hup. reflexivity.
Qed.



Lemma makeRequest_PUT cfg path t w :
  WebDAVStorage.encodable cfg = true ->
  dav_up w = true ->
  Http.writable (dav w) path = true ->
  exists response,
    WebDAVStorage.makeRequest cfg path Http.PUT (Some t) w =
    (Ok response, set_dav (fun d => <[path := t]> d) w) /\
    WebDAVStorage.ok response = true.
Proof.
  intros Henc Hup Hw. rewrite makeRequest_eq, Henc. unfold Http.fetch.
  rewrite Hup. cbn [negb]. unfold Http.writable in Hw.
  apply andb_true_iff in Hw as [He Hp]. apply negb_true_iff in He.
  rewrite He, Hp. eexists. split; [reflexivity|].
  destruct (dav w !! path); reflexivity.
Qed.

Lemma makeRequest_PUT_refused cfg path t w :
  WebDAVStorage.encodable cfg = true ->
  dav_up w = true ->
  Http.writable (dav w) path = false ->
  exists response,
    WebDAVStorage.makeRequest cfg path Http.PUT (Some t) w = (Ok response, w) /\
    WebDAVStorage.ok response = false /\
    WebDAVStorage.error_or_unknown response = "Unknown error".
Proof.
  intros Henc Hup Hw. rewrite makeRequest_eq, Henc. unfold Http.fetch.
  rewrite Hup. cbn [negb]. unfold Http.writable in Hw.
  destruct (endsWith path "/"); [eexists; repeat split; reflexivity|].
  cbn [negb andb] in Hw. rewrite Hw. eexists; repeat split; reflexivity.
Qed.

Lemma makeRequest_DELETE_absent cfg path payload w :
  WebDAVStorage.encodable cfg = true ->
  dav_up w = true ->
  endsWith path "/" = false ->
  dav w !! path = None ->
  WebDAVStorage.makeRequest cfg path Http.DELETE payload w =
  (Ok (WebDAVStorage.mkWebDAVResponse false 404 (Some (Garbage "Not Found")) None), w).
Proof.
  intros Henc Hup He Habs. rewrite makeRequest_eq, Henc. unfold Http.fetch.
  rewrite Hup, He, Habs. reflexivity.
Qed.

Lemma webdav_getWorkspace_eq cfg id w :
  WebDAVStorage.getWorkspace cfg id w =
  if WebDAVStorage.encodable cfg then
    if dav_up w then
      match dav w !! WebDAVStorage.workspace_path id with
      | Some (Doc j) => (Ok (value_of j), w)
      | Some (Garbage _) => (Throw (SyntaxError "Unexpected token in JSON"), w)
      | None => (Ok VNull, w)
      end
    else (Throw (Error "Failed to get workspace: Failed to fetch"), w)
  else (Throw InvalidCharacterError, w).
Proof.
  unfold WebDAVStorage.getWorkspace. rewrite bind_eq.
  destruct (WebDAVStorage.encodable cfg) eqn:Henc;
    [|rewrite makeRequest_unencodable by assumption; reflexivity].
  destruct (dav_up w) eqn:Hup.
  - rewrite makeRequest_GET by assumption.
    destruct (dav w !! WebDAVStorage.workspace_path id) as [[j|raw]|]; reflexivity.
  - rewrite makeRequest_down by assumption. reflexivity.
Qed.

Lemma webdav_listing_loop cfg ids acc w :
  WebDAVStorage.encodable cfg = true ->
  dav_up w = true ->
  for_fold ids acc
    (fun workspaces id =>
       workspace <- WebDAVStorage.getWorkspace cfg id ;;
       ret (if truthy workspace then push workspaces workspace else workspaces)) w
  = (listing (dav w) ids acc, w).
Proof.
  intros Henc Hup. revert acc. induction ids as [|id ids IH]; intros acc.
  - reflexivity.
  - cbn [for_fold listing]. rewrite !bind_eq, webdav_getWorkspace_eq, Henc, Hup.
    destruct (dav w !! WebDAVStorage.workspace_path id) as [[j|raw]|].
    + apply IH.
    + reflexivity.
    + apply IH.
Qed.

Lemma webdav_getAllWorkspaces_eq cfg w :
  WebDAVStorage.getAllWorkspaces cfg w =
  if WebDAVStorage.encodable cfg then
    if dav_up w then (listing (dav w) WebDAVStorage.commonWorkspaceIds [], w)
    else (Throw (Error "Failed to list files: Failed to fetch"), w)
  else (Throw InvalidCharacterError, w).
Proof.
  unfold WebDAVStorage.getAllWorkspaces. rewrite bind_eq.
  destruct (WebDAVStorage.encodable cfg) eqn:Henc;
    [|rewrite makeRequest_unencodable by assumption; reflexivity].
  destruct (dav_up w) eqn:Hup.
  - rewrite makeRequest_PROPFIND by assumption.
    exact (webdav_listing_loop cfg _ [] w Henc Hup).
  - rewrite makeRequest_down by assumption. reflexivity.
Qed.

Lemma webdav_getAllWorkspaces_frame cfg w :
  snd (WebDAVStorage.getAllWorkspaces cfg w) = w.
Proof.
  rewrite webdav_getAllWorkspaces_eq.
  destruct (WebDAVStorage.encodable cfg), (dav_up w); reflexivity.
Qed.

Lemma listing_ok d ids acc wss :
  listing d ids acc = Ok wss -> wss = (acc ++ omap (probe d) ids)%list.
Proof.
  revert acc. induction ids as [|id ids IH]; intros acc; cbn.
  - intros [= <-]. rewrite app_nil_r. reflexivity.
  - unfold probe at 1.
    destruct (d !! WebDAVStorage.workspace_path id) as [[j|raw]|]; [|discriminate|].
    + intros H. apply IH in H. subst wss.
      destruct (truthy (value_of j)); [|reflexivity].
      unfold push. rewrite <- app_assoc. reflexivity.
    + apply IH.
Qed.

Lemma listing_total d ids acc :
  (forall id raw, id ∈ ids -> d !! WebDAVStorage.workspace_path id <> Some (Garbage raw)) ->
  exists wss, listing d ids acc = Ok wss.
Proof.
  revert acc. induction ids as [|id ids IH]; intros acc H; cbn.
  - eexists; reflexivity.
  - destruct (d !! WebDAVStorage.workspace_path id) as [[j|raw]|] eqn:E.
    + apply IH. intros i r Hi. apply H. right. exact Hi.
    + exfalso. apply (H id raw); [left|exact E].
    + apply IH. intros i r Hi. apply H. right. exact Hi.
Qed.


Lemma listing_ext d d' ids acc :
  (forall id, id ∈ ids ->
     d !! WebDAVStorage.workspace_path id = d' !! WebDAVStorage.workspace_path id) ->
  listing d ids acc = listing d' ids acc.
Proof.
  revert acc. induction ids as [|id ids IH]; intros acc H; cbn; [reflexivity|].
  rewrite <- (H id) by left.
  destruct (d !! WebDAVStorage.workspace_path id) as [[j|raw]|];
    try reflexivity; apply IH; intros i Hi; apply H; right; exact Hi.
Qed.

Lemma value_of_member k members :
  get_prop k (value_of (JObj members)) =
  Ok (default VUndef (value_of <$> assoc k members)).
Proof.
  cbn. f_equal. induction members as [|[k' x] r IH]; cbn; [reflexivity|].
  destruct (String.eqb k k'); [reflexivity|exact IH].
Qed.


(** The condition under which C4 speaks of ids is an invariant of the
    provider's own writes: it holds of an empty server, and
    [saveWorkspace] of a workspace with a string id, like [savePage],
    keeps it. *)
Lemma workspaces_consistent_empty : workspaces_consistent ∅.
Proof. intros id t H. rewrite lookup_empty in H. discriminate. Qed.

Lemma makeRequest_PUT_cases cfg path t w :
  exists r,
    WebDAVStorage.makeRequest cfg path Http.PUT (Some t) w = (r, w) \/
    WebDAVStorage.makeRequest cfg path Http.PUT (Some t) w =
    (r, set_dav (fun d => <[path := t]> d) w).
Proof.
  rewrite makeRequest_eq. unfold Http.fetch.
  destruct (WebDAVStorage.encodable cfg); [|eexists; left; reflexivity].
  destruct (dav_up w); [|eexists; left; reflexivity]. cbn [negb].
  destruct (endsWith path "/"); [eexists; left; reflexivity|].
  destruct (Http.has_collection (dav w) (Http.parent path));
    eexists; [right|left]; reflexivity.
Qed.

Lemma makeRequest_MKCOL_cases cfg path payload w :
  exists r,
    WebDAVStorage.makeRequest cfg path Http.MKCOL payload w = (r, w) \/
    WebDAVStorage.makeRequest cfg path Http.MKCOL payload w =
    (r, set_dav (fun d => <[Http.as_collection path := Http.collection]> d) w).
Proof.
  rewrite makeRequest_eq. unfold Http.fetch.
  destruct (WebDAVStorage.encodable cfg); [|eexists; left; reflexivity].
  destruct (dav_up w); [|eexists; left; reflexivity]. cbn [negb].
  destruct (Http.creatable (dav w) path) eqn:Hc.
  - eexists. right. unfold Http.mkcol, set_dav. rewrite Hc. reflexivity.
  - destruct (Http.unmapped (dav w) path); eexists; left; reflexivity.
Qed.

Lemma saveWorkspace_consistent cfg workspace id w :
  get_prop "id" workspace = Ok (VStr id) ->
  workspaces_consistent (dav w) ->
  workspaces_consistent (dav (snd (WebDAVStorage.saveWorkspace cfg workspace w))).
Proof.
  intros Hid Hc. unfold WebDAVStorage.saveWorkspace.
  rewrite bind_eq. unfold lift_res. rewrite Hid. cbv beta iota.
  assert (forall k, exists x, get_prop k workspace = Ok x) as Hk.
  { intros k. destruct workspace; cbn in Hid |- *; try discriminate; eauto. }
  destruct (Hk "name") as [name Hn]. destruct (Hk "pages") as [pages Hp].
  destruct (Hk "currentPageId") as [current Hcur].
  rewrite bind_eq, Hn. cbv beta iota. rewrite bind_eq, Hp. cbv beta iota.
  rewrite bind_eq, Hcur. cbv beta iota. rewrite bind_eq. unfold gets. cbv beta iota.
  rewrite bind_eq. cbn [to_string].
  match goal with
  | |- context [WebDAVStorage.makeRequest cfg ?path Http.PUT (Some ?t) w] =>
      destruct (makeRequest_PUT_cases cfg path t w) as (r & [-> | ->])
  end.
  - destruct r as [response|e]; [|exact Hc].
    destruct (negb (WebDAVStorage.ok response)); exact Hc.
  - assert (workspaces_consistent
              (<[WebDAVStorage.workspace_path id :=
                   JSON_stringify
                     (VObj [("id", VStr id); ("name", name); ("pages", pages);
                            ("currentPageId", current); ("lastSync", VStr (now w))])]>
                 (dav w))) as Hc'.
    { intros id' t'. destruct (decide (WebDAVStorage.workspace_path id
                                       = WebDAVStorage.workspace_path id')) as [E|N].
      + rewrite E, lookup_insert_eq. apply workspace_path_inj in E. subst id'.
        intros [= <-]. cbn [JSON_stringify json_of].
        eexists. split; [reflexivity|]. reflexivity.
      + rewrite lookup_insert_ne by exact N. apply Hc. }
    destruct r as [response|e]; [|exact Hc'].
    destruct (negb (WebDAVStorage.ok response)); exact Hc'.
Qed.

Lemma endsWith_app_r (a b s : string) :
  endsWith b s = true -> endsWith (a +:+ b) s = true.
Proof.
  intros H. induction a as [|c a IH]; [exact H|].
  rewrite app_cons. cbn [endsWith]. rewrite IH. apply orb_true_r.
Qed.

Lemma app_nonempty (a b : string) : b <> "" -> a +:+ b <> "".
Proof. destruct a; [auto|rewrite app_cons; discriminate]. Qed.

Lemma endsWith_slash_app (a b : string) :
  b <> "" -> endsWith b "/" = false -> endsWith (a +:+ b) "/" = false.
Proof.
  intros Hb He. induction a as [|c a IH]; [exact He|].
  rewrite app_cons. cbn [endsWith]. rewrite IH, orb_false_r.
  cbn [String.eqb]. destruct (Ascii.eqb c "/"); [|reflexivity].
  destruct (a +:+ b) eqn:E; [|reflexivity].
  exfalso. exact (app_nonempty a b Hb E).
Qed.

Lemma workspace_path_not_collection id :
  endsWith (WebDAVStorage.workspace_path id) "/" = false.
Proof.
  unfold WebDAVStorage.workspace_path.
  repeat (apply endsWith_slash_app; [repeat apply app_nonempty; discriminate|]).
  reflexivity.
Qed.

Lemma as_collection_is_collection path :
  endsWith (Http.as_collection path) "/" = true.
Proof.
  unfold Http.as_collection. destruct (endsWith path "/") eqn:E; [exact E|].
  apply endsWith_app_r. reflexivity.
Qed.

Lemma pages_collection_is_collection i : endsWith (pages_collection i) "/" = true.
Proof. unfold pages_collection. do 2 apply endsWith_app_r. reflexivity. Qed.

Lemma as_collection_not_workspace_path path id :
  Http.as_collection path <> WebDAVStorage.workspace_path id.
Proof.
  intros E. pose proof (as_collection_is_collection path) as H.
  rewrite E, workspace_path_not_collection in H. discriminate.
Qed.

Lemma put_consistent cfg path t (k : WebDAVStorage.WebDAVResponse -> error) w :
  (forall id, path <> WebDAVStorage.workspace_path id) ->
  workspaces_consistent (dav w) ->
  workspaces_consistent
    (dav (snd ((response <- WebDAVStorage.makeRequest cfg path Http.PUT (Some t) ;;
                if negb (WebDAVStorage.ok response) then throw (k response)
                else ret tt) w))).
Proof.
  intros Hp Hc. rewrite bind_eq.
  destruct (makeRequest_PUT_cases cfg path t w) as (r & [-> | ->]).
  - destruct r as [response|e]; [|exact Hc].
    destruct (negb (WebDAVStorage.ok response)); exact Hc.
  - assert (workspaces_consistent
              (dav (set_dav (fun d => <[path := t]> d) w))) as Hc'.
    { cbn [dav set_dav]. intros id' t'.
      rewrite lookup_insert_ne by apply Hp. apply Hc. }
    destruct r as [response|e]; [|exact Hc'].
    destruct (negb (WebDAVStorage.ok response)); exact Hc'.
Qed.

Lemma mkcol_consistent cfg path payload w r w1 :
  WebDAVStorage.makeRequest cfg path Http.MKCOL payload w = (r, w1) ->
  workspaces_consistent (dav w) ->
  workspaces_consistent (dav w1).
Proof.
  intros E Hc.
  destruct (makeRequest_MKCOL_cases cfg path payload w) as (r' & [E' | E']);
    rewrite E' in E; injection E as <- <-; [exact Hc|].
  cbn [dav set_dav]. intros id' t'.
  rewrite lookup_insert_ne by apply as_collection_not_workspace_path. apply Hc.
Qed.

Lemma savePage_consistent cfg page w :
  workspaces_consistent (dav w) ->
  workspaces_consistent (dav (snd (WebDAVStorage.savePage cfg page w))).
Proof.
  intros Hc. unfold WebDAVStorage.savePage.
  rewrite bind_eq.
  pose proof (webdav_getAllWorkspaces_frame cfg w) as F.
  destruct (WebDAVStorage.getAllWorkspaces cfg w) as [[wss|e] w0]; cbn [snd] in F;
    subst w0; [|exact Hc].
  rewrite bind_eq. unfold lift_res.
  destruct (WebDAVStorage.find_workspace wss page) as [owner|e]; [|exact Hc].
  destruct (truthy owner); cbn [negb].
  2: { rewrite bind_eq. destruct (get_prop "id" page); exact Hc. }
  rewrite bind_eq. unfold gets. cbv beta iota. rewrite bind_eq.
  destruct (get_prop "id" owner) as [wid|e]; [|exact Hc].
  rewrite bind_eq.
  destruct (WebDAVStorage.makeRequest cfg _ Http.MKCOL None w) as [r w1] eqn:E.
  apply mkcol_consistent in E; [|exact Hc].
  destruct r as [response|e]; [|exact E].
  rewrite bind_eq. destruct (get_prop "id" page) as [id|e]; [|exact E].
  cbv beta iota.
  apply (put_consistent cfg _ _
           (fun response => Error ("Failed to save page: "
                                   +:+ WebDAVStorage.error_or_unknown response)));
    [intros i; apply page_path_not_workspace_path|exact E].
Qed.

Lemma page_path_not_collection wid pid :
  endsWith (WebDAVStorage.page_path wid pid) "/" = false.
Proof.
  unfold WebDAVStorage.page_path.
  repeat (apply endsWith_slash_app; [repeat apply app_nonempty; discriminate|]).
  reflexivity.
Qed.

Lemma get_prop_truthy k v : truthy v = true -> exists x, get_prop k v = Ok x.
Proof. destruct v; cbn; try discriminate; eauto. Qed.

Lemma probe_truthy d id ws : probe d id = Some ws -> truthy ws = true.
Proof.
  unfold probe. destruct (d !! _) as [[j|raw]|]; try discriminate.
  destruct (truthy (value_of j)) eqn:E; [|discriminate]. intros [= <-]. exact E.
Qed.

Lemma listing_truthy d ids wss ws :
  listing d ids [] = Ok wss -> ws ∈ wss -> truthy ws = true.
Proof.
  intros H Hin. apply listing_ok in H. subst wss. cbn in Hin.
  apply list_elem_of_omap in Hin as (id & _ & Hp). exact (probe_truthy _ _ _ Hp).
Qed.

Lemma webdav_deletePage_loop_absent cfg pid wss w :
  WebDAVStorage.encodable cfg = true ->
  dav_up w = true ->
  (forall ws, ws ∈ wss -> truthy ws = true) ->
  (forall wid, dav w !! WebDAVStorage.page_path wid pid = None) ->
  WebDAVStorage.deletePage_loop cfg pid wss w =
  (Throw (Error "Failed to delete page: Page not found"), w).
Proof.
  intros Henc Hup Ht Habs. induction wss as [|ws wss IH]; [reflexivity|].
  cbn [WebDAVStorage.deletePage_loop].
  destruct (get_prop_truthy "id" ws) as [wid Hw]; [apply Ht; left|].
  rewrite bind_eq. unfold lift_res. rewrite Hw. cbv beta iota.
  rewrite bind_eq, makeRequest_DELETE_absent
    by (assumption || apply page_path_not_collection || apply Habs).
  cbv beta iota. cbn [WebDAVStorage.ok].
  apply IH. intros x Hx. apply Ht. right. exact Hx.
Qed.

(** C3 (WebDAV). On a server that answers and lists its workspaces,
    [deletePage] of an id that has no page resource under any workspace
    throws instead of returning: 'Page not found' with credentials that
    [btoa] accepts, and the [InvalidCharacterError] of [btoa] with others;
    the server is left as it was. *)
Theorem C3_webdav_deletePage_absent_throws :
  forall (cfg : WebDAVConfig) (w : World) (pageId : string),
    server_lists w ->
    (forall wid, dav w !! WebDAVStorage.page_path wid pageId = None) ->
    WebDAVStorage.deletePage cfg pageId w =
    (Throw (if WebDAVStorage.encodable cfg
            then Error "Failed to delete page: Page not found"
            else InvalidCharacterError), w).
Proof.
  intros cfg w pid [Hup Hg] Habs.
  unfold WebDAVStorage.deletePage. rewrite bind_eq.
  rewrite webdav_getAllWorkspaces_eq.
  destruct (WebDAVStorage.encodable cfg) eqn:Henc; [|reflexivity]. rewrite Hup.
  destruct (listing_total (dav w) WebDAVStorage.commonWorkspaceIds [] Hg) as [wss H].
  rewrite H. apply webdav_deletePage_loop_absent; [exact Henc|exact Hup| |exact Habs].
  intros ws. exact (listing_truthy _ _ _ _ H).
Qed.

(** ** Paths and names *)

Lemma has_slash_app (a b : string) :
  has_slash (a +:+ b) = has_slash a || has_slash b.
Proof.
  induction a as [|c a IH]; [reflexivity|].
  rewrite app_cons. cbn [has_slash]. rewrite IH. apply orb_assoc.
Qed.

Lemma dirname_no_slash (s : string) : has_slash s = false -> dirname s = "".
Proof. destruct s as [|c r]; [reflexivity|]. intros H. cbn [dirname]. rewrite H. reflexivity. Qed.

Lemma dirname_slash (a b : string) :
  dirname (a +:+ String "/" b) = a +:+ String "/" (dirname b).
Proof.
  induction a as [|c a IH].
  - rewrite !app_empty. cbn [dirname has_slash]. reflexivity.
  - rewrite !app_cons. cbn [dirname].
    replace (has_slash (String c (a +:+ String "/" b))) with true.
    + rewrite IH. reflexivity.
    + symmetry. cbn [has_slash]. rewrite has_slash_app. cbn [has_slash].
      rewrite Ascii.eqb_refl. cbn. rewrite !orb_true_r. reflexivity.
Qed.

Lemma without_final_slash_id (s : string) :
  endsWith s "/" = false -> without_final_slash s = s.
Proof.
  induction s as [|c r IH]; [reflexivity|].
  cbn [endsWith]. intros H. apply orb_false_iff in H as [H1 H2].
  cbn [without_final_slash]. destruct r as [|c' r'].
  - cbn [String.eqb] in H1. destruct (Ascii.eqb c "/"); [discriminate|reflexivity].
  - rewrite (IH H2). reflexivity.
Qed.



Lemma parent_workspace_path id :
  has_slash id = false -> Http.parent (WebDAVStorage.workspace_path id) = "/".
Proof.
  intros H. unfold Http.parent.
  rewrite without_final_slash_id by apply workspace_path_not_collection.
  unfold WebDAVStorage.workspace_path.
  change ("/workspace-" +:+ id +:+ ".json")
    with ("" +:+ String "/" ("workspace-" +:+ id +:+ ".json")).
  rewrite dirname_slash, dirname_no_slash; [reflexivity|].
  rewrite !has_slash_app, H. reflexivity.
Qed.



Lemma valid_name_data_file (pre id : string) :
  pre = "workspace-" \/ pre = "page-" ->
  FileSystem.valid_name (pre +:+ id +:+ ".json") = negb (has_slash id).
Proof.
  intros Hpre. unfold FileSystem.valid_name.
  assert (has_slash (pre +:+ id +:+ ".json") = has_slash id) as ->.
  { rewrite !has_slash_app.
    replace (has_slash pre) with false by (destruct Hpre as [-> | ->]; reflexivity).
    replace (has_slash ".json") with false by reflexivity.
    rewrite orb_false_r. reflexivity. }
  assert (forall s : string, String.length s <= 2 ->
            String.eqb (pre +:+ id +:+ ".json") s = false)%nat as Hs.
  { intros s Hl. apply String.eqb_neq. intros E.
    apply (f_equal String.length) in E. rewrite !length_app in E.
    destruct Hpre as [-> | ->]; cbn in E; lia. }
  rewrite !Hs by (cbn; lia). reflexivity.
Qed.

Lemma valid_page_file id :
  FileSystem.valid_name ("page-" +:+ id +:+ ".json") = negb (has_slash id).
Proof. apply valid_name_data_file. right. reflexivity. Qed.

Lemma valid_workspace_file id :
  FileSystem.valid_name ("workspace-" +:+ id +:+ ".json") = negb (has_slash id).
Proof. apply valid_name_data_file. left. reflexivity. Qed.

(** The other two providers do what the WebDAV provider misses. *)
Lemma browser_deletePage_absent pageId w :
  idb_up w = true ->
  idb w !! ("page_" +:+ pageId) = None ->
  BrowserStorage.deletePage pageId w = (Ok tt, w).
Proof.
  intros Hup Habs. unfold BrowserStorage.deletePage, localforage.removeItem,
    localforage.ready, try_catch, bind, modify. rewrite Hup. f_equal.
  destruct w; cbn in *. unfold set_idb; cbn. f_equal.
  apply delete_id. exact Habs.
Qed.

Lemma ensureDirectoryHandle_granted this w :
  directory_granted this w ->
  exists w1, LocalStorage.ensureDirectoryHandle this w = (Ok tt, w1) /\
             dir w1 = dir w /\ dir_writable w1 = dir_writable w /\
             directory_granted this w1.
Proof.
  unfold LocalStorage.ensureDirectoryHandle, FileSystem.showDirectoryPicker,
    directory_granted. run.
  intros [[h Hh] | [Ha Hg]].
  - rewrite Hh. destruct h. exists w. split; [reflexivity|].
    split; [reflexivity|]. split; [reflexivity|]. left. rewrite Hh. eauto.
  - destruct (locals w !! this ≫= directoryHandle) as [[]|] eqn:Hh.
    + exists w. split; [reflexivity|]. split; [reflexivity|].
      split; [reflexivity|]. left. rewrite Hh. eauto.
    + rewrite Ha, Hg. cbn. eexists. split; [reflexivity|].
      split; [reflexivity|]. split; [reflexivity|]. right. split; assumption.
Qed.

Lemma local_deletePage_absent this pageId w :
  directory_granted this w ->
  dir_writable w = true ->
  has_slash pageId = false ->
  dir w !! ("page-" +:+ pageId +:+ ".json") = None ->
  fst (LocalStorage.deletePage this pageId w) = Ok tt /\
  dir (snd (LocalStorage.deletePage this pageId w)) = dir w.
Proof.
  intros Hg Hw Hs Habs.
  destruct (ensureDirectoryHandle_granted this w Hg) as (w1 & He & Hd & Hw1 & _).
  assert (LocalStorage.deletePage this pageId w = (Ok tt, w1)) as ->.
  { unfold LocalStorage.deletePage. rewrite bind_eq, He.
    unfold try_catch, FileSystem.removeEntry.
    rewrite valid_page_file, Hs, Hw1, Hw, Hd, Habs. reflexivity. }
  split; [reflexivity|exact Hd].
Qed.

Lemma webdav_getPage_loop_absent cfg pid wss w :
  WebDAVStorage.encodable cfg = true ->
  dav_up w = true ->
  (forall ws, ws ∈ wss -> truthy ws = true) ->
  (forall wid, dav w !! WebDAVStorage.page_path wid pid = None) ->
  WebDAVStorage.getPage_loop cfg pid wss w = (Ok VNull, w).
Proof.
  intros Henc Hup Ht Habs. induction wss as [|ws wss IH]; [reflexivity|].
  cbn [WebDAVStorage.getPage_loop].
  destruct (get_prop_truthy "id" ws) as [wid Hw]; [apply Ht; left|].
  rewrite bind_eq. unfold lift_res. rewrite Hw. cbv beta iota.
  rewrite bind_eq, makeRequest_GET by assumption. rewrite Habs.
  cbv beta iota. cbn [WebDAVStorage.ok].
  apply IH. intros x Hx. apply Ht. right. exact Hx.
Qed.

Lemma local_get_absent this fileName w (wrap : string) :
  directory_granted this w ->
  FileSystem.valid_name fileName = true ->
  dir w !! fileName = None ->
  fst ((LocalStorage.ensureDirectoryHandle this ;;
        try_catch
          (fileHandle <- FileSystem.getFileHandle fileName false ;;
           text <- FileSystem.read fileHandle ;;
           JSON_parse text)
          (fun error =>
             if String.eqb (name error) "NotFoundError" then ret VNull
             else throw (Error (wrap +:+ message error)))) w) = Ok VNull.
Proof.
  intros Hg Hv Habs. rewrite bind_eq.
  destruct (ensureDirectoryHandle_granted this w Hg) as (w1 & -> & Hd & _).
  unfold try_catch, bind, FileSystem.getFileHandle. rewrite Hv, Hd, Habs. reflexivity.
Qed.

Lemma local_get_invalid this fileName w (wrap : string) :
  directory_granted this w ->
  FileSystem.valid_name fileName = false ->
  fst ((LocalStorage.ensureDirectoryHandle this ;;
        try_catch
          (fileHandle <- FileSystem.getFileHandle fileName false ;;
           text <- FileSystem.read fileHandle ;;
           JSON_parse text)
          (fun error =>
             if String.eqb (name error) "NotFoundError" then ret VNull
             else throw (Error (wrap +:+ message error)))) w)
  = Throw (Error (wrap +:+ message (FileSystem.invalid_name "getFileHandle"))).
Proof.
  intros Hg Hv. rewrite bind_eq.
  destruct (ensureDirectoryHandle_granted this w Hg) as (w1 & -> & Hd & _).
  unfold try_catch, bind, FileSystem.getFileHandle. rewrite Hv. reflexivity.
Qed.

(** C8, as amended. A lookup of an id under which the backing store holds
    nothing returns [null] under these conditions. BrowserStorage:
    whenever no item is stored under the key. LocalStorage: whenever the
    directory can be got at, the id has no [/] and the directory has no
    file of that name; with a [/] in the id the lookup throws.
    WebDAVStorage, with credentials that [btoa] accepts: [getWorkspace]
    whenever the server answers and has no resource at the workspace path;
    [getPage] whenever the listing returns and no workspace has a page
    resource of that id. With credentials that [btoa] rejects both throw,
    and [getPage] throws what the listing throws. *)
Theorem C8_lookup_of_absent_id_is_null :
  forall (w : World) (id : string),
    (idb w !! ("workspace_" +:+ id) = None ->
     BrowserStorage.getWorkspace id w = (Ok VNull, w)) /\
    (idb w !! ("page_" +:+ id) = None ->
     BrowserStorage.getPage id w = (Ok VNull, w)) /\
    (forall this, directory_granted this w ->
       has_slash id = false ->
       dir w !! ("workspace-" +:+ id +:+ ".json") = None ->
       fst (LocalStorage.getWorkspace this id w) = Ok VNull) /\
    (forall this, directory_granted this w ->
       has_slash id = false ->
       dir w !! ("page-" +:+ id +:+ ".json") = None ->
       fst (LocalStorage.getPage this id w) = Ok VNull) /\
    (forall this, directory_granted this w ->
       has_slash id = true ->
       fst (LocalStorage.getWorkspace this id w)
       = Throw (Error ("Failed to get workspace: "
                   +:+ message (FileSystem.invalid_name "getFileHandle"))) /\
       fst (LocalStorage.getPage this id w)
       = Throw (Error ("Failed to get page: "
                   +:+ message (FileSystem.invalid_name "getFileHandle")))) /\
    (forall cfg, WebDAVStorage.encodable cfg = true ->
       dav_up w = true ->
       dav w !! WebDAVStorage.workspace_path id = None ->
       WebDAVStorage.getWorkspace cfg id w = (Ok VNull, w)) /\
    (forall cfg, WebDAVStorage.encodable cfg = true ->
       server_lists w ->
       (forall wid, dav w !! WebDAVStorage.page_path wid id = None) ->
       WebDAVStorage.getPage cfg id w = (Ok VNull, w)) /\
    (forall cfg, WebDAVStorage.encodable cfg = false ->
       WebDAVStorage.getWorkspace cfg id w = (Throw InvalidCharacterError, w) /\
       WebDAVStorage.getPage cfg id w = (Throw InvalidCharacterError, w)) /\
    (forall cfg e, fst (WebDAVStorage.getAllWorkspaces cfg w) = Throw e ->
       WebDAVStorage.getPage cfg id w = (Throw e, w)).
Proof.
  intros w id. split; [|split; [|split; [|split; [|split; [|split; [|split; [|split]]]]]]].
  - intros Habs. unfold BrowserStorage.getWorkspace, localforage.getItem,
      localforage.ready, try_catch, bind, gets.
    destruct (idb_up w); [|reflexivity]. rewrite Habs. reflexivity.
  - intros Habs. unfold BrowserStorage.getPage, localforage.getItem,
      localforage.ready, try_catch, bind, gets.
    destruct (idb_up w); [|reflexivity]. rewrite Habs. reflexivity.
  - intros this Hg Hs Habs. apply (local_get_absent this _ w _ Hg); [|exact Habs].
    rewrite valid_workspace_file, Hs. reflexivity.
  - intros this Hg Hs Habs. apply (local_get_absent this _ w _ Hg); [|exact Habs].
    rewrite valid_page_file, Hs. reflexivity.
  - intros this Hg Hs. split.
    + apply (local_get_invalid this _ w "Failed to get workspace: " Hg).
      rewrite valid_workspace_file, Hs. reflexivity.
    + apply (local_get_invalid this _ w "Failed to get page: " Hg).
      rewrite valid_page_file, Hs. reflexivity.
  - intros cfg Henc Hup Habs.
    rewrite webdav_getWorkspace_eq, Henc, Hup, Habs. reflexivity.
  - intros cfg Henc [Hup Hg] Habs. unfold WebDAVStorage.getPage. rewrite bind_eq.
    rewrite webdav_getAllWorkspaces_eq, Henc, Hup.
    destruct (listing_total (dav w) WebDAVStorage.commonWorkspaceIds [] Hg) as [wss H].
    rewrite H. apply webdav_getPage_loop_absent; [exact Henc|exact Hup| |exact Habs].
    intros ws. exact (listing_truthy _ _ _ _ H).
  - intros cfg Henc. split.
    + rewrite webdav_getWorkspace_eq, Henc. reflexivity.
    + unfold WebDAVStorage.getPage.
      rewrite bind_eq, webdav_getAllWorkspaces_eq, Henc. reflexivity.
  - intros cfg e He. unfold WebDAVStorage.getPage. rewrite bind_eq.
    pose proof (webdav_getAllWorkspaces_frame cfg w) as F.
    destruct (WebDAVStorage.getAllWorkspaces cfg w) as [[wss|e'] w0].
    + discriminate He.
    + cbn in He, F. injection He as ->. subst w0. reflexivity.
Qed.

(** ** Round trips of a page *)




Lemma local_write_file this fileName t (wrap : string) w :
  dir_writable w = true ->
  directory_granted this w ->
  FileSystem.valid_name fileName = true ->
  exists w2,
    try_catch
      (fileHandle <- FileSystem.getFileHandle fileName true ;;
       FileSystem.write fileHandle t)
      (fun error => throw (Error (wrap +:+ message error))) w
    = (Ok tt, w2) /\
    dir w2 !! fileName = Some t /\
    directory_granted this w2.
Proof.
  intros Hw Hg Hv. unfold try_catch, bind, FileSystem.getFileHandle, FileSystem.write.
  rewrite Hv, Hw. cbn [negb]. destruct (dir w !! fileName).
  - rewrite Hw. eexists. split; [reflexivity|]. split; [apply lookup_insert_eq|exact Hg].
  - cbn [dir_writable set_dir]. rewrite Hw. eexists. split; [reflexivity|].
    split; [apply lookup_insert_eq|exact Hg].
Qed.

Lemma local_write_invalid fileName t (wrap : string) w :
  FileSystem.valid_name fileName = false ->
  try_catch
    (fileHandle <- FileSystem.getFileHandle fileName true ;;
     FileSystem.write fileHandle t)
    (fun error => throw (Error (wrap +:+ message error))) w
  = (Throw (Error (wrap +:+ message (FileSystem.invalid_name "getFileHandle"))), w).
Proof.
  intros Hv. unfold try_catch, bind, FileSystem.getFileHandle. rewrite Hv. reflexivity.
Qed.




Lemma get_prop_id_of v :
  truthy v = true -> exists id, get_prop "id" v = Ok id /\ to_string id = id_of v.
Proof.
  intros Ht. destruct (get_prop_truthy "id" v Ht) as [id H].
  exists id. split; [exact H|]. unfold id_of. rewrite H. reflexivity.
Qed.

Lemma mkcol_lookup path d k :
  endsWith k "/" = false -> Http.mkcol path d !! k = d !! k.
Proof.
  intros Hk. unfold Http.mkcol. destruct (Http.creatable d path); [|reflexivity].
  apply lookup_insert_ne. intros E.
  pose proof (as_collection_is_collection path) as H.
  rewrite E, Hk in H. discriminate.
Qed.





















Lemma C3_witness :
  WebDAVStorage.deletePage dav_config "p1" world_dav1 =
  (Throw (Error "Failed to delete page: Page not found"), world_dav1).
Proof.
  assert (dav world_dav1 =
          <[WebDAVStorage.workspace_path "default" :=
              JSON_stringify
                (VObj [("id", VStr "default"); ("name", VStr "My Workspace");
                       ("pages", VArr [page1]); ("currentPageId", VStr "p1");
                       ("lastSync", VStr "2026-01-01T00:00:00.000Z")])]>
            (<["/pages/" := Http.collection]> (∅ : gmap string text))) as Hdav
    by (vm_compute; reflexivity).
  apply (C3_webdav_deletePage_absent_throws dav_config world_dav1 "p1").
  - split; [reflexivity|]. intros id raw _. rewrite Hdav.
    destruct (decide (WebDAVStorage.workspace_path "default"
                      = WebDAVStorage.workspace_path id)) as [<-|N].
    + rewrite lookup_insert_eq. discriminate.
    + rewrite lookup_insert_ne by exact N.
      rewrite lookup_insert_ne
        by (intros E; pose proof (workspace_path_not_collection id) as H;
            rewrite <- E in H; discriminate H).
      rewrite lookup_empty. discriminate.
  - intros wid. rewrite Hdav.
    rewrite lookup_insert_ne
      by (intros E; symmetry in E; exact (page_path_not_workspace_path _ _ _ E)).
    rewrite lookup_insert_ne
      by (intros E; pose proof (page_path_not_collection wid "p1") as H;
          rewrite <- E in H; discriminate H).
    apply lookup_empty.
Defined.

(** The second of two [deletePage] calls on the same id: the first removes
    the page resource and returns, the second throws. *)
Example webdav_deletePage_twice :
  fst (WebDAVStorage.deletePage dav_config "p1" world_dav2) = Ok tt /\
  fst (WebDAVStorage.deletePage dav_config "p1"
         (snd (WebDAVStorage.deletePage dav_config "p1" world_dav2)))
  = Throw (Error "Failed to delete page: Page not found").
Proof. split; vm_compute; reflexivity. Qed.



Lemma C8_witness :
  BrowserStorage.getWorkspace "nope" world0 = (Ok VNull, world0) /\
  BrowserStorage.getPage "nope" world0 = (Ok VNull, world0) /\
  fst (LocalStorage.getWorkspace 0 "nope" world_local0) = Ok VNull /\
  fst (LocalStorage.getPage 0 "nope" world_local0) = Ok VNull /\
  fst (LocalStorage.getPage 0 "a/b" world_local0)
  = Throw (Error ("Failed to get page: "
                   +:+ message (FileSystem.invalid_name "getFileHandle"))) /\
  WebDAVStorage.getWorkspace dav_config "nope" world0 = (Ok VNull, world0) /\
  WebDAVStorage.getPage dav_config "nope" world0 = (Ok VNull, world0).
Proof.
  destruct (C8_lookup_of_absent_id_is_null world0 "nope")
    as (H1 & H2 & _ & _ & _ & H6 & H7 & _).
  destruct (C8_lookup_of_absent_id_is_null world_local0 "nope")
    as (_ & _ & H3 & H4 & _).
  destruct (C8_lookup_of_absent_id_is_null world_local0 "a/b")
    as (_ & _ & _ & _ & H5 & _).
  split; [apply H1; apply lookup_empty|].
  split; [apply H2; apply lookup_empty|].
  split; [apply H3; [right; split; reflexivity|reflexivity|apply lookup_empty]|].
  split; [apply H4; [right; split; reflexivity|reflexivity|apply lookup_empty]|].
  split; [apply (H5 0%nat); [right; split; reflexivity|reflexivity]|].
  split; [apply H6; [reflexivity|reflexivity|apply lookup_empty]|].
  apply H7.
  - reflexivity.
  - split; [reflexivity|]. intros id raw _. cbn. rewrite lookup_empty. discriminate.
  - intros wid. apply lookup_empty.
Defined.

(** C8 as the specification states it fails on the WebDAV provider. Nothing was
    ever saved under the page id and the server holds no page resource,
    yet [getPage] throws, because it lists the workspaces first and the
    resource at [/workspace-default.json] is not JSON. And with a user
    name that has a character beyond U+00FF (here U+0141), [getWorkspace]
    throws before any request is sent. *)
Lemma C8_counterexample :
  (let w := set_dav (fun d => <[WebDAVStorage.workspace_path "default" :=
                                  Garbage "<html>"]> d) world0 in
   (forall wid, dav w !! WebDAVStorage.page_path wid "nope" = None) /\
   WebDAVStorage.getPage dav_config "nope" w
   = (Throw (SyntaxError "Unexpected token in JSON"), w)) /\
  (let cfg := mkWebDAVConfig "https://x/dav"
                (String "197" (String "129" "ukasz")) "p" true in
   dav world0 !! WebDAVStorage.workspace_path "nope" = None /\
   WebDAVStorage.getWorkspace cfg "nope" world0 = (Throw InvalidCharacterError, world0)).
Proof.
  split; [split|split].
  - intros wid. cbn [dav set_dav world0].
    rewrite lookup_insert_ne
      by (intros E; symmetry in E; exact (page_path_not_workspace_path _ _ _ E)).
    apply lookup_empty.
  - vm_compute. reflexivity.
  - reflexivity.
  - vm_compute. reflexivity.
Qed.

(** ** The export of the browser provider, read by the local provider *)

Lemma assoc_set_lookup {A} k k' (v : A) d :
  assoc k (assoc_set k' v d) = if String.eqb k k' then Some v else assoc k d.
Proof.
  induction d as [|[k0 x] r IH]; cbn [assoc_set assoc].
  - reflexivity.
  - destruct (String.eqb_spec k' k0) as [->|N]; cbn [assoc].
    + destruct (String.eqb k k0); reflexivity.
    + rewrite IH. destruct (String.eqb_spec k k0) as [->|_]; [|reflexivity].
      apply String.eqb_neq in N. rewrite String.eqb_sym, N. reflexivity.
Qed.

Lemma browser_export_loop keys data w :
  idb_up w = true ->
  for_fold keys data
    (fun data key =>
       item <- localforage.getItem key ;;
       ret (assoc_set key item data)) w
  = (Ok (fold_left (fun d k => assoc_set k (default VNull (idb w !! k)) d) keys data),
     w).
Proof.
  intros Hup. revert data. induction keys as [|k keys IH]; intros data.
  - reflexivity.
  - cbn [for_fold fold_left]. rewrite !bind_eq.
    unfold localforage.getItem, localforage.ready. rewrite bind_eq, Hup.
    unfold gets. apply IH.
Qed.

Lemma export_fold_absent (m : gmap string value) k keys data :
  k ∉ keys -> assoc k data = None ->
  assoc k (fold_left (fun d k' => assoc_set k' (default VNull (m !! k')) d) keys data)
  = None.
Proof.
  revert data. induction keys as [|k' keys IH]; intros data Hk Hd; [exact Hd|].
  cbn [fold_left]. apply IH.
  - intros H. apply Hk. right. exact H.
  - rewrite assoc_set_lookup.
    destruct (String.eqb_spec k k') as [->|_]; [|exact Hd].
    exfalso. apply Hk. left.
Qed.

Lemma json_image_absent k fields :
  assoc k fields = None -> get_prop k (json_image (VObj fields)) = Ok VUndef.
Proof.
  intros H. unfold json_image. cbn [json_of value_of get_prop]. f_equal.
  induction fields as [|[k' x] r IH]; [reflexivity|].
  cbn [assoc] in H. destruct (String.eqb k k') eqn:E; [discriminate|].
  destruct x; cbn [assoc]; rewrite ?E; exact (IH H).
Qed.

Lemma browser_exportData_eq w :
  idb_up w = true ->
  BrowserStorage.exportData w =
  (Ok (JSON_stringify
         (VObj (fold_left (fun d k => assoc_set k (default VNull (idb w !! k)) d)
                  (map_to_list (idb w)).*1 []))), w).
Proof.
  intros Hup. unfold BrowserStorage.exportData, try_catch.
  rewrite bind_eq. unfold localforage.keys, localforage.ready.
  rewrite bind_eq, Hup. unfold gets.
  rewrite bind_eq, browser_export_loop by assumption. reflexivity.
Qed.

(** What [LocalStorage.importData] does with an export of the browser
    provider whose store has no item named [workspaces] or [pages]:
    nothing at all. *)
Lemma local_import_of_browser_export this w data w0 w' :
  idb_up w = true ->
  idb w !! "workspaces" = None ->
  idb w !! "pages" = None ->
  BrowserStorage.exportData w = (Ok data, w0) ->
  LocalStorage.importData this data w' = (Ok tt, w').
Proof.
  intros Hup Hw Hp. rewrite browser_exportData_eq by assumption.
  intros [= <- _].
  assert (forall k, idb w !! k = None -> k ∉ (map_to_list (idb w)).*1) as Hn.
  { intros k Hk Hin. apply list_elem_of_fmap in Hin as ([k' v] & -> & Hin).
    apply elem_of_map_to_list in Hin. cbn in Hk. congruence. }
  unfold LocalStorage.importData, try_catch. rewrite bind_eq.
  unfold JSON_stringify, JSON_parse, ret. cbv beta iota.
  fold (json_image (VObj (fold_left
          (fun d k => assoc_set k (default VNull (idb w !! k)) d)
          (map_to_list (idb w)).*1 []))).
  rewrite bind_eq. unfold lift_res.
  rewrite json_image_absent
    by (apply export_fold_absent; [apply Hn; exact Hw|reflexivity]).
  cbv beta iota. cbn [truthy]. rewrite bind_eq. unfold ret. cbv beta iota.
  rewrite bind_eq.
  rewrite json_image_absent
    by (apply export_fold_absent; [apply Hn; exact Hp|reflexivity]).
  reflexivity.
Qed.

(** ** Migration between providers of different kinds *)

(** C5 (defect), in general. Let the manager be active on the browser
    provider, with a store that has no item named [workspaces] or [pages]
    (no key written by [saveWorkspace] or [savePage] is), and migrate to a
    local directory that is available, granted and empty. The migration
    returns and switches the manager to the [LocalStorage] provider, the
    directory is still empty, and the listing of the manager is empty,
    whatever workspaces the browser store holds. *)
Theorem C5_migration_browser_to_local_loses_workspaces :
  forall (w : World) (path : string),
    idb_up w = true ->
    fs_api w = true ->
    picker_grant w = true ->
    path <> "" ->
    idb w !! "workspaces" = None ->
    idb w !! "pages" = None ->
    dir w = ∅ ->
    let target := mkConfig "local" (Some path) None in
    let after := StorageManager.migrateData target (browser_manager, w) in
    fst after = Ok tt /\
    StorageManager.config (fst (snd after)) = target /\
    StorageManager.provider (fst (snd after))
    = LocalStorage_provider (length (locals w)) /\
    idb (snd (snd after)) = idb w /\
    dir (snd (snd after)) = ∅ /\
    fst (StorageManager.getAllWorkspaces (snd after)) = Ok [].
Proof.
  intros w path Hup Hapi Hgrant Hpath Hw Hp Hdir target after.
  assert (after =
          (Ok tt, (StorageManager.mk (LocalStorage_provider (length (locals w)))
                     target BrowserStorage_provider,
                   set_locals (fun l => push l (mkLocal path None)) w))) as E.
  { subst after. rewrite migrateData_eq, manager_exportData_eq.
    cbn [StorageManager.provider browser_manager StorageProvider.exportData
           BrowserStorage_provider].
    pose proof (browser_exportData_eq w Hup) as Hx. rewrite Hx.
    unfold StorageManager.createProvider, target.
    cbn [type localPath String.eqb Ascii.eqb Bool.eqb].
    apply String.eqb_neq in Hpath. rewrite Hpath.
    unfold LocalStorage.new. rewrite bind_eq. unfold ret.
    cbn [StorageProvider.isAvailable LocalStorage_provider].
    unfold LocalStorage.isAvailable, gets. cbn [fs_api set_locals]. rewrite Hapi.
    cbn [StorageProvider.importData LocalStorage_provider].
    rewrite (local_import_of_browser_export _ w _ w _ Hup Hw Hp Hx). reflexivity. }
  rewrite E. cbn [fst snd StorageManager.config StorageManager.provider idb dir
                    set_locals].
  repeat (split; [reflexivity || exact Hdir|]).
  rewrite (manager_call_eq _ OpGetAllWorkspaces).
  cbn [provider_call StorageManager.provider StorageProvider.getAllWorkspaces
         LocalStorage_provider].
  unfold LocalStorage.getAllWorkspaces. rewrite bind_eq.
  unfold LocalStorage.ensureDirectoryHandle. rewrite bind_eq. unfold gets.
  cbn [locals set_locals]. unfold push.
  rewrite lookup_app_r by reflexivity. rewrite Nat.sub_diag.
  cbn [lookup list_lookup mbind option_bind directoryHandle].
  rewrite bind_eq. unfold FileSystem.showDirectoryPicker.
  cbn [fs_api picker_grant set_locals]. rewrite Hapi, Hgrant. cbn [negb].
  rewrite bind_eq. unfold modify, ret, try_catch.
  rewrite bind_eq. unfold FileSystem.entries, gets. cbn [dir set_locals].
  rewrite Hdir, map_to_list_empty. reflexivity.
Qed.

Lemma C5_witness :
  fst (StorageManager.migrateData local_config (browser_manager, world_browser1))
  = Ok tt /\
  fst (StorageManager.getAllWorkspaces
         (snd (StorageManager.migrateData local_config
                 (browser_manager, world_browser1))))
  = Ok [].
Proof.
  assert (idb world_browser1 !! "workspaces" = None) as Hw
      by (vm_compute; reflexivity).
  assert (idb world_browser1 !! "pages" = None) as Hp
      by (vm_compute; reflexivity).
  destruct (C5_migration_browser_to_local_loses_workspaces world_browser1
              "/tmp/notes" eq_refl eq_refl eq_refl ltac:(discriminate) Hw Hp eq_refl)
    as (H1 & _ & _ & _ & _ & H6).
  split; [exact H1|exact H6].
Defined.

(** The failing input, evaluated: before the migration the manager lists
    [workspace1]; afterwards it lists nothing. *)
Example migration_browser_to_local_listing :
  fst (StorageManager.getAllWorkspaces (browser_manager, world_browser1))
  = Ok [workspace1] /\
  fst (StorageManager.migrateData local_config (browser_manager, world_browser1))
  = Ok tt /\
  fst (StorageManager.getAllWorkspaces
         (snd (StorageManager.migrateData local_config
                 (browser_manager, world_browser1))))
  = Ok [].
Proof. repeat split; vm_compute; reflexivity. Qed.

(** The same loss in the other direction: the export of the [LocalStorage]
    provider is an envelope [{ workspaces, pages, exportDate }], whose
    three keys [BrowserStorage.importData] stores as items; none of them
    starts with [workspace_], so the listing is empty. *)
Example migration_local_to_browser_loses_workspaces :
  fst (StorageManager.getAllWorkspaces (local_manager, world_local1))
  = Ok [json_image workspace1] /\
  fst (StorageManager.migrateData browser_config (local_manager, world_local1))
  = Ok tt /\
  (map_to_list
     (idb (snd (snd (StorageManager.migrateData browser_config
                       (local_manager, world_local1)))))).*1
  ≡ₚ ["workspaces"; "pages"; "exportDate"] /\
  fst (StorageManager.getAllWorkspaces
         (snd (StorageManager.migrateData browser_config
                 (local_manager, world_local1))))
  = Ok [].
Proof.
  split; [vm_compute; reflexivity|]. split; [vm_compute; reflexivity|].
  split; [|vm_compute; reflexivity].
  apply (bool_decide_unpack _). vm_compute. reflexivity.
Qed.

(** Between the browser provider and the WebDAV provider the export and
    import formats agree, and on a server that has the collection
    [/pages/] the migration carries the workspace over: what the listing
    returns afterwards is the JSON image of [workspace1] with the
    [lastSync] stamp of [saveWorkspace]. *)
Example migration_browser_to_webdav_keeps_workspaces :
  fst (StorageManager.migrateData webdav_config
         (browser_manager, set_dav (Http.mkcol "/pages/") world_browser1))
  = Ok tt /\
  fst (StorageManager.getAllWorkspaces
         (snd (StorageManager.migrateData webdav_config
                 (browser_manager, set_dav (Http.mkcol "/pages/") world_browser1))))
  = Ok [workspace1_stored].
Proof. split; vm_compute; reflexivity. Qed.

(** On a server without the collection [/pages/] the same migration stops
    at the first page: the workspace has been written, the [PUT] of the
    page is refused, [migrateData] throws and the manager keeps the
    browser configuration. *)
Example migration_browser_to_webdav_needs_pages :
  fst (StorageManager.migrateData webdav_config (browser_manager, world_browser1))
  = Throw (Error "Failed to save page: Unknown error") /\
  StorageManager.config
    (fst (snd (StorageManager.migrateData webdav_config
                 (browser_manager, world_browser1))))
  = browser_config /\
  (map_to_list
     (dav (snd (snd (StorageManager.migrateData webdav_config
                       (browser_manager, world_browser1)))))).*1
  = ["/workspace-default.json"].
Proof. split; [|split]; vm_compute; reflexivity. Qed.

(** * Further facts about the providers and the manager *)

(** ** localforage, step by step *)

Lemma lf_setItem_up key v w :
  idb_up w = true ->
  localforage.setItem key v w =
  (Ok (match v with VUndef => VNull | _ => v end),
   set_idb (fun m => <[key := match v with VUndef => VNull | _ => v end]> m) w).
Proof.
  intros Hup. unfold localforage.setItem, localforage.ready.
  rewrite bind_eq, Hup. reflexivity.
Qed.

Lemma lf_getItem_up key w :
  idb_up w = true ->
  localforage.getItem key w = (Ok (default VNull (idb w !! key)), w).
Proof.
  intros Hup. unfold localforage.getItem, localforage.ready.
  rewrite bind_eq, Hup. reflexivity.
Qed.

Lemma lf_down {A} (c : Task World A) w :
  idb_up w = false ->
  (localforage.ready ;; c) w = (Throw localforage.no_driver, w).
Proof. intros Hup. rewrite bind_eq. unfold localforage.ready. rewrite Hup. reflexivity. Qed.

Lemma get_prop_ok_defined k v x :
  get_prop k v = Ok x -> match v with VUndef => VNull | _ => v end = v.
Proof. destruct v; cbn; try discriminate; reflexivity. Qed.

(** X1. BrowserStorage keeps a workspace as it is: with a usable store,
    [saveWorkspace(ws)] followed by [getWorkspace(ws.id)] returns [ws]
    itself, whatever kind of value its [id] is. *)
Theorem browser_workspace_round_trip :
  forall (workspace id : value) (w : World),
    get_prop "id" workspace = Ok id ->
    idb_up w = true ->
    fst ((BrowserStorage.saveWorkspace workspace ;;
          BrowserStorage.getWorkspace (to_string id)) w) = Ok workspace.
Proof.
  intros workspace id w Hid Hup. rewrite bind_eq.
  unfold BrowserStorage.saveWorkspace, try_catch. rewrite bind_eq.
  unfold lift_res. rewrite Hid. cbv beta iota.
  rewrite bind_eq, lf_setItem_up by assumption. unfold ret. cbv beta iota.
  unfold BrowserStorage.getWorkspace, try_catch.
  rewrite lf_getItem_up by assumption. cbn [fst idb set_idb].
  rewrite lookup_insert_eq, (get_prop_ok_defined _ _ _ Hid). reflexivity.
Qed.

Lemma browser_workspace_round_trip_witness :
  fst ((BrowserStorage.saveWorkspace workspace1 ;;
        BrowserStorage.getWorkspace "default") world0) = Ok workspace1.
Proof.
  exact (browser_workspace_round_trip workspace1 (VStr "default") world0
           eq_refl eq_refl).
Defined.

(** X2. With no usable store the reads of BrowserStorage do not throw:
    [getWorkspace] and [getPage] return [null], [getAllWorkspaces] returns
    the empty array, [isAvailable] and [testConnection] return [false];
    nothing is changed. *)
Theorem browser_reads_degrade :
  forall (w : World) (id : string),
    idb_up w = false ->
    BrowserStorage.getWorkspace id w = (Ok VNull, w) /\
    BrowserStorage.getPage id w = (Ok VNull, w) /\
    BrowserStorage.getAllWorkspaces w = (Ok [], w) /\
    BrowserStorage.isAvailable w = (Ok false, w) /\
    BrowserStorage.testConnection w = (Ok false, w).
Proof.
  intros w id Hup.
  unfold BrowserStorage.getWorkspace, BrowserStorage.getPage,
    BrowserStorage.getAllWorkspaces, BrowserStorage.testConnection,
    BrowserStorage.isAvailable, localforage.getItem, localforage.keys, try_catch.
  rewrite !bind_eq. unfold localforage.ready. rewrite Hup.
  repeat split.
Qed.

Lemma browser_reads_degrade_witness :
  BrowserStorage.getAllWorkspaces world_no_idb = (Ok [], world_no_idb).
Proof.
  exact (proj1 (proj2 (proj2 (browser_reads_degrade world_no_idb "x" eq_refl)))).
Defined.

(** X3. With no usable store the writes of BrowserStorage throw an error
    that names the operation and carries the cause, and change nothing. *)
Theorem browser_writes_fail_wrapped :
  forall (w : World) (v : value) (id : string) (t : text),
    idb_up w = false ->
    (forall x, get_prop "id" v = Ok x ->
       BrowserStorage.saveWorkspace v w =
       (Throw (Error "Failed to save workspace: Error: No available storage method found."), w) /\
       BrowserStorage.savePage v w =
       (Throw (Error "Failed to save page: Error: No available storage method found."), w)) /\
    BrowserStorage.deletePage id w =
    (Throw (Error "Failed to delete page: Error: No available storage method found."), w) /\
    BrowserStorage.clearAll w =
    (Throw (Error "Failed to clear storage: Error: No available storage method found."), w) /\
    BrowserStorage.exportData w =
    (Throw (Error "Failed to export data: Error: No available storage method found."), w) /\
    BrowserStorage.importData t w =
    (Throw (Error ("Failed to import data: " +:+
                   match t with
                   | Doc _ => "Error: Failed to clear storage: Error: No available storage method found."
                   | Garbage _ => "SyntaxError: Unexpected token in JSON"
                   end)), w).
Proof.
  intros w v id t Hup. split; [|repeat split].
  - intros x Hx.
    unfold BrowserStorage.saveWorkspace, BrowserStorage.savePage, try_catch.
    rewrite !bind_eq. unfold lift_res. rewrite Hx. cbv beta iota.
    rewrite !bind_eq. unfold localforage.setItem. rewrite !bind_eq.
    unfold localforage.ready. rewrite Hup. split; reflexivity.
  - unfold BrowserStorage.deletePage, localforage.removeItem, try_catch.
    rewrite bind_eq. unfold localforage.ready. rewrite Hup. reflexivity.
  - unfold BrowserStorage.clearAll, localforage.clear, try_catch.
    rewrite bind_eq. unfold localforage.ready. rewrite Hup. reflexivity.
  - unfold BrowserStorage.exportData, localforage.keys, try_catch.
    rewrite !bind_eq. unfold localforage.ready. rewrite Hup. reflexivity.
  - unfold BrowserStorage.importData, BrowserStorage.clearAll, localforage.clear,
      try_catch. rewrite !bind_eq. unfold JSON_parse, ret, throw.
    destruct t as [j|raw]; [|reflexivity]. cbv beta iota.
    rewrite !bind_eq. unfold localforage.ready. rewrite Hup. reflexivity.
Qed.

Lemma browser_writes_fail_wrapped_witness :
  BrowserStorage.exportData world_no_idb =
  (Throw (Error "Failed to export data: Error: No available storage method found."),
   world_no_idb).
Proof.
  exact (proj1 (proj2 (proj2 (proj2
           (browser_writes_fail_wrapped world_no_idb VNull "x" (Garbage "") eq_refl))))).
Defined.

(** The keys of pages and of workspaces never coincide. *)
Lemma page_key_not_workspace_key a b : "page_" +:+ a <> "workspace_" +:+ b.
Proof. app_literals. discriminate. Qed.

Lemma browser_savePage_idb page w :
  idb (snd (BrowserStorage.savePage page w)) = idb w \/
  exists id, get_prop "id" page = Ok id /\
             idb (snd (BrowserStorage.savePage page w))
             = <["page_" +:+ to_string id := page]> (idb w).
Proof.
  unfold BrowserStorage.savePage, try_catch. rewrite bind_eq. unfold lift_res.
  destruct (get_prop "id" page) as [id|e] eqn:Hid; [|left; reflexivity].
  cbv beta iota. rewrite bind_eq.
  destruct (idb_up w) eqn:Hup.
  - rewrite lf_setItem_up by assumption. right. exists id. split; [reflexivity|].
    cbn [snd ret idb set_idb]. rewrite (get_prop_ok_defined _ _ _ Hid). reflexivity.
  - unfold localforage.setItem. rewrite lf_down by assumption. left; reflexivity.
Qed.

(** X4. Saving a page never disturbs another entity of BrowserStorage:
    whatever the page and the state of the store, [getWorkspace] of any id
    and [getPage] of any other id answer after [savePage] what they
    answered before. *)
Theorem browser_savePage_frame :
  forall (page : value) (w : World) (workspaceId pageId : string),
    fst (BrowserStorage.getWorkspace workspaceId (snd (BrowserStorage.savePage page w)))
    = fst (BrowserStorage.getWorkspace workspaceId w) /\
    (pageId <> id_of page ->
     fst (BrowserStorage.getPage pageId (snd (BrowserStorage.savePage page w)))
     = fst (BrowserStorage.getPage pageId w)).
Proof.
  intros page w workspaceId pageId.
  assert (idb_up (snd (BrowserStorage.savePage page w)) = idb_up w) as Hup.
  { unfold BrowserStorage.savePage, try_catch. rewrite bind_eq. unfold lift_res.
    destruct (get_prop "id" page); [|reflexivity]. cbv beta iota.
    rewrite bind_eq. destruct (idb_up w) eqn:Hw.
    - rewrite lf_setItem_up by exact Hw. exact Hw.
    - unfold localforage.setItem. rewrite lf_down by exact Hw. exact Hw. }
  assert (forall key,
             (forall id, get_prop "id" page = Ok id -> "page_" +:+ to_string id <> key) ->
             fst (localforage.getItem key (snd (BrowserStorage.savePage page w)))
             = fst (localforage.getItem key w)) as Hget.
  { intros key Hkey. unfold localforage.getItem, localforage.ready.
    rewrite !bind_eq, Hup. destruct (idb_up w); [|reflexivity].
    unfold gets. cbn [fst]. f_equal. f_equal.
    destruct (browser_savePage_idb page w) as [->|(id & Hid & ->)]; [reflexivity|].
    apply lookup_insert_ne. exact (Hkey id Hid). }
  assert (forall key w1 w2,
             fst (localforage.getItem key w1) = fst (localforage.getItem key w2) ->
             fst (try_catch (localforage.getItem key) (fun _ => ret VNull) w1)
             = fst (try_catch (localforage.getItem key) (fun _ => ret VNull) w2)) as Htry.
  { intros key w1 w2 H. unfold try_catch.
    destruct (localforage.getItem key w1) as [[a|e] s1],
             (localforage.getItem key w2) as [[b|e'] s2]; cbn in H |- *; congruence. }
  split.
  - apply Htry, Hget. intros id _. apply page_key_not_workspace_key.
  - intros Hne. apply Htry, Hget. intros id Hid E.
    apply Hne. apply String.app_inj in E. unfold id_of. rewrite Hid. symmetry. exact E.
Qed.

Lemma browser_savePage_frame_witness :
  fst (BrowserStorage.getPage "p2" (snd (BrowserStorage.savePage page1 world0)))
  = fst (BrowserStorage.getPage "p2" world0).
Proof.
  apply (proj2 (browser_savePage_frame page1 world0 "default" "p2")). discriminate.
Defined.

(** X5. [clearAll] of BrowserStorage, with a usable store, removes every
    item: afterwards every [getWorkspace] and [getPage] returns [null],
    the listing is empty and the export is the empty object. *)
Theorem browser_clearAll_empties :
  forall (w : World) (id : string),
    idb_up w = true ->
    let w' := snd (BrowserStorage.clearAll w) in
    fst (BrowserStorage.clearAll w) = Ok tt /\
    idb w' = ∅ /\
    BrowserStorage.getWorkspace id w' = (Ok VNull, w') /\
    BrowserStorage.getPage id w' = (Ok VNull, w') /\
    BrowserStorage.getAllWorkspaces w' = (Ok [], w') /\
    BrowserStorage.exportData w' = (Ok (Doc (JObj [])), w').
Proof.
  intros w id Hup w'.
  assert (BrowserStorage.clearAll w = (Ok tt, set_idb (fun _ => ∅) w)) as E.
  { unfold BrowserStorage.clearAll, localforage.clear, try_catch.
    rewrite bind_eq. unfold localforage.ready. rewrite Hup. reflexivity. }
  subst w'. rewrite E. cbn [fst snd]. split; [reflexivity|]. split; [reflexivity|].
  assert (idb_up (set_idb (fun _ => ∅) w) = true) as Hup' by assumption.
  unfold BrowserStorage.getWorkspace, BrowserStorage.getPage,
    BrowserStorage.getAllWorkspaces, BrowserStorage.exportData, try_catch.
  rewrite !lf_getItem_up by assumption. cbn [idb set_idb].
  rewrite !lookup_empty. split; [reflexivity|]. split; [reflexivity|].
  rewrite !bind_eq. unfold localforage.keys. rewrite !bind_eq.
  unfold localforage.ready. rewrite Hup'. unfold gets. cbn [idb set_idb].
  rewrite map_to_list_empty. split; reflexivity.
Qed.

Lemma browser_clearAll_empties_witness :
  BrowserStorage.getAllWorkspaces (snd (BrowserStorage.clearAll world_browser1))
  = (Ok [], snd (BrowserStorage.clearAll world_browser1)).
Proof.
  exact (proj1 (proj2 (proj2 (proj2 (proj2
           (browser_clearAll_empties world_browser1 "default" eq_refl)))))).
Defined.

Lemma browser_listing_loop keys acc w :
  idb_up w = true ->
  for_fold keys acc
    (fun workspaces key =>
       workspace <- localforage.getItem key ;;
       ret (if truthy workspace then push workspaces workspace else workspaces)) w
  = (Ok (acc ++ List.filter truthy
                  (List.map (fun k => default VNull (idb w !! k)) keys))%list, w).
Proof.
  intros Hup. revert acc. induction keys as [|k keys IH]; intros acc.
  - cbn. rewrite app_nil_r. reflexivity.
  - cbn [for_fold List.map List.filter]. rewrite !bind_eq.
    rewrite lf_getItem_up by assumption. unfold ret. cbv beta iota.
    rewrite IH. destruct (truthy (default VNull (idb w !! k))); [|reflexivity].
    unfold push. rewrite <- app_assoc. reflexivity.
Qed.

(** X6. With a usable store, [getAllWorkspaces] of BrowserStorage returns
    exactly the items kept under a key that starts with [workspace_] (the
    ones that are not [null]); a page, kept under a [page_] key, is never
    listed. The store is not changed. *)
Theorem browser_getAllWorkspaces_spec :
  forall (w : World),
    idb_up w = true ->
    exists l,
      BrowserStorage.getAllWorkspaces w = (Ok l, w) /\
      forall v, v ∈ l <->
                exists k, String.prefix "workspace_" k = true /\
                          idb w !! k = Some v /\ truthy v = true.
Proof.
  intros w Hup. eexists. split.
  - unfold BrowserStorage.getAllWorkspaces, try_catch. rewrite bind_eq.
    unfold localforage.keys. rewrite bind_eq. unfold localforage.ready.
    rewrite Hup. unfold gets. rewrite browser_listing_loop by assumption.
    reflexivity.
  - intros v. cbn [app]. rewrite list_elem_of_In, filter_In, in_map_iff. split.
    + intros [(k & Hv & Hk) Ht]. apply filter_In in Hk as [Hk Hp].
      apply list_elem_of_In, list_elem_of_fmap in Hk as ([k' x] & -> & Hin).
      apply elem_of_map_to_list in Hin. cbn in Hv, Hp. rewrite Hin in Hv.
      cbn in Hv. subst x. exists k'. split; [exact Hp|]. split; [exact Hin|exact Ht].
    + intros (k & Hp & Hk & Ht). split; [|exact Ht]. exists k. split.
      * rewrite Hk. reflexivity.
      * apply filter_In. split; [|exact Hp].
        apply list_elem_of_In, list_elem_of_fmap. exists (k, v). split; [reflexivity|].
        apply elem_of_map_to_list. exact Hk.
Qed.

Lemma browser_getAllWorkspaces_spec_witness :
  exists l, BrowserStorage.getAllWorkspaces world_browser1 = (Ok l, world_browser1) /\
            (page1 ∈ l -> False).
Proof.
  destruct (browser_getAllWorkspaces_spec world_browser1 eq_refl) as (l & E & H).
  exists l. split; [exact E|]. intros Hin. apply H in Hin as (k & Hp & Hk & _).
  assert (idb world_browser1 = <["page_p1" := page1]> (<["workspace_default" := workspace1]> ∅))
    as Hm by reflexivity.
  rewrite Hm in Hk.
  destruct (decide (k = "page_p1")) as [->|N1]; [discriminate Hp|].
  rewrite lookup_insert_ne in Hk by congruence.
  destruct (decide (k = "workspace_default")) as [->|N2].
  - rewrite lookup_insert_eq in Hk. discriminate Hk.
  - rewrite lookup_insert_ne, lookup_empty in Hk by congruence. discriminate Hk.
Defined.

(** ** Export and import of the browser provider *)

Lemma assoc_app_absent {A} k (d : list (string * A)) k' v :
  assoc k d = None -> k <> k' -> assoc k (d ++ [(k', v)])%list = None.
Proof.
  intros Hd Hk. induction d as [|[k0 x] r IH]; cbn [app assoc].
  - apply String.eqb_neq in Hk. rewrite Hk. reflexivity.
  - cbn [assoc] in Hd. destruct (String.eqb k k0); [discriminate|]. exact (IH Hd).
Qed.

Lemma assoc_set_absent {A} k (v : A) d :
  assoc k d = None -> assoc_set k v d = (d ++ [(k, v)])%list.
Proof.
  induction d as [|[k0 x] r IH]; cbn [assoc assoc_set app]; [reflexivity|].
  destruct (String.eqb k k0); [discriminate|]. intros H. rewrite (IH H). reflexivity.
Qed.

Lemma fold_assoc_set_fresh {A} (f : string -> A) keys acc :
  NoDup keys ->
  (forall k, k ∈ keys -> assoc k acc = None) ->
  fold_left (fun d k => assoc_set k (f k) d) keys acc
  = (acc ++ ((fun k => (k, f k)) <$> keys))%list.
Proof.
  revert acc. induction keys as [|k keys IH]; intros acc Hnd Hacc.
  - cbn. rewrite app_nil_r. reflexivity.
  - apply NoDup_cons in Hnd as [Hk Hnd]. cbn [fold_left]. rewrite fmap_cons.
    rewrite assoc_set_absent by (apply Hacc; left).
    rewrite IH; [rewrite <- app_assoc; reflexivity|exact Hnd|].
    intros k' Hk'. apply assoc_app_absent.
    + apply Hacc. right. exact Hk'.
    + intros ->. exact (Hk Hk').
Qed.

Lemma export_data_is_map_to_list (m : gmap string value) :
  fold_left (fun d k => assoc_set k (default VNull (m !! k)) d) (map_to_list m).*1 []
  = map_to_list m.
Proof.
  rewrite fold_assoc_set_fresh; [|apply NoDup_fst_map_to_list|reflexivity].
  cbn [app]. rewrite <- list_fmap_compose.
  rewrite <- (list_fmap_id (map_to_list m)) at 2.
  apply list_fmap_ext. intros i [k v] Hin.
  apply list_elem_of_lookup_2, elem_of_map_to_list in Hin. cbn. rewrite Hin.
  reflexivity.
Qed.

Lemma json_image_fields fields :
  (forall k, (k, VUndef) ∉ fields) ->
  json_image (VObj fields)
  = VObj ((fun kv => (kv.1, json_image kv.2)) <$> fields).
Proof.
  intros H. unfold json_image. cbn [json_of value_of]. f_equal.
  induction fields as [|[k x] r IH]; [reflexivity|].
  assert (x <> VUndef) as Hx by (intros ->; apply (H k); left).
  rewrite fmap_cons. cbn [fst snd]. rewrite <- IH by (intros k' Hk'; apply (H k'); right; exact Hk').
  destruct x; try contradiction; reflexivity.
Qed.

Lemma json_image_defined v : json_image v <> VUndef.
Proof. destruct v; discriminate. Qed.

Lemma browser_import_loop entries w :
  idb_up w = true ->
  for_each entries
    (fun kv : string * value => localforage.setItem (fst kv) (snd kv) ;; ret tt) w
  = (Ok tt,
     set_idb (fun m => fold_left
                         (fun m kv => <[fst kv := stored_item (snd kv)]> m)
                         entries m) w).
Proof.
  revert w. induction entries as [|[k v] r IH]; intros w Hup.
  - cbn. destruct w; reflexivity.
  - cbn [for_each fold_left]. rewrite !bind_eq, lf_setItem_up by assumption.
    unfold ret. cbv beta iota. rewrite IH by assumption. reflexivity.
Qed.

Lemma fold_insert_lookup (entries : list (string * value)) (m0 : gmap string value) k :
  NoDup entries.*1 ->
  fold_left (fun m kv => <[fst kv := snd kv]> m) entries m0 !! k
  = match (list_to_map entries : gmap string value) !! k with
    | Some v => Some v
    | None => m0 !! k
    end.
Proof.
  revert m0. induction entries as [|[k1 v1] r IH]; intros m0 Hnd.
  - cbn. rewrite lookup_empty. reflexivity.
  - cbn [fmap list_fmap fst] in Hnd. apply NoDup_cons in Hnd as [Hk Hnd].
    cbn [fold_left list_to_map foldr fst snd uncurry].
    rewrite IH by exact Hnd.
    destruct (decide (k1 = k)) as [->|N].
    + rewrite !lookup_insert_eq.
      rewrite (not_elem_of_list_to_map_1 r k Hk). reflexivity.
    + rewrite !lookup_insert_ne by exact N. reflexivity.
Qed.

Lemma fold_insert_stored (entries : list (string * value)) (m0 : gmap string value) :
  (forall k, (k, VUndef) ∉ entries) ->
  fold_left (fun m kv => <[fst kv := stored_item (snd kv)]> m) entries m0
  = fold_left (fun m kv => <[fst kv := snd kv]> m) entries m0.
Proof.
  revert m0. induction entries as [|[k v] r IH]; intros m0 H; [reflexivity|].
  cbn [fold_left fst snd].
  rewrite IH by (intros k' Hk'; apply (H k'); right; exact Hk').
  destruct v; try reflexivity. exfalso. apply (H k). left.
Qed.

(** X7. [importData] undoes [exportData] on BrowserStorage, up to JSON:
    with a usable store that holds no [undefined] item (none does that was
    written through [setItem]), exporting and importing the export leaves
    under every key the JSON image of what was there, and nothing else;
    a store whose items are their own JSON images is restored as it was. *)
Theorem browser_export_import_round_trip :
  forall (w : World),
    idb_up w = true ->
    (forall k, idb w !! k <> Some VUndef) ->
    let after := (data <- BrowserStorage.exportData ;;
                  BrowserStorage.importData data) w in
    fst after = Ok tt /\
    idb (snd after) = json_image <$> idb w /\
    ((forall k v, idb w !! k = Some v -> json_image v = v) ->
     idb (snd after) = idb w).
Proof.
  intros w Hup Hdef after.
  assert (after = (Ok tt, set_idb (fun _ => json_image <$> idb w) w)) as E.
  { subst after. rewrite bind_eq, browser_exportData_eq by assumption.
    rewrite export_data_is_map_to_list.
    unfold BrowserStorage.importData, try_catch. rewrite bind_eq.
    unfold JSON_stringify, JSON_parse, ret. cbv beta iota.
    fold (json_image (VObj (map_to_list (idb w)))).
    rewrite json_image_fields.
    2: { intros k Hin. apply elem_of_map_to_list in Hin. exact (Hdef k Hin). }
    rewrite bind_eq.
    unfold BrowserStorage.clearAll, localforage.clear, try_catch.
    rewrite bind_eq. unfold localforage.ready. rewrite Hup.
    unfold modify. rewrite bind_eq. unfold lift_res, Object_entries.
    rewrite browser_import_loop by assumption.
    f_equal. unfold set_idb. cbn [idb_up idb fs_api picker_grant dir_writable dir
                                    locals dav_up dav now].
    f_equal. apply map_eq. intros k.
    set (entries := (fun kv : string * value => (kv.1, json_image kv.2))
                      <$> map_to_list (idb w)).
    assert (entries.*1 = (map_to_list (idb w)).*1) as Hkeys.
    { subst entries. rewrite <- list_fmap_compose. reflexivity. }
    rewrite fold_insert_stored
      by (subst entries; intros k' Hin;
          apply list_elem_of_fmap in Hin as ([k2 v2] & [= _ Hv] & _);
          exact (json_image_defined v2 (eq_sym Hv))).
    rewrite fold_insert_lookup by (rewrite Hkeys; apply NoDup_fst_map_to_list).
    rewrite lookup_empty, lookup_fmap.
    destruct (idb w !! k) as [v|] eqn:Hk; cbn.
    - erewrite elem_of_list_to_map_1; [reflexivity| |].
      + rewrite Hkeys. apply NoDup_fst_map_to_list.
      + subst entries. apply list_elem_of_fmap. exists (k, v).
        split; [reflexivity|]. apply elem_of_map_to_list. exact Hk.
    - rewrite not_elem_of_list_to_map_1; [reflexivity|].
      rewrite Hkeys. intros Hin. apply list_elem_of_fmap in Hin as ([k' v'] & -> & Hin).
      apply elem_of_map_to_list in Hin. cbn in Hk. congruence. }
  rewrite E. cbn [fst snd idb set_idb]. split; [reflexivity|]. split; [reflexivity|].
  intros Hstable. apply map_eq. intros k. rewrite lookup_fmap.
  destruct (idb w !! k) as [v|] eqn:Hk; cbn; [|reflexivity].
  rewrite (Hstable k v Hk). reflexivity.
Qed.

Lemma browser_export_import_round_trip_witness :
  idb (snd ((data <- BrowserStorage.exportData ;;
             BrowserStorage.importData data) world_browser1))
  = json_image <$> idb world_browser1.
Proof.
  apply (proj1 (proj2 (browser_export_import_round_trip world_browser1 eq_refl
                         ltac:(intros k;
                               change (idb world_browser1) with
                                 (<["page_p1" := page1]>
                                    (<["workspace_default" := workspace1]>
                                       (∅ : gmap string value)));
                               destruct (decide ("page_p1" = k)) as [<-|N1];
                               [rewrite lookup_insert_eq; discriminate|];
                               rewrite lookup_insert_ne by exact N1;
                               destruct (decide ("workspace_default" = k)) as [<-|N2];
                               [rewrite lookup_insert_eq; discriminate|];
                               rewrite lookup_insert_ne, lookup_empty by exact N2;
                               discriminate)))).
Defined.

(** ** The local directory provider *)

(** X8. LocalStorage keeps a workspace up to JSON: with the directory
    granted for writing and no [/] in the workspace's id,
    [saveWorkspace(ws)] followed by [getWorkspace(ws.id)] returns
    [JSON.parse(JSON.stringify(ws))]. With a [/] in the id the file name
    is refused: [saveWorkspace] throws and the directory is as before. *)
Theorem local_workspace_round_trip :
  forall (this : nat) (workspace id : value) (w : World),
    get_prop "id" workspace = Ok id ->
    directory_granted this w ->
    (dir_writable w = true ->
     has_slash (to_string id) = false ->
     fst ((LocalStorage.saveWorkspace this workspace ;;
           LocalStorage.getWorkspace this (to_string id)) w)
     = Ok (json_image workspace)) /\
    (has_slash (to_string id) = true ->
     fst (LocalStorage.saveWorkspace this workspace w)
     = Throw (Error ("Failed to save workspace: "
                   +:+ message (FileSystem.invalid_name "getFileHandle"))) /\
     dir (snd (LocalStorage.saveWorkspace this workspace w)) = dir w).
Proof.
  intros this workspace id w Hid Hg. split.
  - intros Hw Hs. rewrite bind_eq.
    assert (FileSystem.valid_name ("workspace-" +:+ to_string id +:+ ".json") = true)
      as Hv by (rewrite valid_workspace_file, Hs; reflexivity).
    unfold LocalStorage.saveWorkspace. rewrite bind_eq.
    destruct (ensureDirectoryHandle_granted this w Hg) as (w1 & -> & Hd & Hw1 & Hg1).
    rewrite bind_eq. unfold lift_res. rewrite Hid. cbv beta iota.
    destruct (local_write_file this ("workspace-" +:+ to_string id +:+ ".json")
                (JSON_stringify workspace) "Failed to save workspace: " w1)
      as (w2 & -> & Hf & Hg2); [congruence|exact Hg1|exact Hv|].
    unfold LocalStorage.getWorkspace. rewrite bind_eq.
    destruct (ensureDirectoryHandle_granted this w2 Hg2) as (w3 & -> & Hd3 & _).
    unfold try_catch, bind, FileSystem.getFileHandle, FileSystem.read.
    rewrite Hv. cbn [negb]. rewrite Hd3, Hf. cbv beta iota. rewrite Hd3, Hf.
    reflexivity.
  - intros Hs. unfold LocalStorage.saveWorkspace. rewrite bind_eq.
    destruct (ensureDirectoryHandle_granted this w Hg) as (w1 & -> & Hd & _).
    rewrite bind_eq. unfold lift_res. rewrite Hid. cbv beta iota.
    rewrite local_write_invalid by (rewrite valid_workspace_file, Hs; reflexivity).
    split; [reflexivity|exact Hd].
Qed.

Lemma local_workspace_round_trip_witness :
  fst ((LocalStorage.saveWorkspace 0 workspace1 ;;
        LocalStorage.getWorkspace 0 "default") world_local0)
  = Ok (json_image workspace1) /\
  fst (LocalStorage.saveWorkspace 0 (VObj [("id", VStr "a/b")]) world_local0)
  = Throw (Error ("Failed to save workspace: "
                   +:+ message (FileSystem.invalid_name "getFileHandle"))).
Proof.
  split.
  - apply (proj1 (local_workspace_round_trip 0 workspace1 (VStr "default")
                    world_local0 eq_refl ltac:(right; split; reflexivity)));
      reflexivity.
  - apply (proj2 (local_workspace_round_trip 0 (VObj [("id", VStr "a/b")])
                    (VStr "a/b") world_local0 eq_refl
                    ltac:(right; split; reflexivity))).
    reflexivity.
Defined.

(** X9. The directory handle is acquired once: when [ensureDirectoryHandle]
    has returned for an object, every later call on that object returns
    without asking the picker, even if the picker is gone or the user
    would now refuse, and changes nothing. *)
Theorem local_handle_is_cached :
  forall (this : nat) (w w1 : World),
    (this < length (locals w))%nat ->
    LocalStorage.ensureDirectoryHandle this w = (Ok tt, w1) ->
    forall w2, locals w2 = locals w1 ->
               LocalStorage.ensureDirectoryHandle this w2 = (Ok tt, w2).
Proof.
  intros this w w1 Hlt He w2 Hl.
  assert (locals w1 !! this ≫= directoryHandle = Some tt) as Hh.
  { revert He. unfold LocalStorage.ensureDirectoryHandle. rewrite bind_eq.
    unfold gets. cbv beta iota.
    destruct (locals w !! this ≫= directoryHandle) as [[]|] eqn:Hh.
    - intros [= <-]. exact Hh.
    - rewrite bind_eq. unfold FileSystem.showDirectoryPicker.
      destruct (negb (fs_api w)); [discriminate|].
      destruct (negb (picker_grant w)); [discriminate|].
      rewrite bind_eq. unfold modify, ret. intros [= <-].
      cbn [locals set_locals].
      destruct (lookup_lt_is_Some_2 (locals w) this Hlt) as [o Ho].
      rewrite list_lookup_alter, Ho. case_decide; [reflexivity|congruence]. }
  unfold LocalStorage.ensureDirectoryHandle. rewrite bind_eq. unfold gets.
  rewrite Hl, Hh. reflexivity.
Qed.

Lemma local_handle_is_cached_witness :
  LocalStorage.ensureDirectoryHandle 0
    (mkWorld true ∅ false false true ∅
       (locals (snd (LocalStorage.ensureDirectoryHandle 0 world_local0)))
       true ∅ "2026-01-01T00:00:00.000Z")
  = (Ok tt,
     mkWorld true ∅ false false true ∅
       (locals (snd (LocalStorage.ensureDirectoryHandle 0 world_local0)))
       true ∅ "2026-01-01T00:00:00.000Z").
Proof.
  apply (local_handle_is_cached 0 world_local0
           (snd (LocalStorage.ensureDirectoryHandle 0 world_local0))).
  - cbn. lia.
  - reflexivity.
  - reflexivity.
Defined.

Lemma ensureDirectoryHandle_refused this w :
  no_directory this w ->
  LocalStorage.ensureDirectoryHandle this w = (Throw (picker_error w), w).
Proof.
  intros [Hh Hp]. unfold LocalStorage.ensureDirectoryHandle, picker_error.
  rewrite bind_eq. unfold gets. rewrite Hh. cbv beta iota.
  rewrite bind_eq. unfold FileSystem.showDirectoryPicker.
  destruct (fs_api w); [|reflexivity].
  destruct Hp as [Hp|Hp]; [discriminate|]. rewrite Hp. reflexivity.
Qed.

(** X10. When a [LocalStorage] object has no handle and the picker does
    not deliver one, its storage operations throw the picker's own error,
    unwrapped, before touching anything: a lookup does not answer [null].
    [importData] fails the same way only from its first save, and wraps
    the error; [testConnection] answers [false]. *)
Theorem local_without_directory :
  forall (this : nat) (w : World) (v : value) (id : string),
    no_directory this w ->
    LocalStorage.saveWorkspace this v w = (Throw (picker_error w), w) /\
    LocalStorage.getWorkspace this id w = (Throw (picker_error w), w) /\
    LocalStorage.savePage this v w = (Throw (picker_error w), w) /\
    LocalStorage.getPage this id w = (Throw (picker_error w), w) /\
    LocalStorage.deletePage this id w = (Throw (picker_error w), w) /\
    LocalStorage.getAllWorkspaces this w = (Throw (picker_error w), w) /\
    LocalStorage.clearAll this w = (Throw (picker_error w), w) /\
    LocalStorage.exportData this w = (Throw (picker_error w), w) /\
    LocalStorage.importData this (JSON_stringify (VObj [("workspaces", VArr [v])])) w
    = (Throw (Error ("Failed to import data: " +:+ message (picker_error w))), w) /\
    LocalStorage.testConnection this w = (Ok false, w).
Proof.
  intros this w v id Hn. pose proof (ensureDirectoryHandle_refused this w Hn) as E.
  unfold LocalStorage.saveWorkspace, LocalStorage.getWorkspace,
    LocalStorage.savePage, LocalStorage.getPage, LocalStorage.deletePage,
    LocalStorage.clearAll, LocalStorage.exportData.
  rewrite !bind_eq.
  assert (LocalStorage.getAllWorkspaces this w = (Throw (picker_error w), w)) as Ea.
  { unfold LocalStorage.getAllWorkspaces. rewrite bind_eq, E. reflexivity. }
  rewrite Ea, E. do 8 (split; [reflexivity|]). split.
  - unfold LocalStorage.importData, try_catch. rewrite bind_eq.
    unfold JSON_stringify, JSON_parse, ret. cbv beta iota.
    cbn [json_of value_of List.map]. rewrite bind_eq. unfold lift_res.
    cbn [get_prop assoc String.eqb Ascii.eqb Bool.eqb default]. cbv beta iota.
    cbn [truthy Datatypes.id iterate]. rewrite bind_eq. rewrite bind_eq.
    cbv beta iota. cbn [for_each]. rewrite bind_eq.
    unfold LocalStorage.saveWorkspace. rewrite bind_eq, E. reflexivity.
  - unfold LocalStorage.testConnection, LocalStorage.isAvailable.
    rewrite bind_eq. unfold gets. cbv beta iota.
    destruct (fs_api w) eqn:Ha; [|reflexivity]. cbn [negb].
    unfold try_catch. rewrite bind_eq, E. reflexivity.
Qed.

Lemma local_without_directory_witness :
  LocalStorage.getWorkspace 0 "default" (snd (LocalStorage.new "x" world_no_picker))
  = (Throw (TypeError "window.showDirectoryPicker is not a function"),
     snd (LocalStorage.new "x" world_no_picker)).
Proof.
  apply (proj1 (proj2 (local_without_directory 0
                         (snd (LocalStorage.new "x" world_no_picker)) VNull "default"
                         (conj eq_refl (or_introl eq_refl))))).
Defined.

(** X11. In a directory granted without the right to write, [savePage],
    [saveWorkspace] and [deletePage] of LocalStorage throw an error that
    names the operation and carries the cause, and no file is created,
    changed or removed. The cause is the refused permission, or the
    refused name when the id has a [/], which is checked first. *)
Theorem local_read_only_directory :
  forall (this : nat) (w : World) (v id : value) (pageId : string),
    directory_granted this w ->
    dir_writable w = false ->
    get_prop "id" v = Ok id ->
    (fst (LocalStorage.savePage this v w)
     = Throw (Error ("Failed to save page: "
                       +:+ message (write_refusal "getFileHandle"
                                      ("page-" +:+ to_string id +:+ ".json")))) /\
     dir (snd (LocalStorage.savePage this v w)) = dir w) /\
    (fst (LocalStorage.saveWorkspace this v w)
     = Throw (Error ("Failed to save workspace: "
                       +:+ message (write_refusal "getFileHandle"
                                      ("workspace-" +:+ to_string id +:+ ".json")))) /\
     dir (snd (LocalStorage.saveWorkspace this v w)) = dir w) /\
    (fst (LocalStorage.deletePage this pageId w)
     = Throw (Error ("Failed to delete page: "
                       +:+ message (write_refusal "removeEntry"
                                      ("page-" +:+ pageId +:+ ".json")))) /\
     dir (snd (LocalStorage.deletePage this pageId w)) = dir w).
Proof.
  intros this w v id pageId Hg Hw Hid.
  destruct (ensureDirectoryHandle_granted this w Hg) as (w1 & E & Hd & Hw1 & _).
  rewrite Hw in Hw1.
  unfold LocalStorage.savePage, LocalStorage.saveWorkspace, LocalStorage.deletePage.
  rewrite !bind_eq, E. unfold lift_res. rewrite Hid. cbv beta iota.
  unfold try_catch, FileSystem.removeEntry. rewrite !bind_eq.
  unfold FileSystem.getFileHandle, write_refusal. rewrite Hw1.
  destruct (FileSystem.valid_name ("page-" +:+ to_string id +:+ ".json")),
    (FileSystem.valid_name ("workspace-" +:+ to_string id +:+ ".json")),
    (FileSystem.valid_name ("page-" +:+ pageId +:+ ".json"));
    cbn [negb fst snd]; repeat split; exact Hd.
Qed.

Lemma local_read_only_directory_witness :
  fst (LocalStorage.savePage 0 page1
         (mkWorld true ∅ true true false ∅ [mkLocal "/tmp/notes" None] true ∅
            "2026-01-01T00:00:00.000Z"))
  = Throw (Error ("Failed to save page: " +:+ message FileSystem.NotAllowedError)).
Proof.
  apply (proj1 (proj1 (local_read_only_directory 0
                         (mkWorld true ∅ true true false ∅ [mkLocal "/tmp/notes" None]
                            true ∅ "2026-01-01T00:00:00.000Z")
                         page1 (VStr "p1") "p1"
                         (or_intror (conj eq_refl eq_refl)) eq_refl eq_refl))).
Defined.

Lemma local_clear_loop names w :
  dir_writable w = true ->
  NoDup names ->
  (forall n, n ∈ names -> FileSystem.valid_name n = true) ->
  (forall n, n ∈ names -> is_Some (dir w !! n)) ->
  for_each names
    (fun name =>
       if (String.prefix "workspace-" name || String.prefix "page-" name)
          && endsWith name ".json"
       then FileSystem.removeEntry name
       else ret tt) w
  = (Ok tt,
     set_dir (fun d => fold_left (fun d n => if is_data_file n then delete n d else d)
                         names d) w).
Proof.
  revert w. induction names as [|n names IH]; intros w Hw Hnd Hv Hin.
  - cbn. destruct w; reflexivity.
  - apply NoDup_cons in Hnd as [Hn Hnd]. cbn [for_each fold_left].
    assert (forall n', n' ∈ names -> FileSystem.valid_name n' = true) as Hv'
      by (intros n' Hn'; apply Hv; right; exact Hn').
    rewrite bind_eq. fold (is_data_file n).
    destruct (is_data_file n) eqn:Em.
    + unfold FileSystem.removeEntry. rewrite (Hv n) by left. cbn [negb]. rewrite Hw.
      destruct (Hin n) as [t Ht]; [left|]. rewrite Ht.
      rewrite IH; [reflexivity|exact Hw|exact Hnd|exact Hv'|].
      intros n' Hn'. cbn [dir set_dir].
      rewrite lookup_delete_ne by (intros ->; exact (Hn Hn')).
      apply Hin. right. exact Hn'.
    + unfold ret. rewrite IH; [reflexivity|exact Hw|exact Hnd|exact Hv'|].
      intros n' Hn'. apply Hin. right. exact Hn'.
Qed.

Lemma clear_fold_lookup names (d : gmap string text) n :
  fold_left (fun d n => if is_data_file n then delete n d else d) names d !! n
  = if is_data_file n && bool_decide (n ∈ names) then None else d !! n.
Proof.
  revert d. induction names as [|k names IH]; intros d.
  - cbn. rewrite andb_false_r. reflexivity.
  - cbn [fold_left]. rewrite IH.
    destruct (is_data_file n) eqn:Em; cbn [andb].
    + destruct (decide (n = k)) as [->|N].
      * rewrite Em, lookup_delete_eq.
        rewrite (bool_decide_eq_true_2 (k ∈ k :: names)) by left.
        destruct (bool_decide (k ∈ names)); reflexivity.
      * destruct (bool_decide (n ∈ names)) eqn:Eb.
        -- rewrite (bool_decide_eq_true_2 (n ∈ k :: names)); [reflexivity|].
           right. apply bool_decide_eq_true_1 in Eb. exact Eb.
        -- rewrite (bool_decide_eq_false_2 (n ∈ k :: names)).
           ++ destruct (is_data_file k); [apply lookup_delete_ne; congruence|reflexivity].
           ++ apply bool_decide_eq_false_1 in Eb. intros H.
              apply elem_of_cons in H as [H|H]; [exact (N H)|exact (Eb H)].
    + destruct (is_data_file k) eqn:Ek; [|reflexivity].
      apply lookup_delete_ne. intros ->. congruence.
Qed.

(** X12. [clearAll] of LocalStorage, in a directory granted for writing
    whose entries bear names that entries can bear, removes exactly the
    files named [workspace-*.json] and [page-*.json]: afterwards none of
    them exists and every other file is as it was. *)
Theorem local_clearAll_spec :
  forall (this : nat) (w : World),
    directory_granted this w ->
    dir_writable w = true ->
    valid_names (dir w) ->
    fst (LocalStorage.clearAll this w) = Ok tt /\
    forall name,
      dir (snd (LocalStorage.clearAll this w)) !! name
      = if is_data_file name then None else dir w !! name.
Proof.
  intros this w Hg Hw Hvalid.
  destruct (ensureDirectoryHandle_granted this w Hg) as (w1 & E & Hd & Hw1 & _).
  unfold LocalStorage.clearAll. rewrite bind_eq, E. unfold try_catch.
  rewrite bind_eq. unfold FileSystem.entries, gets. cbv beta iota.
  rewrite local_clear_loop.
  - cbn [fst snd dir set_dir]. split; [reflexivity|]. intros name.
    rewrite clear_fold_lookup, Hd.
    destruct (is_data_file name); [|reflexivity]. cbn [andb].
    destruct (bool_decide (name ∈ (map_to_list (dir w)).*1)) eqn:Eb; [reflexivity|].
    apply bool_decide_eq_false_1 in Eb.
    destruct (dir w !! name) as [t|] eqn:Hn; [|reflexivity].
    exfalso. apply Eb. apply list_elem_of_fmap. exists (name, t).
    split; [reflexivity|]. apply elem_of_map_to_list. exact Hn.
  - congruence.
  - apply NoDup_fst_map_to_list.
  - intros n Hn. apply list_elem_of_fmap in Hn as ([n' t] & -> & Hn).
    apply elem_of_map_to_list in Hn. rewrite Hd in Hn.
    exact (Hvalid n' t Hn).
  - intros n Hn. apply list_elem_of_fmap in Hn as ([n' t] & -> & Hn).
    apply elem_of_map_to_list in Hn. eauto.
Qed.

Lemma local_clearAll_spec_witness :
  fst (LocalStorage.clearAll 0 world_local1) = Ok tt /\
  dir (snd (LocalStorage.clearAll 0 world_local1)) !! "page-p1.json" = None.
Proof.
  destruct (local_clearAll_spec 0 world_local1
              (or_intror (conj eq_refl eq_refl)) eq_refl
              ltac:(apply (bool_decide_unpack _); vm_compute; reflexivity))
    as [H1 H2].
  split; [exact H1|]. exact (H2 "page-p1.json").
Defined.

Lemma local_listing_loop names acc w :
  (forall n, n ∈ names -> is_workspace_file n = true ->
             exists j, dir w !! n = Some (Doc j)) ->
  for_fold names acc
    (fun workspaces name =>
       if String.prefix "workspace-" name && endsWith name ".json" then
         text <- FileSystem.read name ;;
         workspace <- JSON_parse text ;;
         ret (push workspaces workspace)
       else ret workspaces) w
  = (Ok (acc ++ omap (fun n => if is_workspace_file n then
                                 match dir w !! n with
                                 | Some (Doc j) => Some (value_of j)
                                 | _ => None
                                 end
                               else None) names)%list, w).
Proof.
  revert acc. induction names as [|n names IH]; intros acc H.
  - cbn. rewrite app_nil_r. reflexivity.
  - cbn [for_fold omap list_omap]. rewrite bind_eq. fold (is_workspace_file n).
    destruct (is_workspace_file n) eqn:Em.
    + destruct (H n) as [j Hj]; [left|exact Em|].
      rewrite bind_eq. unfold FileSystem.read. rewrite Hj. cbv beta iota.
      rewrite bind_eq. unfold JSON_parse, ret. cbv beta iota.
      rewrite IH by (intros n' Hn'; apply H; right; exact Hn').
      unfold push. rewrite <- app_assoc. reflexivity.
    + unfold ret. apply IH. intros n' Hn'. apply H. right. exact Hn'.
Qed.

Lemma local_listing_loop_garbage names acc w :
  (forall n, n ∈ names -> is_Some (dir w !! n)) ->
  (exists n raw, n ∈ names /\ is_workspace_file n = true /\
                 dir w !! n = Some (Garbage raw)) ->
  for_fold names acc
    (fun workspaces name =>
       if String.prefix "workspace-" name && endsWith name ".json" then
         text <- FileSystem.read name ;;
         workspace <- JSON_parse text ;;
         ret (push workspaces workspace)
       else ret workspaces) w
  = (Throw (SyntaxError "Unexpected token in JSON"), w).
Proof.
  revert acc. induction names as [|n names IH]; intros acc Hex (g & raw & Hin & Hm & Hg).
  - inversion Hin.
  - assert (forall n', n' ∈ names -> is_Some (dir w !! n')) as Hex'
        by (intros n' Hn'; apply Hex; right; exact Hn').
    cbn [for_fold]. rewrite bind_eq. fold (is_workspace_file n).
    destruct (is_workspace_file n) eqn:Em.
    + rewrite bind_eq. unfold FileSystem.read.
      destruct (Hex n) as [t Ht]; [left|]. rewrite Ht. cbv beta iota.
      destruct t as [j|raw'].
      * rewrite bind_eq. unfold JSON_parse, ret. cbv beta iota.
        apply IH; [exact Hex'|]. exists g, raw. split; [|split; assumption].
        apply elem_of_cons in Hin as [->|Hin]; [congruence|exact Hin].
      * reflexivity.
    + unfold ret. apply IH; [exact Hex'|]. exists g, raw. split; [|split; assumption].
      apply elem_of_cons in Hin as [->|Hin]; [congruence|exact Hin].
Qed.

Lemma local_listing_loop_frame names acc w :
  snd (for_fold names acc
         (fun workspaces name =>
            if String.prefix "workspace-" name && endsWith name ".json" then
              text <- FileSystem.read name ;;
              workspace <- JSON_parse text ;;
              ret (push workspaces workspace)
            else ret workspaces) w) = w.
Proof.
  revert acc. induction names as [|n names IH]; intros acc; [reflexivity|].
  cbn [for_fold]. rewrite bind_eq.
  destruct (String.prefix "workspace-" n && endsWith n ".json").
  - rewrite bind_eq. unfold FileSystem.read.
    destruct (dir w !! n) as [[j|raw]|]; try reflexivity.
    rewrite bind_eq. unfold JSON_parse, ret. cbv beta iota. apply IH.
  - unfold ret. apply IH.
Qed.

(** X13. [getAllWorkspaces] of LocalStorage scans the directory: when the
    directory can be got at and every file named [workspace-*.json] holds
    JSON, it returns exactly the values parsed from those files, and no
    other file (a page, a foreign file) contributes; when one of those
    files does not hold JSON, it throws 'Failed to get workspaces'. No
    file is changed either way. *)
Theorem local_getAllWorkspaces_spec :
  forall (this : nat) (w : World),
    directory_granted this w ->
    dir (snd (LocalStorage.getAllWorkspaces this w)) = dir w /\
    ((forall n raw, is_workspace_file n = true -> dir w !! n <> Some (Garbage raw)) ->
     exists l,
       fst (LocalStorage.getAllWorkspaces this w) = Ok l /\
       forall v, v ∈ l <->
                 exists n j, is_workspace_file n = true /\
                             dir w !! n = Some (Doc j) /\ v = value_of j) /\
    ((exists n raw, is_workspace_file n = true /\ dir w !! n = Some (Garbage raw)) ->
     fst (LocalStorage.getAllWorkspaces this w)
     = Throw (Error "Failed to get workspaces: Unexpected token in JSON")).
Proof.
  intros this w Hg.
  destruct (ensureDirectoryHandle_granted this w Hg) as (w1 & E & Hd & _).
  assert (forall n, n ∈ (map_to_list (dir w1)).*1 <-> is_Some (dir w !! n)) as Hkeys.
  { intros n. rewrite Hd, list_elem_of_fmap. split.
    - intros ([n' t] & -> & Hn). apply elem_of_map_to_list in Hn. eauto.
    - intros [t Ht]. exists (n, t). split; [reflexivity|].
      apply elem_of_map_to_list. exact Ht. }
  unfold LocalStorage.getAllWorkspaces. rewrite bind_eq, E. unfold try_catch.
  rewrite bind_eq. unfold FileSystem.entries, gets. cbv beta iota.
  split; [|split].
  - match goal with
    | |- context [for_fold ?names ?acc ?body w1] =>
        pose proof (local_listing_loop_frame names acc w1) as F;
        destruct (for_fold names acc body w1) as [[l|e] w2]
    end; cbn [snd] in F |- *; subst w2; exact Hd.
  - intros Hok. eexists. rewrite local_listing_loop.
    + split; [reflexivity|]. intros v. cbn [app]. rewrite list_elem_of_omap. split.
      * intros (n & Hn & Hv). destruct (is_workspace_file n) eqn:Em; [|discriminate].
        rewrite Hd in Hv. destruct (dir w !! n) as [[j|raw]|] eqn:Hj; try discriminate.
        injection Hv as <-. exists n, j. split; [exact Em|]. split; [exact Hj|reflexivity].
      * intros (n & j & Hm & Hj & ->). exists n. split.
        -- apply Hkeys. rewrite Hj. eauto.
        -- rewrite Hm, Hd, Hj. reflexivity.
    + intros n Hn Hm. apply Hkeys in Hn as [t Ht]. rewrite Hd, Ht.
      destruct t as [j|raw]; [eauto|]. exfalso. exact (Hok n raw Hm Ht).
  - intros (n & raw & Hm & Hn). rewrite local_listing_loop_garbage.
    + reflexivity.
    + intros n' Hn'. rewrite Hd. apply Hkeys. exact Hn'.
    + exists n, raw. split; [|split; [exact Hm|rewrite Hd; exact Hn]].
      apply Hkeys. rewrite Hn. eauto.
Qed.

Lemma local_getAllWorkspaces_spec_witness :
  exists l, fst (LocalStorage.getAllWorkspaces 0 world_local1) = Ok l /\
            (forall v, v ∈ l -> exists n j, is_workspace_file n = true /\
                                            dir world_local1 !! n = Some (Doc j) /\
                                            v = value_of j).
Proof.
  destruct (proj1 (proj2 (local_getAllWorkspaces_spec 0 world_local1
                            (or_intror (conj eq_refl eq_refl)))))
    as (l & E & H).
  - intros n raw _.
    change (dir world_local1) with
      (<["page-p1.json" := JSON_stringify page1]>
         (<["workspace-default.json" := JSON_stringify workspace1]>
            (∅ : gmap string text))).
    destruct (decide ("page-p1.json" = n)) as [<-|N1];
      [rewrite lookup_insert_eq; discriminate|].
    rewrite lookup_insert_ne by exact N1.
    destruct (decide ("workspace-default.json" = n)) as [<-|N2];
      [rewrite lookup_insert_eq; discriminate|].
    rewrite lookup_insert_ne, lookup_empty by exact N2. discriminate.
  - exists l. split; [exact E|]. intros v Hv. apply H. exact Hv.
Defined.

Lemma catch_all_returns {A} (c : Task World A) (a0 : A) w :
  exists a w', try_catch c (fun _ => ret a0) w = (Ok a, w').
Proof.
  unfold try_catch, ret. destruct (c w) as [[a|e] w']; eauto.
Qed.

(** X14. [testConnection] of LocalStorage never throws. Without the
    directory picker it answers [false] and does nothing, even for an
    object that holds a handle. With the picker, the directory at hand
    and the right to write, it answers [true] and leaves no
    [test-connection.json] behind: a file of that name that was there
    before is gone too; every other file is as it was. *)
Theorem local_testConnection_spec :
  forall (this : nat) (w : World),
    (exists b w', LocalStorage.testConnection this w = (Ok b, w')) /\
    (fs_api w = false -> LocalStorage.testConnection this w = (Ok false, w)) /\
    (fs_api w = true -> directory_granted this w -> dir_writable w = true ->
     fst (LocalStorage.testConnection this w) = Ok true /\
     dir (snd (LocalStorage.testConnection this w))
     = delete "test-connection.json" (dir w)).
Proof.
  intros this w. unfold LocalStorage.testConnection, LocalStorage.isAvailable.
  rewrite bind_eq. unfold gets. cbv beta iota. split; [|split].
  - destruct (fs_api w); cbn [negb]; [apply catch_all_returns|].
    eexists _, _. reflexivity.
  - intros ->. reflexivity.
  - intros -> Hg Hw. cbn [negb].
    destruct (ensureDirectoryHandle_granted this w Hg) as (w1 & E & Hd & Hw1 & _).
    rewrite Hw in Hw1.
    unfold try_catch. rewrite bind_eq, E. rewrite bind_eq.
    unfold FileSystem.getFileHandle, FileSystem.removeEntry.
    change (FileSystem.valid_name "test-connection.json") with true.
    cbn [negb]. rewrite Hw1.
    destruct (dir w1 !! "test-connection.json") as [t|] eqn:Ht.
    + rewrite bind_eq.
      change (FileSystem.valid_name "test-connection.json") with true.
      cbn [negb]. rewrite Hw1, Ht.
      cbn [fst snd ret dir set_dir]. rewrite Hd. split; reflexivity.
    + rewrite bind_eq.
      change (FileSystem.valid_name "test-connection.json") with true.
      cbn [negb dir_writable dir set_dir]. rewrite Hw1, lookup_insert_eq.
      cbn [fst snd ret dir set_dir]. split; [reflexivity|].
      rewrite delete_insert_eq, Hd. reflexivity.
Qed.

Lemma local_testConnection_spec_witness :
  LocalStorage.testConnection 0 (snd (LocalStorage.new "x" world_no_picker))
  = (Ok false, snd (LocalStorage.new "x" world_no_picker)) /\
  fst (LocalStorage.testConnection 0 world_local1) = Ok true.
Proof.
  split.
  - apply (proj1 (proj2 (local_testConnection_spec 0
                           (snd (LocalStorage.new "x" world_no_picker))))).
    reflexivity.
  - apply (proj2 (proj2 (local_testConnection_spec 0 world_local1)));
      [reflexivity| |reflexivity].
    left. cbn. eauto.
Defined.

(** ** The WebDAV provider *)

Lemma get_prop_field k k' v x : get_prop k v = Ok x -> get_prop k' v = Ok (field k' v).
Proof. unfold field. destruct v; cbn; try discriminate; reflexivity. Qed.

Lemma webdav_testConnection_eq cfg w :
  WebDAVStorage.testConnection cfg w
  = (Ok (WebDAVStorage.encodable cfg && dav_up w), w).
Proof.
  unfold WebDAVStorage.testConnection, try_catch. rewrite bind_eq.
  destruct (WebDAVStorage.encodable cfg) eqn:Henc;
    [|rewrite makeRequest_unencodable by assumption; reflexivity].
  destruct (dav_up w) eqn:Hup.
  - rewrite makeRequest_PROPFIND by assumption. reflexivity.
  - rewrite makeRequest_down by assumption. reflexivity.
Qed.



(** X16. With credentials that [btoa] accepts and the server out of
    reach, every storage operation of the WebDAV provider throws and
    changes nothing; the error names the step that failed, which for
    everything but [saveWorkspace] and [getWorkspace] is the listing of
    the workspaces. With credentials that [btoa] rejects, every storage
    operation throws [InvalidCharacterError], whatever the server, and
    changes nothing. *)
Theorem webdav_unreachable :
  forall (cfg : WebDAVConfig) (w : World) (v : value) (id : string) (j : json),
    (WebDAVStorage.encodable cfg = true ->
     dav_up w = false ->
     (forall x, get_prop "id" v = Ok x ->
        WebDAVStorage.saveWorkspace cfg v w
        = (Throw (Error "Failed to save workspace: Failed to fetch"), w)) /\
     WebDAVStorage.getWorkspace cfg id w
     = (Throw (Error "Failed to get workspace: Failed to fetch"), w) /\
     WebDAVStorage.getAllWorkspaces cfg w
     = (Throw (Error "Failed to list files: Failed to fetch"), w) /\
     WebDAVStorage.savePage cfg v w
     = (Throw (Error "Failed to list files: Failed to fetch"), w) /\
     WebDAVStorage.getPage cfg id w
     = (Throw (Error "Failed to list files: Failed to fetch"), w) /\
     WebDAVStorage.deletePage cfg id w
     = (Throw (Error "Failed to list files: Failed to fetch"), w) /\
     WebDAVStorage.clearAll cfg w
     = (Throw (Error "Failed to list files: Failed to fetch"), w) /\
     WebDAVStorage.exportData cfg w
     = (Throw (Error "Failed to list files: Failed to fetch"), w) /\
     WebDAVStorage.importData cfg (Doc j) w
     = (Throw (Error "Failed to list files: Failed to fetch"), w)) /\
    (WebDAVStorage.encodable cfg = false ->
     (forall x, get_prop "id" v = Ok x ->
        WebDAVStorage.saveWorkspace cfg v w = (Throw InvalidCharacterError, w)) /\
     WebDAVStorage.getWorkspace cfg id w = (Throw InvalidCharacterError, w) /\
     WebDAVStorage.getAllWorkspaces cfg w = (Throw InvalidCharacterError, w) /\
     WebDAVStorage.savePage cfg v w = (Throw InvalidCharacterError, w) /\
     WebDAVStorage.getPage cfg id w = (Throw InvalidCharacterError, w) /\
     WebDAVStorage.deletePage cfg id w = (Throw InvalidCharacterError, w) /\
     WebDAVStorage.clearAll cfg w = (Throw InvalidCharacterError, w) /\
     WebDAVStorage.exportData cfg w = (Throw InvalidCharacterError, w) /\
     WebDAVStorage.importData cfg (Doc j) w = (Throw InvalidCharacterError, w)).
Proof.
  intros cfg w v id j.
  assert (forall e,
            WebDAVStorage.getAllWorkspaces cfg w = (Throw e, w) ->
            WebDAVStorage.savePage cfg v w = (Throw e, w) /\
            WebDAVStorage.getPage cfg id w = (Throw e, w) /\
            WebDAVStorage.deletePage cfg id w = (Throw e, w) /\
            WebDAVStorage.clearAll cfg w = (Throw e, w) /\
            WebDAVStorage.exportData cfg w = (Throw e, w) /\
            WebDAVStorage.importData cfg (Doc j) w = (Throw e, w)) as Hrest.
  { intros e El.
    unfold WebDAVStorage.savePage, WebDAVStorage.getPage, WebDAVStorage.deletePage,
      WebDAVStorage.clearAll, WebDAVStorage.exportData, WebDAVStorage.importData.
    rewrite !bind_eq, El. do 5 (split; [reflexivity|]).
    unfold JSON_parse, ret. cbv beta iota.
    unfold WebDAVStorage.clearAll. rewrite !bind_eq, El. reflexivity. }
  assert (forall x r,
            get_prop "id" v = Ok x ->
            (forall path t, WebDAVStorage.makeRequest cfg path Http.PUT (Some t) w
                            = (r, w)) ->
            WebDAVStorage.saveWorkspace cfg v w =
            match r with
            | Ok response =>
                if negb (WebDAVStorage.ok response)
                then (Throw (Error ("Failed to save workspace: "
                                    +:+ WebDAVStorage.error_or_unknown response)), w)
                else (Ok tt, w)
            | Throw e => (Throw e, w)
            end) as Hsave.
  { intros x r Hx Hput. unfold WebDAVStorage.saveWorkspace.
    rewrite bind_eq. unfold lift_res. rewrite Hx. cbv beta iota.
    rewrite bind_eq, (get_prop_field _ "name" _ _ Hx). cbv beta iota.
    rewrite bind_eq, (get_prop_field _ "pages" _ _ Hx). cbv beta iota.
    rewrite bind_eq, (get_prop_field _ "currentPageId" _ _ Hx). cbv beta iota.
    rewrite bind_eq. unfold gets. cbv beta iota.
    rewrite bind_eq, Hput. destruct r as [response|e]; [|reflexivity].
    destruct (negb (WebDAVStorage.ok response)); reflexivity. }
  split.
  - intros Henc Hup.
    assert (WebDAVStorage.getAllWorkspaces cfg w
            = (Throw (Error "Failed to list files: Failed to fetch"), w)) as El
        by (rewrite webdav_getAllWorkspaces_eq, Henc, Hup; reflexivity).
    split.
    { intros x Hx.
      rewrite (Hsave x (Ok (WebDAVStorage.mkWebDAVResponse false 0 None
                              (Some "Failed to fetch"))) Hx); [reflexivity|].
      intros path t. apply makeRequest_down; assumption. }
    split; [rewrite webdav_getWorkspace_eq, Henc, Hup; reflexivity|].
    split; [exact El|]. exact (Hrest _ El).
  - intros Henc.
    assert (WebDAVStorage.getAllWorkspaces cfg w = (Throw InvalidCharacterError, w))
      as El by (rewrite webdav_getAllWorkspaces_eq, Henc; reflexivity).
    split.
    { intros x Hx. rewrite (Hsave x (Throw InvalidCharacterError) Hx); [reflexivity|].
      intros path t. apply makeRequest_unencodable; assumption. }
    split; [rewrite webdav_getWorkspace_eq, Henc; reflexivity|].
    split; [exact El|]. exact (Hrest _ El).
Qed.

Lemma webdav_unreachable_witness :
  WebDAVStorage.getPage dav_config "p1" world_dav_down
  = (Throw (Error "Failed to list files: Failed to fetch"), world_dav_down) /\
  WebDAVStorage.getPage
    (mkWebDAVConfig "https://x/dav" (String "197" (String "129" "ukasz")) "p" true)
    "p1" world_dav1
  = (Throw InvalidCharacterError, world_dav1).
Proof.
  split.
  - exact (proj1 (proj2 (proj2 (proj2 (proj2
             (proj1 (webdav_unreachable dav_config world_dav_down VNull "p1" JNull)
                eq_refl eq_refl)))))).
  - exact (proj1 (proj2 (proj2 (proj2 (proj2
             (proj2 (webdav_unreachable
                       (mkWebDAVConfig "https://x/dav"
                          (String "197" (String "129" "ukasz")) "p" true)
                       world_dav1 VNull "p1" JNull)
                eq_refl)))))).
Defined.

Lemma writable_workspace_path d id :
  has_slash id = false -> Http.writable d (WebDAVStorage.workspace_path id) = true.
Proof.
  intros H. unfold Http.writable.
  rewrite workspace_path_not_collection, (parent_workspace_path id H). reflexivity.
Qed.

(** X17. The WebDAV provider keeps of a workspace its [id], [name],
    [pages] and [currentPageId], and stamps it: with credentials that
    [btoa] accepts, a server that answers and no [/] in the id,
    [saveWorkspace(ws)] followed by [getWorkspace(ws.id)] returns the
    JSON image of those four properties and [lastSync]; any other
    property of [ws] is lost. When the server refuses the [PUT], because
    a [/] in the id puts the resource into a collection that does not
    exist, [saveWorkspace] throws and nothing is written. *)
Theorem webdav_workspace_round_trip :
  forall (cfg : WebDAVConfig) (workspace id : value) (w : World),
    get_prop "id" workspace = Ok id ->
    WebDAVStorage.encodable cfg = true ->
    dav_up w = true ->
    (has_slash (to_string id) = false ->
     fst ((WebDAVStorage.saveWorkspace cfg workspace ;;
           WebDAVStorage.getWorkspace cfg (to_string id)) w)
     = Ok (json_image (workspaceData workspace (now w)))) /\
    (Http.writable (dav w) (WebDAVStorage.workspace_path (to_string id)) = false ->
     WebDAVStorage.saveWorkspace cfg workspace w
     = (Throw (Error "Failed to save workspace: Unknown error"), w)).
Proof.
  intros cfg workspace id w Hid Henc Hup.
  assert (WebDAVStorage.saveWorkspace cfg workspace w =
          (response <- WebDAVStorage.makeRequest cfg
                         (WebDAVStorage.workspace_path (to_string id)) Http.PUT
                         (Some (JSON_stringify (workspaceData workspace (now w)))) ;;
           if negb (WebDAVStorage.ok response)
           then throw (Error ("Failed to save workspace: "
                              +:+ WebDAVStorage.error_or_unknown response))
           else ret tt) w) as Esave.
  { unfold WebDAVStorage.saveWorkspace.
    rewrite bind_eq. unfold lift_res. rewrite Hid. cbv beta iota.
    rewrite bind_eq, (get_prop_field _ "name" _ _ Hid). cbv beta iota.
    rewrite bind_eq, (get_prop_field _ "pages" _ _ Hid). cbv beta iota.
    rewrite bind_eq, (get_prop_field _ "currentPageId" _ _ Hid). cbv beta iota.
    rewrite bind_eq. unfold gets. cbv beta iota.
    unfold workspaceData, field. rewrite Hid. reflexivity. }
  split.
  - intros Hs. rewrite bind_eq, Esave, bind_eq.
    destruct (makeRequest_PUT cfg (WebDAVStorage.workspace_path (to_string id))
                (JSON_stringify (workspaceData workspace (now w))) w Henc Hup
                (writable_workspace_path _ _ Hs)) as (response & -> & Hok).
    rewrite Hok. cbn [negb]. unfold ret. cbv beta iota.
    rewrite webdav_getWorkspace_eq, Henc. cbn [dav_up dav set_dav]. rewrite Hup.
    rewrite lookup_insert_eq. reflexivity.
  - intros Hwr. rewrite Esave, bind_eq.
    destruct (makeRequest_PUT_refused cfg (WebDAVStorage.workspace_path (to_string id))
                (JSON_stringify (workspaceData workspace (now w))) w Henc Hup Hwr)
      as (response & -> & Hok & Herr).
    rewrite Hok, Herr. reflexivity.
Qed.

Lemma webdav_workspace_round_trip_witness :
  fst ((WebDAVStorage.saveWorkspace dav_config workspace1 ;;
        WebDAVStorage.getWorkspace dav_config "default") world0)
  = Ok workspace1_stored /\
  WebDAVStorage.saveWorkspace dav_config (VObj [("id", VStr "a/b")]) world0
  = (Throw (Error "Failed to save workspace: Unknown error"), world0).
Proof.
  split.
  - exact (proj1 (webdav_workspace_round_trip dav_config workspace1 (VStr "default")
                    world0 eq_refl eq_refl eq_refl) eq_refl).
  - exact (proj2 (webdav_workspace_round_trip dav_config (VObj [("id", VStr "a/b")])
                    (VStr "a/b") world0 eq_refl eq_refl eq_refl) eq_refl).
Defined.

(** ** Computations that only read *)

Lemma ro_ret {A} (a : A) : read_only (ret a).
Proof. intros w. reflexivity. Qed.

Lemma ro_throw {A} e : read_only (@throw World A e).
Proof. intros w. reflexivity. Qed.

Lemma ro_lift_res {A} (r : Res A) : read_only (lift_res r).
Proof. intros w. reflexivity. Qed.

Lemma ro_gets {A} (f : World -> A) : read_only (gets f).
Proof. intros w. reflexivity. Qed.

Lemma ro_bind {A B} (c : Task World A) (k : A -> Task World B) :
  read_only c -> (forall a, read_only (k a)) -> read_only (bind c k).
Proof.
  intros Hc Hk w. rewrite bind_eq. specialize (Hc w).
  destruct (c w) as [[a|e] w']; cbn [snd] in Hc; subst w'; [apply Hk|reflexivity].
Qed.

Lemma ro_try_catch {A} (c : Task World A) (h : error -> Task World A) :
  read_only c -> (forall e, read_only (h e)) -> read_only (try_catch c h).
Proof.
  intros Hc Hh w. unfold try_catch. specialize (Hc w).
  destruct (c w) as [[a|e] w']; cbn [snd] in Hc; subst w'; [reflexivity|apply Hh].
Qed.

Lemma ro_for_fold {A B} (l : list A) (acc : B) (body : B -> A -> Task World B) :
  (forall acc x, read_only (body acc x)) -> read_only (for_fold l acc body).
Proof.
  intros Hb. revert acc. induction l as [|x l IH]; intros acc; cbn [for_fold].
  - apply ro_ret.
  - apply ro_bind; [apply Hb|]. intros a. apply IH.
Qed.

Lemma ro_makeRequest cfg path m payload :
  m = Http.GET \/ m = Http.PROPFIND ->
  read_only (WebDAVStorage.makeRequest cfg path m payload).
Proof.
  intros Hm w. rewrite makeRequest_eq. unfold Http.fetch.
  destruct (WebDAVStorage.encodable cfg); [|reflexivity].
  destruct (dav_up w); [|reflexivity]. cbn [negb].
  destruct Hm as [-> | ->]; [|reflexivity].
  destruct (dav w !! path); reflexivity.
Qed.

Lemma ro_parse_data response : read_only (WebDAVStorage.parse_data response).
Proof.
  unfold WebDAVStorage.parse_data, JSON_parse.
  destruct (WebDAVStorage.data response) as [[j|raw]|];
    [apply ro_ret|apply ro_throw|apply ro_ret].
Qed.

Lemma ro_webdav_getWorkspace cfg id : read_only (WebDAVStorage.getWorkspace cfg id).
Proof.
  unfold WebDAVStorage.getWorkspace.
  apply ro_bind; [apply ro_makeRequest; left; reflexivity|]. intros response.
  destruct (negb (WebDAVStorage.ok response)); [|apply ro_parse_data].
  destruct (WebDAVStorage.status response =? 404)%Z; [apply ro_ret|apply ro_throw].
Qed.

Lemma ro_webdav_getAllWorkspaces cfg : read_only (WebDAVStorage.getAllWorkspaces cfg).
Proof. exact (webdav_getAllWorkspaces_frame cfg). Qed.

Lemma ro_webdav_getPage_loop cfg id wss :
  read_only (WebDAVStorage.getPage_loop cfg id wss).
Proof.
  induction wss as [|ws wss IH]; cbn [WebDAVStorage.getPage_loop]; [apply ro_ret|].
  apply ro_bind; [apply ro_lift_res|]. intros wid.
  apply ro_bind; [apply ro_makeRequest; left; reflexivity|]. intros response.
  destruct (WebDAVStorage.ok response); [apply ro_parse_data|exact IH].
Qed.

Lemma ro_webdav_getPage cfg id : read_only (WebDAVStorage.getPage cfg id).
Proof.
  unfold WebDAVStorage.getPage.
  apply ro_bind; [apply ro_webdav_getAllWorkspaces|]. intros wss.
  apply ro_webdav_getPage_loop.
Qed.

(** X18. Reading from the WebDAV provider never writes: [getWorkspace],
    [getAllWorkspaces], [getPage], [exportData] and [testConnection]
    leave the server, and everything else, exactly as they found it,
    whether they return or throw. *)
Theorem webdav_reads_are_read_only :
  forall (cfg : WebDAVConfig) (id : string),
    read_only (WebDAVStorage.getWorkspace cfg id) /\
    read_only (WebDAVStorage.getAllWorkspaces cfg) /\
    read_only (WebDAVStorage.getPage cfg id) /\
    read_only (WebDAVStorage.exportData cfg) /\
    read_only (WebDAVStorage.testConnection cfg).
Proof.
  intros cfg id.
  split; [apply ro_webdav_getWorkspace|].
  split; [apply ro_webdav_getAllWorkspaces|].
  split; [apply ro_webdav_getPage|]. split.
  - unfold WebDAVStorage.exportData.
    apply ro_bind; [apply ro_webdav_getAllWorkspaces|]. intros wss.
    apply ro_bind; [|intros data; apply ro_ret].
    apply ro_for_fold. intros data workspace.
    apply ro_bind; [apply ro_lift_res|]. intros wid.
    apply ro_bind; [apply ro_lift_res|]. intros pages.
    apply ro_bind; [apply ro_lift_res|]. intros items.
    apply ro_for_fold. intros data' page.
    apply ro_bind; [apply ro_lift_res|]. intros pid.
    apply ro_bind; [apply ro_webdav_getPage|]. intros pageData. apply ro_ret.
  - intros w. rewrite webdav_testConnection_eq. reflexivity.
Qed.

(** ** [clearAll] of the WebDAV provider *)

Lemma prefix_app_same (a b c : string) :
  String.prefix (a +:+ b) (a +:+ c) = String.prefix b c.
Proof.
  induction a as [|x a IH]; [reflexivity|].
  rewrite !app_cons. cbn [String.prefix].
  destruct (ascii_dec x x); [exact IH|contradiction].
Qed.

Lemma collection_not_prefix_of_workspace_path i o :
  String.prefix (pages_collection i) (WebDAVStorage.workspace_path o) = false.
Proof. reflexivity. Qed.

Lemma collection_prefix_of_page_path i pid :
  String.prefix (pages_collection i) (WebDAVStorage.page_path i pid) = true.
Proof.
  unfold pages_collection, WebDAVStorage.page_path.
  rewrite prefix_app_same, prefix_app_same. reflexivity.
Qed.

Lemma makeRequest_DELETE_resource cfg path payload w :
  WebDAVStorage.encodable cfg = true ->
  dav_up w = true ->
  endsWith path "/" = false ->
  exists response w',
    WebDAVStorage.makeRequest cfg path Http.DELETE payload w = (Ok response, w') /\
    dav_up w' = true /\ dav w' = delete path (dav w).
Proof.
  intros Henc Hup He. rewrite makeRequest_eq, Henc. unfold Http.fetch.
  rewrite Hup, He. cbn [negb].
  destruct (dav w !! path) eqn:Hp.
  - eexists _, _. split; [reflexivity|]. split; [exact Hup|reflexivity].
  - eexists _, _. split; [reflexivity|]. split; [exact Hup|].
    symmetry. apply delete_id. exact Hp.
Qed.

Lemma makeRequest_DELETE_collection cfg path payload w :
  WebDAVStorage.encodable cfg = true ->
  dav_up w = true ->
  endsWith path "/" = true ->
  exists response w',
    WebDAVStorage.makeRequest cfg path Http.DELETE payload w = (Ok response, w') /\
    dav_up w' = true /\
    dav w' = filter (fun kv => String.prefix path kv.1 = false) (dav w).
Proof.
  intros Henc Hup He. rewrite makeRequest_eq, Henc. unfold Http.fetch.
  rewrite Hup, He. cbn [negb].
  destruct (existsb (String.prefix path) (map_to_list (dav w)).*1) eqn:Ex.
  - eexists _, _. split; [reflexivity|]. split; [exact Hup|reflexivity].
  - eexists _, _. split; [reflexivity|]. split; [exact Hup|].
    symmetry. apply map_filter_id. intros k t Hk. cbn [fst].
    destruct (String.prefix path k) eqn:Ep; [|reflexivity].
    assert (existsb (String.prefix path) (map_to_list (dav w)).*1 = true) as Ht.
    { apply existsb_exists. exists k. split; [|exact Ep].
      apply list_elem_of_In, list_elem_of_fmap. exists (k, t).
      split; [reflexivity|]. apply elem_of_map_to_list. exact Hk. }
    congruence.
Qed.

Lemma webdav_clear_loop cfg wss w :
  WebDAVStorage.encodable cfg = true ->
  dav_up w = true ->
  (forall ws, ws ∈ wss -> truthy ws = true) ->
  exists w',
    for_each wss
      (fun workspace =>
         wid <- lift_res (get_prop "id" workspace) ;;
         WebDAVStorage.makeRequest cfg (WebDAVStorage.workspace_path (to_string wid))
           Http.DELETE None ;;
         WebDAVStorage.makeRequest cfg ("/pages/workspace-" +:+ to_string wid +:+ "/")
           Http.DELETE None ;;
         ret tt) w
    = (Ok tt, w') /\
    dav_up w' = true /\
    dav w' = fold_left (fun d ws => remove_workspace (id_of ws) d) wss (dav w).
Proof.
  intros Henc. revert w. induction wss as [|ws wss IH]; intros w Hup Ht.
  - exists w. repeat split. exact Hup.
  - cbn [for_each fold_left]. rewrite bind_eq.
    destruct (get_prop_id_of ws) as (wid & Hw & Hid); [apply Ht; left|].
    rewrite bind_eq. unfold lift_res. rewrite Hw. cbv beta iota. rewrite Hid.
    destruct (makeRequest_DELETE_resource cfg
                (WebDAVStorage.workspace_path (id_of ws)) None w Henc Hup
                (workspace_path_not_collection _)) as (r1 & w1 & E1 & Hup1 & Hd1).
    rewrite bind_eq, E1.
    destruct (makeRequest_DELETE_collection cfg (pages_collection (id_of ws)) None w1
                Henc Hup1 (pages_collection_is_collection _))
      as (r2 & w2 & E2 & Hup2 & Hd2).
    unfold pages_collection in E2. rewrite bind_eq, E2. unfold ret. cbv beta iota.
    destruct (IH w2 Hup2) as (w' & E & Hup' & Hd');
      [intros x Hx; apply Ht; right; exact Hx|].
    exists w'. split; [exact E|]. split; [exact Hup'|].
    rewrite Hd', Hd2, Hd1. reflexivity.
Qed.

Lemma remove_workspace_lookup i d p :
  remove_workspace i d !! p
  = if String.eqb p (WebDAVStorage.workspace_path i)
       || String.prefix (pages_collection i) p
    then None else d !! p.
Proof.
  unfold remove_workspace.
  destruct (String.eqb_spec p (WebDAVStorage.workspace_path i)) as [->|N]; cbn [orb].
  - apply map_lookup_filter_None. left. apply lookup_delete_eq.
  - destruct (String.prefix (pages_collection i) p) eqn:Ep.
    + apply map_lookup_filter_None. right. intros t _. cbn [fst]. congruence.
    + destruct (d !! p) as [t|] eqn:Hp.
      * apply map_lookup_filter_Some. split; [|exact Ep].
        rewrite lookup_delete_ne by congruence. exact Hp.
      * apply map_lookup_filter_None. left.
        rewrite lookup_delete_ne by congruence. exact Hp.
Qed.

Lemma clear_fold_absent wss d p :
  d !! p = None ->
  fold_left (fun d ws => remove_workspace (id_of ws) d) wss d !! p = None.
Proof.
  revert d. induction wss as [|ws wss IH]; intros d H; [exact H|].
  cbn [fold_left]. apply IH. rewrite remove_workspace_lookup.
  destruct (_ || _); [reflexivity|exact H].
Qed.

Lemma clear_fold_removed wss d ws p :
  ws ∈ wss ->
  String.eqb p (WebDAVStorage.workspace_path (id_of ws))
  || String.prefix (pages_collection (id_of ws)) p = true ->
  fold_left (fun d ws => remove_workspace (id_of ws) d) wss d !! p = None.
Proof.
  revert d. induction wss as [|x wss IH]; intros d Hin Hp; [inversion Hin|].
  cbn [fold_left]. apply elem_of_cons in Hin as [->|Hin].
  - apply clear_fold_absent. rewrite remove_workspace_lookup, Hp. reflexivity.
  - apply IH; assumption.
Qed.

Lemma clear_fold_kept wss d o :
  (forall ws, ws ∈ wss -> id_of ws <> o) ->
  fold_left (fun d ws => remove_workspace (id_of ws) d) wss d
    !! WebDAVStorage.workspace_path o
  = d !! WebDAVStorage.workspace_path o.
Proof.
  revert d. induction wss as [|x wss IH]; intros d H; [reflexivity|].
  cbn [fold_left]. rewrite IH by (intros ws Hws; apply H; right; exact Hws).
  rewrite remove_workspace_lookup, collection_not_prefix_of_workspace_path, orb_false_r.
  destruct (String.eqb_spec (WebDAVStorage.workspace_path o)
              (WebDAVStorage.workspace_path (id_of x))) as [E|_]; [|reflexivity].
  apply workspace_path_inj in E. exfalso. apply (H x); [left|]. symmetry. exact E.
Qed.

Lemma listing_nothing d ids :
  (forall id, id ∈ ids -> d !! WebDAVStorage.workspace_path id = None) ->
  listing d ids [] = Ok [].
Proof.
  induction ids as [|id ids IH]; intros H; [reflexivity|].
  cbn [listing]. rewrite (H id) by left. apply IH. intros i Hi. apply H. right. exact Hi.
Qed.

Lemma probe_consistent d id ws :
  workspaces_consistent d -> probe d id = Some ws -> id_of ws = id.
Proof.
  intros Hc Hp. unfold probe in Hp.
  destruct (d !! WebDAVStorage.workspace_path id) as [t|] eqn:E; [|discriminate].
  destruct (Hc id t E) as (members & -> & Hm).
  destruct (truthy (value_of (JObj members))); [|discriminate].
  replace ws with (value_of (JObj members)) by congruence.
  unfold id_of. rewrite value_of_member, Hm. reflexivity.
Qed.

Lemma probe_present d id t :
  workspaces_consistent d ->
  d !! WebDAVStorage.workspace_path id = Some t ->
  exists ws, probe d id = Some ws.
Proof.
  intros Hc E. destruct (Hc id t E) as (members & -> & _).
  unfold probe. rewrite E. eexists. reflexivity.
Qed.

(** X19. With credentials that [btoa] accepts, on a server that answers
    and whose workspace resources carry the id of their path, [clearAll]
    returns; afterwards none of the three conventional workspace resources
    exists, the pages of the workspaces that did exist are gone, and the
    listing is empty. A workspace stored under any other id is not
    touched. *)
Theorem webdav_clearAll_spec :
  forall (cfg : WebDAVConfig) (w : World),
    WebDAVStorage.encodable cfg = true ->
    server_lists w ->
    workspaces_consistent (dav w) ->
    exists w',
      WebDAVStorage.clearAll cfg w = (Ok tt, w') /\
      (forall id, id ∈ WebDAVStorage.commonWorkspaceIds ->
                  dav w' !! WebDAVStorage.workspace_path id = None) /\
      (forall id pageId,
          id ∈ WebDAVStorage.commonWorkspaceIds ->
          is_Some (dav w !! WebDAVStorage.workspace_path id) ->
          dav w' !! WebDAVStorage.page_path id pageId = None) /\
      (forall other,
          other ∉ WebDAVStorage.commonWorkspaceIds ->
          dav w' !! WebDAVStorage.workspace_path other
          = dav w !! WebDAVStorage.workspace_path other) /\
      WebDAVStorage.getAllWorkspaces cfg w' = (Ok [], w').
Proof.
  intros cfg w Henc [Hup Hg] Hc.
  destruct (listing_total (dav w) WebDAVStorage.commonWorkspaceIds [] Hg) as [wss Hl].
  assert (wss = omap (probe (dav w)) WebDAVStorage.commonWorkspaceIds) as Hwss
    by exact (listing_ok _ _ _ _ Hl).
  destruct (webdav_clear_loop cfg wss w Henc Hup) as (w' & E & Hup' & Hd');
    [intros ws; exact (listing_truthy _ _ _ ws Hl)|].
  assert (forall id, id ∈ WebDAVStorage.commonWorkspaceIds ->
                     dav w' !! WebDAVStorage.workspace_path id = None) as Hgone.
  { intros id Hid. rewrite Hd'.
    destruct (dav w !! WebDAVStorage.workspace_path id) as [t|] eqn:Et.
    - destruct (probe_present _ _ _ Hc Et) as [ws Hp].
      apply (clear_fold_removed wss _ ws).
      + rewrite Hwss. apply list_elem_of_omap. exists id. split; assumption.
      + rewrite (probe_consistent _ _ _ Hc Hp), String.eqb_refl. reflexivity.
    - apply clear_fold_absent. exact Et. }
  exists w'. split; [|split; [exact Hgone|split; [|split]]].
  - unfold WebDAVStorage.clearAll. rewrite bind_eq, webdav_getAllWorkspaces_eq, Henc, Hup, Hl.
    exact E.
  - intros id pid Hid [t Et]. rewrite Hd'.
    destruct (probe_present _ _ _ Hc Et) as [ws Hp].
    apply (clear_fold_removed wss _ ws).
    + rewrite Hwss. apply list_elem_of_omap. exists id. split; assumption.
    + rewrite (probe_consistent _ _ _ Hc Hp), collection_prefix_of_page_path.
      apply orb_true_r.
  - intros other Hother. rewrite Hd'. apply clear_fold_kept.
    intros ws Hws <-. apply Hother. rewrite Hwss in Hws.
    apply list_elem_of_omap in Hws as (id & Hid & Hp).
    rewrite (probe_consistent _ _ _ Hc Hp). exact Hid.
  - rewrite webdav_getAllWorkspaces_eq, Henc, Hup'.
    rewrite (listing_nothing _ _ Hgone). reflexivity.
Qed.

Lemma world_dav2_lists : server_lists world_dav2.
Proof.
  split; [reflexivity|]. intros id raw Hid.
  repeat (apply elem_of_cons in Hid as [->|Hid]; [vm_compute; discriminate|]).
  inversion Hid.
Qed.

Lemma world_dav2_consistent : workspaces_consistent (dav world_dav2).
Proof.
  apply savePage_consistent.
  apply (saveWorkspace_consistent dav_config workspace1 "default"); [reflexivity|].
  intros id t. change (dav world_pages) with (Http.mkcol "/pages/" ∅).
  rewrite mkcol_lookup by apply workspace_path_not_collection.
  apply workspaces_consistent_empty.
Qed.

Lemma webdav_clearAll_spec_witness :
  exists w',
    WebDAVStorage.clearAll dav_config world_dav2 = (Ok tt, w') /\
    dav w' !! WebDAVStorage.workspace_path "default" = None /\
    dav w' !! WebDAVStorage.page_path "default" "p1" = None /\
    WebDAVStorage.getAllWorkspaces dav_config w' = (Ok [], w').
Proof.
  destruct (webdav_clearAll_spec dav_config world_dav2 eq_refl
              world_dav2_lists world_dav2_consistent)
    as (w' & E & Hgone & Hpages & _ & Hl).
  exists w'. split; [exact E|]. split; [apply Hgone; left|].
  split; [|exact Hl].
  apply Hpages; [left|]. vm_compute. eexists. reflexivity.
Defined.

(** ** [deletePage] of the WebDAV provider on a page that exists *)

Lemma makeRequest_DELETE_present cfg path payload w t :
  WebDAVStorage.encodable cfg = true ->
  dav_up w = true ->
  endsWith path "/" = false ->
  dav w !! path = Some t ->
  WebDAVStorage.makeRequest cfg path Http.DELETE payload w =
  (Ok (WebDAVStorage.mkWebDAVResponse true 204 (Some (Garbage "")) None),
   set_dav (fun d => delete path d) w).
Proof.
  intros Henc Hup He Hp. rewrite makeRequest_eq, Henc. unfold Http.fetch.
  rewrite Hup, He, Hp. reflexivity.
Qed.

Lemma webdav_deletePage_loop_found cfg pid wss w path t :
  WebDAVStorage.encodable cfg = true ->
  dav_up w = true ->
  dav w !! path = Some t ->
  (forall ws, ws ∈ wss -> truthy ws = true) ->
  (exists ws, ws ∈ wss /\ WebDAVStorage.page_path (id_of ws) pid = path) ->
  (forall ws, ws ∈ wss ->
     WebDAVStorage.page_path (id_of ws) pid <> path ->
     dav w !! WebDAVStorage.page_path (id_of ws) pid = None) ->
  WebDAVStorage.deletePage_loop cfg pid wss w
  = (Ok tt, set_dav (fun d => delete path d) w).
Proof.
  intros Henc Hup Hdoc.
  induction wss as [|ws wss IH]; intros Ht (owner & Hin & Hpath) Habs.
  - inversion Hin.
  - cbn [WebDAVStorage.deletePage_loop].
    destruct (get_prop_id_of ws) as (wid & Hw & Hid); [apply Ht; left|].
    rewrite bind_eq. unfold lift_res. rewrite Hw. cbv beta iota. rewrite Hid.
    rewrite bind_eq.
    destruct (decide (WebDAVStorage.page_path (id_of ws) pid = path)) as [E|N].
    + rewrite E.
      rewrite (makeRequest_DELETE_present cfg path None w t Henc Hup);
        [reflexivity|rewrite <- E; apply page_path_not_collection|exact Hdoc].
    + rewrite makeRequest_DELETE_absent
        by (assumption || apply page_path_not_collection || (apply Habs; [left|exact N])).
      cbv beta iota. cbn [WebDAVStorage.ok].
      apply IH.
      * intros x Hx. apply Ht. right. exact Hx.
      * inversion Hin; subst; [contradiction|]. exists owner. split; [assumption|reflexivity].
      * intros x Hx. apply Habs. right. exact Hx.
Qed.

Lemma webdav_getPage_loop_unlisted cfg pid wss w :
  WebDAVStorage.encodable cfg = true ->
  dav_up w = true ->
  (forall ws, ws ∈ wss -> truthy ws = true) ->
  (forall ws, ws ∈ wss -> dav w !! WebDAVStorage.page_path (id_of ws) pid = None) ->
  WebDAVStorage.getPage_loop cfg pid wss w = (Ok VNull, w).
Proof.
  intros Henc Hup. induction wss as [|ws wss IH]; intros Ht Habs; [reflexivity|].
  cbn [WebDAVStorage.getPage_loop].
  destruct (get_prop_id_of ws) as (wid & Hw & Hid); [apply Ht; left|].
  rewrite bind_eq. unfold lift_res. rewrite Hw. cbv beta iota. rewrite Hid.
  rewrite bind_eq, makeRequest_GET by assumption. rewrite (Habs ws) by left.
  cbv beta iota. cbn [WebDAVStorage.ok].
  apply IH; intros x Hx; [apply Ht|apply Habs]; right; exact Hx.
Qed.

Lemma webdav_deletePage_loop_unlisted cfg pid wss w :
  WebDAVStorage.encodable cfg = true ->
  dav_up w = true ->
  (forall ws, ws ∈ wss -> truthy ws = true) ->
  (forall ws, ws ∈ wss -> dav w !! WebDAVStorage.page_path (id_of ws) pid = None) ->
  WebDAVStorage.deletePage_loop cfg pid wss w =
  (Throw (Error "Failed to delete page: Page not found"), w).
Proof.
  intros Henc Hup. induction wss as [|ws wss IH]; intros Ht Habs; [reflexivity|].
  cbn [WebDAVStorage.deletePage_loop].
  destruct (get_prop_id_of ws) as (wid & Hw & Hid); [apply Ht; left|].
  rewrite bind_eq. unfold lift_res. rewrite Hw. cbv beta iota. rewrite Hid.
  rewrite bind_eq, makeRequest_DELETE_absent
    by (assumption || apply page_path_not_collection || (apply Habs; left)).
  cbv beta iota. cbn [WebDAVStorage.ok].
  apply IH; intros x Hx; [apply Ht|apply Habs]; right; exact Hx.
Qed.

(** X20. With credentials that [btoa] accepts, on a server that answers,
    [deletePage] of a page whose resource exists under one listed
    workspace, and under no other, returns and removes just that resource.
    Afterwards [getPage] of the id is [null], and a second [deletePage]
    throws. *)
Theorem webdav_deletePage_present :
  forall (cfg : WebDAVConfig) (pageId : string) (w : World)
         (wss : list value) (owner : value) (t : text),
    WebDAVStorage.encodable cfg = true ->
    dav_up w = true ->
    listing (dav w) WebDAVStorage.commonWorkspaceIds [] = Ok wss ->
    owner ∈ wss ->
    dav w !! WebDAVStorage.page_path (id_of owner) pageId = Some t ->
    (forall ws, ws ∈ wss ->
       WebDAVStorage.page_path (id_of ws) pageId
         <> WebDAVStorage.page_path (id_of owner) pageId ->
       dav w !! WebDAVStorage.page_path (id_of ws) pageId = None) ->
    let w' := set_dav (fun d => delete (WebDAVStorage.page_path (id_of owner) pageId) d) w in
    WebDAVStorage.deletePage cfg pageId w = (Ok tt, w') /\
    WebDAVStorage.getPage cfg pageId w' = (Ok VNull, w') /\
    WebDAVStorage.deletePage cfg pageId w'
    = (Throw (Error "Failed to delete page: Page not found"), w').
Proof.
  intros cfg pid w wss owner t Henc Hup Hl Hin Hp Habs w'.
  assert (forall ws, ws ∈ wss -> truthy ws = true) as Ht
    by (intros ws; exact (listing_truthy _ _ _ ws Hl)).
  assert (listing (dav w') WebDAVStorage.commonWorkspaceIds [] = Ok wss) as Hl'.
  { rewrite <- Hl. apply listing_ext. intros id _. subst w'. cbn [dav set_dav].
    apply lookup_delete_ne. apply page_path_not_workspace_path. }
  assert (forall ws, ws ∈ wss ->
            dav w' !! WebDAVStorage.page_path (id_of ws) pid = None) as Hgone.
  { intros ws Hws. subst w'. cbn [dav set_dav].
    destruct (decide (WebDAVStorage.page_path (id_of owner) pid
                      = WebDAVStorage.page_path (id_of ws) pid)) as [E|N].
    - rewrite E. apply lookup_delete_eq.
    - rewrite lookup_delete_ne by exact N. apply Habs; [exact Hws|congruence]. }
  split; [|split].
  - unfold WebDAVStorage.deletePage.
    rewrite bind_eq, webdav_getAllWorkspaces_eq, Henc, Hup, Hl.
    apply (webdav_deletePage_loop_found cfg pid wss w _ t Henc Hup Hp Ht).
    + exists owner. split; [exact Hin|reflexivity].
    + exact Habs.
  - unfold WebDAVStorage.getPage.
    rewrite bind_eq, webdav_getAllWorkspaces_eq, Henc.
    change (dav_up w') with (dav_up w). rewrite Hup, Hl'.
    apply webdav_getPage_loop_unlisted; assumption.
  - unfold WebDAVStorage.deletePage.
    rewrite bind_eq, webdav_getAllWorkspaces_eq, Henc.
    change (dav_up w') with (dav_up w). rewrite Hup, Hl'.
    apply webdav_deletePage_loop_unlisted; assumption.
Qed.

Lemma webdav_deletePage_present_witness :
  fst (WebDAVStorage.deletePage dav_config "p1" world_dav2) = Ok tt /\
  fst (WebDAVStorage.getPage dav_config "p1"
         (snd (WebDAVStorage.deletePage dav_config "p1" world_dav2))) = Ok VNull.
Proof.
  destruct (webdav_deletePage_present dav_config "p1" world_dav2
              [workspace1_stored] workspace1_stored
              (JSON_stringify (with_lastSync page1 "2026-01-01T00:00:00.000Z"))
              eq_refl eq_refl eq_refl)
    as (H1 & H2 & _).
  - left.
  - vm_compute. reflexivity.
  - intros ws Hws N. apply list_elem_of_singleton in Hws. subst ws. contradiction.
  - rewrite H1. cbn [fst snd]. rewrite H2. split; reflexivity.
Defined.

(** ** Export and import of the local directory provider *)

Lemma json_of_value_of : forall j, json_of (value_of j) = j.
Proof.
  fix IH 1. intros [| | | | items | members]; cbn [value_of json_of]; try reflexivity.
  - f_equal. induction items as [|x r IHr]; cbn [List.map]; [reflexivity|].
    rewrite IH, IHr. reflexivity.
  - f_equal. induction members as [|[k x] r IHr]; [reflexivity|].
    rewrite IHr. rewrite <- (IH x) at 2.
    destruct x; reflexivity.
Qed.

Lemma json_image_value_of j : json_image (value_of j) = value_of j.
Proof. unfold json_image. rewrite json_of_value_of. reflexivity. Qed.

Lemma json_image_parsed (l : list value) :
  (forall v, v ∈ l -> exists j, v = value_of j) ->
  List.map value_of (List.map json_of l) = l.
Proof.
  induction l as [|v l IH]; intros H; [reflexivity|].
  cbn [List.map]. rewrite IH by (intros x Hx; apply H; right; exact Hx).
  destruct (H v) as [j ->]; [left|]. rewrite json_of_value_of. reflexivity.
Qed.

Lemma parsed_file_elem pre d (names : list string) v :
  v ∈ omap (parsed_file pre d) names ->
  exists n j, n ∈ names /\ String.prefix pre n && endsWith n ".json" = true /\
              d !! n = Some (Doc j) /\ v = value_of j.
Proof.
  intros H. apply list_elem_of_omap in H as (n & Hn & Hv).
  unfold parsed_file in Hv.
  destruct (String.prefix pre n && endsWith n ".json") eqn:Ef; [|discriminate].
  destruct (d !! n) as [[j|raw]|] eqn:Hj; try discriminate.
  injection Hv as <-. exists n, j. repeat split; assumption.
Qed.

Lemma local_scan_loop (pre : string) names acc w :
  (forall n, n ∈ names -> String.prefix pre n && endsWith n ".json" = true ->
             exists j, dir w !! n = Some (Doc j)) ->
  for_fold names acc
    (fun found name =>
       if String.prefix pre name && endsWith name ".json" then
         text <- FileSystem.read name ;;
         item <- JSON_parse text ;;
         ret (push found item)
       else ret found) w
  = (Ok (acc ++ omap (parsed_file pre (dir w)) names)%list, w).
Proof.
  revert acc. induction names as [|n names IH]; intros acc H.
  - cbn. rewrite app_nil_r. reflexivity.
  - cbn [for_fold omap list_omap]. rewrite bind_eq. unfold parsed_file at 1.
    destruct (String.prefix pre n && endsWith n ".json") eqn:Em.
    + destruct (H n) as [j Hj]; [left|exact Em|].
      rewrite bind_eq. unfold FileSystem.read. rewrite Hj. cbv beta iota.
      rewrite bind_eq. unfold JSON_parse, ret. cbv beta iota.
      rewrite IH by (intros n' Hn'; apply H; right; exact Hn').
      unfold push. rewrite <- app_assoc. reflexivity.
    + unfold ret. apply IH. intros n' Hn'. apply H. right. exact Hn'.
Qed.

Lemma local_exportData_eq this w :
  directory_granted this w ->
  files_named_by_id (dir w) ->
  exists w',
    LocalStorage.exportData this w
    = (Ok (JSON_stringify
             (VObj [("workspaces",
                     VArr (omap (parsed_file "workspace-" (dir w))
                             (map_to_list (dir w)).*1));
                    ("pages",
                     VArr (omap (parsed_file "page-" (dir w))
                             (map_to_list (dir w)).*1));
                    ("exportDate", VStr (now w'))])), w') /\
    dir w' = dir w.
Proof.
  intros Hg Hn.
  destruct (ensureDirectoryHandle_granted this w Hg) as (w1 & E1 & Hd1 & _ & Hg1).
  destruct (ensureDirectoryHandle_granted this w1 Hg1) as (w2 & E2 & Hd2 & _ & _).
  assert (forall pre d' , d' = dir w ->
            pre = "workspace-" \/ pre = "page-" ->
            forall n, n ∈ (map_to_list d').*1 ->
                      String.prefix pre n && endsWith n ".json" = true ->
                      exists j, d' !! n = Some (Doc j)) as Hdoc.
  { intros pre d' -> Hpre n Hin Hf.
    apply list_elem_of_fmap in Hin as ([n' t] & -> & Hin).
    apply elem_of_map_to_list in Hin. cbn [fst] in *.
    destruct (Hn pre n' t Hpre Hf Hin) as (j & id & -> & _). eauto. }
  exists w2. split; [|congruence].
  unfold LocalStorage.exportData, LocalStorage.getAllWorkspaces.
  rewrite bind_eq, bind_eq, E1. unfold try_catch at 1.
  rewrite bind_eq. unfold FileSystem.entries at 1, gets at 1. cbv beta iota.
  rewrite (local_scan_loop "workspace-") by (apply Hdoc; [exact Hd1|left; reflexivity]).
  rewrite bind_eq, E2. rewrite bind_eq. unfold try_catch.
  rewrite bind_eq. unfold FileSystem.entries, gets. cbv beta iota.
  rewrite (local_scan_loop "page-")
    by (apply Hdoc; [congruence|right; reflexivity]).
  rewrite bind_eq. unfold ret. cbn [app]. rewrite Hd2, Hd1. reflexivity.
Qed.

Lemma local_write_file_dir this fileName t (wrap : string) w :
  dir_writable w = true ->
  directory_granted this w ->
  FileSystem.valid_name fileName = true ->
  exists w2,
    try_catch
      (fileHandle <- FileSystem.getFileHandle fileName true ;;
       FileSystem.write fileHandle t)
      (fun error => throw (Error (wrap +:+ message error))) w
    = (Ok tt, w2) /\
    directory_granted this w2 /\ dir_writable w2 = true /\
    dir w2 = <[fileName := t]> (dir w).
Proof.
  intros Hw Hg Hv. unfold try_catch, bind, FileSystem.getFileHandle, FileSystem.write.
  rewrite Hv, Hw. cbn [negb]. destruct (dir w !! fileName).
  - rewrite Hw. eexists. split; [reflexivity|]. split; [exact Hg|].
    split; [exact Hw|reflexivity].
  - cbn [dir_writable set_dir]. rewrite Hw. eexists. split; [reflexivity|].
    split; [exact Hg|]. split; [exact Hw|]. cbn [dir set_dir].
    apply insert_insert_eq.
Qed.

Lemma local_saveWorkspace_eq this v id w :
  directory_granted this w ->
  dir_writable w = true ->
  get_prop "id" v = Ok id ->
  FileSystem.valid_name ("workspace-" +:+ to_string id +:+ ".json") = true ->
  exists w',
    LocalStorage.saveWorkspace this v w = (Ok tt, w') /\
    directory_granted this w' /\ dir_writable w' = true /\
    dir w' = <["workspace-" +:+ to_string id +:+ ".json" := JSON_stringify v]> (dir w).
Proof.
  intros Hg Hw Hid Hv.
  destruct (ensureDirectoryHandle_granted this w Hg) as (w1 & E1 & Hd1 & Hw1 & Hg1).
  unfold LocalStorage.saveWorkspace. rewrite bind_eq, E1.
  rewrite bind_eq. unfold lift_res. rewrite Hid. cbv beta iota.
  rewrite <- Hd1. apply local_write_file_dir; [congruence|exact Hg1|exact Hv].
Qed.

Lemma local_savePage_eq this v id w :
  directory_granted this w ->
  dir_writable w = true ->
  get_prop "id" v = Ok id ->
  FileSystem.valid_name ("page-" +:+ to_string id +:+ ".json") = true ->
  exists w',
    LocalStorage.savePage this v w = (Ok tt, w') /\
    directory_granted this w' /\ dir_writable w' = true /\
    dir w' = <["page-" +:+ to_string id +:+ ".json" := JSON_stringify v]> (dir w).
Proof.
  intros Hg Hw Hid Hv.
  destruct (ensureDirectoryHandle_granted this w Hg) as (w1 & E1 & Hd1 & Hw1 & Hg1).
  unfold LocalStorage.savePage. rewrite bind_eq, E1.
  rewrite bind_eq. unfold lift_res. rewrite Hid. cbv beta iota.
  rewrite <- Hd1. apply local_write_file_dir; [congruence|exact Hg1|exact Hv].
Qed.

Lemma local_save_loop (save : value -> Task World unit) (pre : string) this items w :
  (forall v id w,
      directory_granted this w -> dir_writable w = true ->
      get_prop "id" v = Ok id ->
      FileSystem.valid_name (pre +:+ to_string id +:+ ".json") = true ->
      exists w', save v w = (Ok tt, w') /\
                 directory_granted this w' /\ dir_writable w' = true /\
                 dir w' = <[pre +:+ to_string id +:+ ".json" := JSON_stringify v]> (dir w)) ->
  directory_granted this w ->
  dir_writable w = true ->
  (forall v, v ∈ items ->
     exists id, get_prop "id" v = Ok id /\
                FileSystem.valid_name (pre +:+ to_string id +:+ ".json") = true) ->
  exists w',
    for_each items save w = (Ok tt, w') /\
    directory_granted this w' /\ dir_writable w' = true /\
    dir w' = fold_left (fun d v => <[pre +:+ id_of v +:+ ".json" := JSON_stringify v]> d)
               items (dir w).
Proof.
  intros Hsave. revert w. induction items as [|v items IH]; intros w Hg Hw Hid.
  - exists w. repeat split; assumption.
  - destruct (Hid v) as (id & Hv & Hvalid); [left|].
    destruct (Hsave v id w Hg Hw Hv Hvalid) as (w1 & E1 & Hg1 & Hw1 & Hd1).
    destruct (IH w1 Hg1 Hw1) as (w' & E & Hg' & Hw' & Hd');
      [intros x Hx; apply Hid; right; exact Hx|].
    exists w'. cbn [for_each fold_left]. rewrite bind_eq, E1.
    split; [exact E|]. split; [exact Hg'|]. split; [exact Hw'|].
    rewrite Hd', Hd1. unfold id_of. rewrite Hv. reflexivity.
Qed.

Lemma save_fold_lookup (pre : string) (D : gmap string text) (names : list string)
    (d : gmap string text) (k : string) :
  (forall n, n ∈ names -> String.prefix pre n && endsWith n ".json" = true ->
             exists j id, D !! n = Some (Doc j) /\
                          get_prop "id" (value_of j) = Ok id /\
                          n = pre +:+ to_string id +:+ ".json") ->
  fold_left (fun d v => <[pre +:+ id_of v +:+ ".json" := JSON_stringify v]> d)
    (omap (parsed_file pre D) names) d !! k
  = if decide (k ∈ names) then
      if String.prefix pre k && endsWith k ".json" then D !! k else d !! k
    else d !! k.
Proof.
  revert d. induction names as [|n names IH]; intros d H.
  - cbn. rewrite decide_False by apply not_elem_of_nil. reflexivity.
  - assert (forall n', n' ∈ names ->
              String.prefix pre n' && endsWith n' ".json" = true ->
              exists j id, D !! n' = Some (Doc j) /\
                           get_prop "id" (value_of j) = Ok id /\
                           n' = pre +:+ to_string id +:+ ".json") as H'
        by (intros n' Hn'; apply H; right; exact Hn').
    cbn [omap list_omap]. unfold parsed_file at 1.
    destruct (String.prefix pre n && endsWith n ".json") eqn:Ef.
    + destruct (H n) as (j & id & Hj & Hid & Hname); [left|exact Ef|].
      rewrite Hj. cbn [fold_left]. rewrite (IH _ H').
      unfold id_of. rewrite Hid, <- Hname.
      unfold JSON_stringify. rewrite json_of_value_of.
      destruct (decide (k = n)) as [->|N].
      * rewrite (decide_True (P := n ∈ n :: names)) by left.
        rewrite Ef, lookup_insert_eq, Hj.
        destruct (decide (n ∈ names)); reflexivity.
      * rewrite lookup_insert_ne by congruence.
        destruct (decide (k ∈ names)) as [Hin|Hout].
        -- rewrite (decide_True (P := k ∈ n :: names)) by (right; exact Hin).
           reflexivity.
        -- rewrite (decide_False (P := k ∈ n :: names)); [reflexivity|].
           intros Hin. apply elem_of_cons in Hin as [?|?]; contradiction.
    + rewrite (IH _ H').
      destruct (decide (k = n)) as [->|N].
      * rewrite (decide_True (P := n ∈ n :: names)) by left. rewrite Ef.
        destruct (decide (n ∈ names)); reflexivity.
      * destruct (decide (k ∈ names)) as [Hin|Hout].
        -- rewrite (decide_True (P := k ∈ n :: names)) by (right; exact Hin).
           reflexivity.
        -- rewrite (decide_False (P := k ∈ n :: names)); [reflexivity|].
           intros Hin. apply elem_of_cons in Hin as [?|?]; contradiction.
Qed.

Lemma export_image wl pl d :
  value_of (json_of (VObj [("workspaces", VArr wl); ("pages", VArr pl);
                           ("exportDate", VStr d)]))
  = VObj [("workspaces", VArr (List.map value_of (List.map json_of wl)));
          ("pages", VArr (List.map value_of (List.map json_of pl)));
          ("exportDate", VStr d)].
Proof. reflexivity. Qed.

Lemma data_file_kinds n :
  is_data_file n
  = (String.prefix "workspace-" n && endsWith n ".json")
    || (String.prefix "page-" n && endsWith n ".json").
Proof. unfold is_data_file. apply andb_orb_distrib_l. Qed.

Lemma workspace_file_not_page_file n :
  String.prefix "workspace-" n = true -> String.prefix "page-" n = false.
Proof.
  destruct n as [|c n]; [discriminate|]. cbn [String.prefix].
  destruct (ascii_dec "w" c) as [<-|]; [reflexivity|discriminate].
Qed.

(** X21. [importData] of LocalStorage restores what [exportData] of
    LocalStorage read: when the entries of the exported directory bear
    names that entries can bear, and its data files hold JSON and carry
    the id of their name, the export returns, leaves the directory as it
    was, and importing it into a directory granted for writing returns
    and leaves every exported data file with its content. The import
    clears nothing: every other file of the target directory is kept. *)
Theorem local_export_import_round_trip :
  forall (this that : nat) (w w2 : World),
    directory_granted this w ->
    valid_names (dir w) ->
    files_named_by_id (dir w) ->
    directory_granted that w2 ->
    dir_writable w2 = true ->
    exists data w1 w3,
      LocalStorage.exportData this w = (Ok data, w1) /\
      dir w1 = dir w /\
      LocalStorage.importData that data w2 = (Ok tt, w3) /\
      forall n,
        dir w3 !! n
        = if is_data_file n then
            match dir w !! n with
            | Some t => Some t
            | None => dir w2 !! n
            end
          else dir w2 !! n.
Proof.
  intros this that w w2 Hg Hvalid Hn Hg2 Hw2.
  destruct (local_exportData_eq this w Hg Hn) as (w1 & Ex & Hd1).
  set (names := (map_to_list (dir w)).*1) in *.
  set (wl := omap (parsed_file "workspace-" (dir w)) names) in *.
  set (pl := omap (parsed_file "page-" (dir w)) names) in *.
  assert (forall pre, pre = "workspace-" \/ pre = "page-" ->
            forall n, n ∈ names ->
              String.prefix pre n && endsWith n ".json" = true ->
              exists j id, dir w !! n = Some (Doc j) /\
                           get_prop "id" (value_of j) = Ok id /\
                           n = pre +:+ to_string id +:+ ".json") as Hfiles.
  { intros pre Hpre n Hin Hf. subst names.
    apply list_elem_of_fmap in Hin as ([n' t] & -> & Hin).
    apply elem_of_map_to_list in Hin. cbn [fst] in *.
    destruct (Hn pre n' t Hpre Hf Hin) as (j & id & -> & Hid & Hname). eauto. }
  assert (forall pre, pre = "workspace-" \/ pre = "page-" ->
            forall v, v ∈ omap (parsed_file pre (dir w)) names ->
                      exists j id,
                        v = value_of j /\ get_prop "id" v = Ok id /\
                        FileSystem.valid_name (pre +:+ to_string id +:+ ".json") = true)
    as Hitems.
  { intros pre Hpre v Hv.
    apply parsed_file_elem in Hv as (n & j & Hin & Hf & Hj & ->).
    destruct (Hfiles pre Hpre n Hin Hf) as (j' & id & Hj' & Hid & Hname).
    assert (j' = j) as -> by congruence.
    exists j, id. split; [reflexivity|]. split; [exact Hid|].
    rewrite <- Hname. exact (Hvalid n _ Hj). }
  destruct (local_save_loop (LocalStorage.saveWorkspace that) "workspace-" that wl w2)
    as (w3 & E3 & Hg3 & Hw3 & Hd3); [| exact Hg2 | exact Hw2 | |].
  { intros v id w0. apply local_saveWorkspace_eq. }
  { intros v Hv.
    destruct (Hitems "workspace-" (or_introl eq_refl) v Hv) as (j & id & _ & Hid).
    eauto. }
  destruct (local_save_loop (LocalStorage.savePage that) "page-" that pl w3)
    as (w4 & E4 & Hg4 & Hw4 & Hd4); [| exact Hg3 | exact Hw3 | |].
  { intros v id w0. apply local_savePage_eq. }
  { intros v Hv.
    destruct (Hitems "page-" (or_intror eq_refl) v Hv) as (j & id & _ & Hid).
    eauto. }
  eexists _, w1, w4. split; [exact Ex|]. split; [exact Hd1|]. split.
  - unfold LocalStorage.importData, try_catch. rewrite bind_eq.
    unfold JSON_stringify, JSON_parse, ret. cbv beta iota.
    rewrite export_image.
    rewrite !json_image_parsed.
    2, 3: intros v Hv.
    2: destruct (Hitems "page-" (or_intror eq_refl) v Hv) as (j & id & -> & _); eauto.
    2: destruct (Hitems "workspace-" (or_introl eq_refl) v Hv) as (j & id & -> & _); eauto.
    change (get_prop "workspaces" (VObj _)) with (@Ok value (VArr wl)).
    change (get_prop "pages" (VObj _)) with (@Ok value (VArr pl)).
    rewrite bind_eq. unfold lift_res at 1. cbv beta iota.
    cbn [truthy iterate]. rewrite bind_eq, bind_eq. unfold lift_res at 1. cbv beta iota.
    rewrite E3. rewrite bind_eq. unfold lift_res at 1. cbv beta iota.
    cbn [truthy iterate]. rewrite bind_eq. unfold lift_res. cbv beta iota.
    rewrite E4. reflexivity.
  - intros n. rewrite Hd4, Hd3. subst wl pl.
    rewrite (save_fold_lookup "page-") by (apply Hfiles; right; reflexivity).
    rewrite (save_fold_lookup "workspace-") by (apply Hfiles; left; reflexivity).
    rewrite data_file_kinds.
    assert (n ∈ names <-> is_Some (dir w !! n)) as Hkeys.
    { subst names. rewrite list_elem_of_fmap. split.
      - intros ([n' t] & -> & Hin). apply elem_of_map_to_list in Hin. eauto.
      - intros [t Ht]. exists (n, t). split; [reflexivity|].
        apply elem_of_map_to_list. exact Ht. }
    destruct (decide (n ∈ names)) as [Hin|Hout].
    + apply Hkeys in Hin as [t Ht]. rewrite Ht.
      destruct (String.prefix "workspace-" n) eqn:Ew.
      * rewrite (workspace_file_not_page_file n Ew). cbn [andb orb].
        destruct (endsWith n ".json"); reflexivity.
      * cbn [andb orb]. destruct (String.prefix "page-" n && endsWith n ".json");
          reflexivity.
    + assert (dir w !! n = None) as ->.
      { destruct (dir w !! n) eqn:E; [|reflexivity].
        exfalso. apply Hout, Hkeys. eauto. }
      destruct (_ || _); reflexivity.
Qed.

Lemma world_local1_named_by_id : files_named_by_id (dir world_local1).
Proof.
  intros pre n t Hpre Hf.
  change (dir world_local1) with
    (<["page-p1.json" := JSON_stringify page1]>
       (<["workspace-default.json" := JSON_stringify workspace1]>
          (∅ : gmap string text))).
  destruct (decide ("page-p1.json" = n)) as [<-|N1].
  { rewrite lookup_insert_eq. intros [= <-].
    destruct Hpre as [-> | ->]; [discriminate Hf|].
    eexists _, (VStr "p1"). repeat split. }
  rewrite lookup_insert_ne by exact N1.
  destruct (decide ("workspace-default.json" = n)) as [<-|N2].
  { rewrite lookup_insert_eq. intros [= <-].
    destruct Hpre as [-> | ->]; [|discriminate Hf].
    eexists _, (VStr "default"). repeat split. }
  rewrite lookup_insert_ne, lookup_empty by exact N2. discriminate.
Qed.

Lemma local_export_import_round_trip_witness :
  exists data w1 w3,
    LocalStorage.exportData 0 world_local1 = (Ok data, w1) /\
    LocalStorage.importData 0 data world_local0 = (Ok tt, w3) /\
    dir w3 !! "workspace-default.json" = Some (JSON_stringify workspace1) /\
    dir w3 !! "page-p1.json" = Some (JSON_stringify page1).
Proof.
  destruct (local_export_import_round_trip 0 0 world_local1 world_local0
              (or_intror (conj eq_refl eq_refl))
              ltac:(apply (bool_decide_unpack _); vm_compute; reflexivity)
              world_local1_named_by_id
              (or_intror (conj eq_refl eq_refl)) eq_refl)
    as (data & w1 & w3 & Ex & _ & Im & H).
  exists data, w1, w3. split; [exact Ex|]. split; [exact Im|].
  split; rewrite H; reflexivity.
Defined.

(** ** The manager with its active provider out of reach *)

Lemma webdav_saveWorkspace_down cfg v x w :
  dav_up w = false ->
  get_prop "id" v = Ok x ->
  exists e, WebDAVStorage.saveWorkspace cfg v w = (Throw e, w).
Proof.
  intros Hup Hx. unfold WebDAVStorage.saveWorkspace.
  rewrite bind_eq. unfold lift_res. rewrite Hx. cbv beta iota.
  rewrite bind_eq, (get_prop_field _ "name" _ _ Hx). cbv beta iota.
  rewrite bind_eq, (get_prop_field _ "pages" _ _ Hx). cbv beta iota.
  rewrite bind_eq, (get_prop_field _ "currentPageId" _ _ Hx). cbv beta iota.
  rewrite bind_eq. unfold gets. cbv beta iota. rewrite bind_eq.
  destruct (WebDAVStorage.encodable cfg) eqn:Henc.
  - rewrite makeRequest_down by assumption. eexists. reflexivity.
  - rewrite makeRequest_unencodable by assumption. eexists. reflexivity.
Qed.

Lemma browser_saveWorkspace_up v id w :
  idb_up w = true ->
  get_prop "id" v = Ok id ->
  BrowserStorage.saveWorkspace v w
  = (Ok tt, set_idb (fun m => <["workspace_" +:+ to_string id := v]> m) w).
Proof.
  intros Hup Hid. unfold BrowserStorage.saveWorkspace, try_catch.
  rewrite bind_eq. unfold lift_res. rewrite Hid. cbv beta iota.
  rewrite bind_eq, lf_setItem_up by assumption.
  rewrite (get_prop_ok_defined _ _ _ Hid). reflexivity.
Qed.

(** X22. The manager with the WebDAV provider active and the server out of
    reach works on the browser store: [isAvailable] answers [false], yet
    [saveWorkspace] returns, having stored the workspace in the browser
    store, and [getWorkspace] answers it from there. Nothing carries the
    workspace over later: with the server back, credentials that [btoa]
    accepts and no such workspace on the server, [getWorkspace] answers
    [null] whatever the browser store holds. *)
Theorem manager_degraded_mode :
  forall (cfg : WebDAVConfig) (c : StorageConfig) (workspace id : value) (w : World),
    let m := StorageManager.mk (WebDAVStorage_provider cfg) c BrowserStorage_provider in
    let w' := set_idb (fun d => <["workspace_" +:+ to_string id := workspace]> d) w in
    get_prop "id" workspace = Ok id ->
    dav_up w = false ->
    idb_up w = true ->
    StorageManager.isAvailable (m, w) = (Ok false, (m, w)) /\
    StorageManager.saveWorkspace workspace (m, w) = (Ok tt, (m, w')) /\
    StorageManager.getWorkspace (to_string id) (m, w') = (Ok workspace, (m, w')) /\
    (forall w2,
        WebDAVStorage.encodable cfg = true ->
        dav_up w2 = true ->
        dav w2 !! WebDAVStorage.workspace_path (to_string id) = None ->
        StorageManager.getWorkspace (to_string id) (m, w2) = (Ok VNull, (m, w2))).
Proof.
  intros cfg c ws id w m w' Hid Hdav Hidb. split; [|split; [|split]].
  - unfold StorageManager.isAvailable, StorageManager.this_provider,
      StorageManager.call, gets.
    rewrite bind_eq. cbn [fst snd StorageManager.provider m
                            StorageProvider.isAvailable WebDAVStorage_provider].
    unfold WebDAVStorage.isAvailable.
    rewrite webdav_testConnection_eq, Hdav, andb_false_r. reflexivity.
  - change (StorageManager.saveWorkspace ws) with (manager_call (OpSaveWorkspace ws)).
    rewrite manager_call_eq.
    cbn [provider_call StorageManager.provider StorageManager.fallbackProvider m
           StorageProvider.saveWorkspace WebDAVStorage_provider BrowserStorage_provider].
    destruct (webdav_saveWorkspace_down cfg ws id w Hdav Hid) as [e ->].
    rewrite (browser_saveWorkspace_up ws id w Hidb Hid). reflexivity.
  - change (StorageManager.getWorkspace (to_string id))
      with (manager_call (OpGetWorkspace (to_string id))).
    rewrite manager_call_eq.
    cbn [provider_call StorageManager.provider StorageManager.fallbackProvider m
           StorageProvider.getWorkspace WebDAVStorage_provider BrowserStorage_provider].
    rewrite webdav_getWorkspace_eq.
    change (dav_up w') with (dav_up w). rewrite Hdav.
    assert (BrowserStorage.getWorkspace (to_string id) w' = (Ok ws, w')) as Eb.
    { unfold BrowserStorage.getWorkspace, try_catch.
      rewrite lf_getItem_up by exact Hidb.
      subst w'. cbn [idb set_idb]. rewrite lookup_insert_eq. reflexivity. }
    destruct (WebDAVStorage.encodable cfg); rewrite Eb; reflexivity.
  - intros w2 Henc Hup Habs.
    change (StorageManager.getWorkspace (to_string id))
      with (manager_call (OpGetWorkspace (to_string id))).
    rewrite manager_call_eq.
    cbn [provider_call StorageManager.provider m
           StorageProvider.getWorkspace WebDAVStorage_provider].
    rewrite webdav_getWorkspace_eq, Henc, Hup, Habs. reflexivity.
Qed.

Lemma manager_degraded_mode_witness :
  let w' := set_idb (fun d => <["workspace_default" := workspace1]> d) world_dav_down in
  StorageManager.saveWorkspace workspace1 (webdav_manager, world_dav_down)
  = (Ok tt, (webdav_manager, w')) /\
  StorageManager.getWorkspace "default" (webdav_manager, w')
  = (Ok workspace1, (webdav_manager, w')).
Proof.
  destruct (manager_degraded_mode dav_config webdav_config workspace1 (VStr "default")
              world_dav_down eq_refl eq_refl eq_refl) as (_ & H1 & H2 & _).
  exact (conj H1 H2).
Defined.

(** ** [syncBetweenProviders] *)

Lemma syncBetweenProviders_eq m w :
  StorageManager.syncBetweenProviders (m, w) =
  if String.eqb (type (StorageManager.config m)) "browser" then (Ok tt, (m, w))
  else
    match StorageProvider.exportData (StorageManager.provider m) w with
    | (Throw _, w1) => (Ok tt, (m, w1))
    | (Ok primaryData, w1) =>
        match StorageProvider.importData (StorageManager.fallbackProvider m)
                primaryData w1 with
        | (_, w2) => (Ok tt, (m, w2))
        end
    end.
Proof.
  unfold StorageManager.syncBetweenProviders. run.
  destruct (String.eqb (type (StorageManager.config m)) "browser"); [reflexivity|].
  cbn [fst snd].
  destruct (StorageProvider.exportData (StorageManager.provider m) w) as [[data|e] w1];
    [|reflexivity].
  cbn [fst snd].
  destruct (StorageProvider.importData (StorageManager.fallbackProvider m) data w1)
    as [[[]|e] w2]; reflexivity.
Qed.

Lemma fold_insert_members (members : list (string * json)) (m0 : gmap string value) :
  fold_left (fun m kv => <[fst kv := stored_item (snd kv)]> m)
    (spread (value_of (JObj members))) m0
  = fold_left (fun m kv => <[fst kv := value_of (snd kv)]> m) members m0.
Proof.
  revert m0. induction members as [|[k x] r IH]; intros m0; [reflexivity|].
  change (spread (value_of (JObj ((k, x) :: r))))
    with ((k, value_of x) :: spread (value_of (JObj r))).
  cbn [fold_left fst snd]. rewrite IH. f_equal. f_equal.
  destruct x; reflexivity.
Qed.

Lemma browser_importData_object members w :
  idb_up w = true ->
  BrowserStorage.importData (Doc (JObj members)) w
  = (Ok tt,
     set_idb (fun _ => fold_left (fun m kv => <[fst kv := value_of (snd kv)]> m)
                         members ∅) w).
Proof.
  intros Hup. unfold BrowserStorage.importData, try_catch. rewrite bind_eq.
  unfold JSON_parse, ret. cbv beta iota. rewrite bind_eq.
  unfold BrowserStorage.clearAll, localforage.clear, try_catch.
  rewrite bind_eq. unfold localforage.ready. rewrite Hup.
  unfold modify. rewrite bind_eq. unfold lift_res.
  change (Object_entries (value_of (JObj members)))
    with (@Ok (list (string * value)) (spread (value_of (JObj members)))).
  cbv beta iota.
  rewrite browser_import_loop by assumption.
  rewrite <- fold_insert_members. reflexivity.
Qed.

(** X23. [syncBetweenProviders] never throws and never changes the fields
    of the manager. Under a configuration of type 'browser' it does
    nothing at all. Otherwise, when the active provider's export returns a
    JSON object and the browser store is usable, the browser store is
    replaced by the top-level properties of that export: what it held
    before is gone. When the export throws, nothing is imported: the world
    stays as the export left it. *)
Theorem syncBetweenProviders_spec :
  forall (m : StorageManager.t) (w : World),
    let after := StorageManager.syncBetweenProviders (m, w) in
    fst after = Ok tt /\
    fst (snd after) = m /\
    (type (StorageManager.config m) = "browser" -> snd (snd after) = w) /\
    (type (StorageManager.config m) <> "browser" ->
     StorageManager.fallbackProvider m = BrowserStorage_provider ->
     (forall members w1,
         StorageProvider.exportData (StorageManager.provider m) w
         = (Ok (Doc (JObj members)), w1) ->
         idb_up w1 = true ->
         idb (snd (snd after))
         = fold_left (fun d kv => <[fst kv := value_of (snd kv)]> d) members ∅) /\
     (forall e w1,
         StorageProvider.exportData (StorageManager.provider m) w = (Throw e, w1) ->
         snd (snd after) = w1)).
Proof.
  intros m w after. subst after. rewrite syncBetweenProviders_eq.
  destruct (String.eqb_spec (type (StorageManager.config m)) "browser") as [E|N].
  - split; [reflexivity|]. split; [reflexivity|]. split; [reflexivity|].
    intros N. contradiction.
  - assert (fst (match StorageProvider.exportData (StorageManager.provider m) w with
                 | (Throw _, w1) => (Ok tt, (m, w1))
                 | (Ok primaryData, w1) =>
                     match StorageProvider.importData
                             (StorageManager.fallbackProvider m) primaryData w1 with
                     | (_, w2) => (Ok tt, (m, w2))
                     end
                 end) = Ok tt /\
            fst (snd (match StorageProvider.exportData (StorageManager.provider m) w with
                      | (Throw _, w1) => (Ok tt, (m, w1))
                      | (Ok primaryData, w1) =>
                          match StorageProvider.importData
                                  (StorageManager.fallbackProvider m) primaryData w1 with
                          | (_, w2) => (Ok tt, (m, w2))
                          end
                      end)) = m) as [H1 H2].
    { destruct (StorageProvider.exportData (StorageManager.provider m) w)
        as [[data|e] w1]; [|split; reflexivity].
      destruct (StorageProvider.importData (StorageManager.fallbackProvider m) data w1)
        as [r w2]; split; reflexivity. }
    split; [exact H1|]. split; [exact H2|]. split; [intros E; contradiction|].
    intros _ Hf. split.
    + intros members w1 Ex Hup. rewrite Ex, Hf.
      cbn [StorageProvider.importData BrowserStorage_provider].
      rewrite browser_importData_object by assumption. reflexivity.
    + intros e w1 Ex. rewrite Ex. reflexivity.
Qed.

Lemma syncBetweenProviders_spec_witness :
  idb (snd (snd (StorageManager.syncBetweenProviders
                   (webdav_manager,
                    set_idb (fun d => <["workspace_default" := workspace1]> d) world0))))
  = ∅.
Proof.
  exact (proj1 (proj2 (proj2 (proj2
           (syncBetweenProviders_spec webdav_manager
              (set_idb (fun d => <["workspace_default" := workspace1]> d) world0))))
           ltac:(discriminate) eq_refl)
           [] (set_idb (fun d => <["workspace_default" := workspace1]> d) world0)
           eq_refl eq_refl).
Defined.

(** ** [deletePage] of the browser and of the local directory provider *)

(** X24. [deletePage] of BrowserStorage, with a usable store, and of
    LocalStorage, with the directory granted for writing and no [/] in
    the id, returns whether the page is stored or not; it removes the
    item, respectively the file, of that page and nothing else, and
    [getPage] of the id then answers [null]. With a [/] in the id,
    [deletePage] of LocalStorage throws, because the refusal of the name
    is not the [NotFoundError] that it swallows, and the directory is as
    before. *)
Theorem deletePage_removes_silently :
  forall (pageId : string) (w : World),
    (idb_up w = true ->
     exists w',
       BrowserStorage.deletePage pageId w = (Ok tt, w') /\
       idb w' = delete ("page_" +:+ pageId) (idb w) /\
       BrowserStorage.getPage pageId w' = (Ok VNull, w')) /\
    (forall this,
        directory_granted this w ->
        dir_writable w = true ->
        has_slash pageId = false ->
        exists w',
          LocalStorage.deletePage this pageId w = (Ok tt, w') /\
          dir w' = delete ("page-" +:+ pageId +:+ ".json") (dir w) /\
          fst (LocalStorage.getPage this pageId w') = Ok VNull) /\
    (forall this,
        directory_granted this w ->
        has_slash pageId = true ->
        fst (LocalStorage.deletePage this pageId w)
        = Throw (Error ("Failed to delete page: "
                   +:+ message (FileSystem.invalid_name "removeEntry"))) /\
        dir (snd (LocalStorage.deletePage this pageId w)) = dir w).
Proof.
  intros pid w. split; [|split].
  - intros Hup. eexists. split; [|split].
    + unfold BrowserStorage.deletePage, localforage.removeItem, localforage.ready,
        try_catch, bind, modify. rewrite Hup. reflexivity.
    + reflexivity.
    + unfold BrowserStorage.getPage, try_catch.
      rewrite lf_getItem_up by assumption. cbn [idb set_idb].
      rewrite lookup_delete_eq. reflexivity.
  - intros this Hg Hw Hs.
    assert (FileSystem.valid_name ("page-" +:+ pid +:+ ".json") = true) as Hv
      by (rewrite valid_page_file, Hs; reflexivity).
    destruct (ensureDirectoryHandle_granted this w Hg) as (w1 & He & Hd & Hw1 & Hg1).
    destruct (dir w !! ("page-" +:+ pid +:+ ".json")) as [t|] eqn:Hp.
    + exists (set_dir (fun d => delete ("page-" +:+ pid +:+ ".json") d) w1).
      split; [|split].
      * unfold LocalStorage.deletePage. rewrite bind_eq, He.
        unfold try_catch, FileSystem.removeEntry. rewrite Hv, Hw1, Hw, Hd, Hp.
        reflexivity.
      * cbn [dir set_dir]. rewrite Hd. reflexivity.
      * apply local_get_absent; [exact Hg1|exact Hv|]. cbn [dir set_dir].
        apply lookup_delete_eq.
    + exists w1. split; [|split].
      * unfold LocalStorage.deletePage. rewrite bind_eq, He.
        unfold try_catch, FileSystem.removeEntry. rewrite Hv, Hw1, Hw, Hd, Hp.
        reflexivity.
      * rewrite Hd. symmetry. apply delete_id. exact Hp.
      * apply local_get_absent; [exact Hg1|exact Hv|]. rewrite Hd. exact Hp.
  - intros this Hg Hs.
    destruct (ensureDirectoryHandle_granted this w Hg) as (w1 & He & Hd & _).
    unfold LocalStorage.deletePage. rewrite bind_eq, He.
    unfold try_catch, FileSystem.removeEntry. rewrite valid_page_file, Hs.
    split; [reflexivity|exact Hd].
Qed.

Lemma deletePage_removes_silently_witness :
  (exists w',
      LocalStorage.deletePage 0 "p1" world_local1 = (Ok tt, w') /\
      dir w' = delete "page-p1.json" (dir world_local1) /\
      fst (LocalStorage.getPage 0 "p1" w') = Ok VNull) /\
  fst (LocalStorage.deletePage 0 "a/b" world_local1)
  = Throw (Error ("Failed to delete page: "
                   +:+ message (FileSystem.invalid_name "removeEntry"))).
Proof.
  split.
  - exact (proj1 (proj2 (deletePage_removes_silently "p1" world_local1)) 0%nat
             (or_intror (conj eq_refl eq_refl)) eq_refl eq_refl).
  - exact (proj1 (proj2 (proj2 (deletePage_removes_silently "a/b" world_local1)) 0%nat
                    (or_intror (conj eq_refl eq_refl)) eq_refl)).
Defined.

(** ** What the export of the WebDAV provider holds *)

Lemma for_fold_invariant {A B} (P : B -> Prop) (l : list A)
    (body : B -> A -> Task World B) acc w r w' :
  (forall acc x, read_only (body acc x)) ->
  (forall acc x acc', x ∈ l -> P acc -> fst (body acc x w) = Ok acc' -> P acc') ->
  P acc ->
  for_fold l acc body w = (Ok r, w') ->
  P r.
Proof.
  intros Hro. revert acc. induction l as [|x l IH]; intros acc Hstep HP.
  - cbn. intros [= <- _]. exact HP.
  - cbn [for_fold]. rewrite bind_eq. pose proof (Hro acc x w) as F.
    destruct (body acc x w) as [[a|e] w1] eqn:E; cbn [snd] in F; subst w1;
      [|discriminate].
    apply IH.
    + intros acc0 y acc' Hy. apply Hstep. right. exact Hy.
    + apply (Hstep acc x a); [left|exact HP|rewrite E; reflexivity].
Qed.

Lemma assoc_set_elem {A} k (v : A) k' v' d :
  (k, v) ∈ assoc_set k' v' d -> (k = k' /\ v = v') \/ (k, v) ∈ d.
Proof.
  induction d as [|[k0 x] r IH]; cbn [assoc_set].
  - intros H. apply list_elem_of_singleton in H. injection H as -> ->. left. split; reflexivity.
  - destruct (String.eqb k' k0).
    + intros H. apply elem_of_cons in H as [H|H].
      * injection H as -> ->. left. split; reflexivity.
      * right. right. exact H.
    + intros H. apply elem_of_cons in H as [H|H].
      * right. rewrite H. left.
      * destruct (IH H) as [?|?]; [left; assumption|right; right; assumption].
Qed.

Lemma assoc_set_keeps {A} k k' (v : A) d :
  is_Some (assoc k d) -> is_Some (assoc k (assoc_set k' v d)).
Proof. rewrite assoc_set_lookup. destruct (String.eqb k k'); eauto. Qed.

Lemma json_of_fields fields :
  (forall k, (k, VUndef) ∉ fields) ->
  json_of (VObj fields) = JObj ((fun kv => (kv.1, json_of kv.2)) <$> fields).
Proof.
  intros H. cbn [json_of]. f_equal.
  induction fields as [|[k x] r IH]; [reflexivity|].
  assert (x <> VUndef) as Hx by (intros ->; apply (H k); left).
  rewrite fmap_cons. cbn [fst snd].
  rewrite <- IH by (intros k' Hk'; apply (H k'); right; exact Hk').
  destruct x; try contradiction; reflexivity.
Qed.

Lemma assoc_fmap_json k (fields : list (string * value)) :
  is_Some (assoc k fields) ->
  is_Some (assoc k ((fun kv => (kv.1, json_of kv.2)) <$> fields)).
Proof.
  induction fields as [|[k0 x] r IH]; [intros [x H]; discriminate H|].
  rewrite fmap_cons. cbn [assoc fst snd].
  destruct (String.eqb k k0); [eauto|exact IH].
Qed.

Lemma ro_export_pages cfg data page :
  read_only
    (id <- lift_res (get_prop "id" page) ;;
     pageData <- WebDAVStorage.getPage cfg (to_string id) ;;
     ret (if truthy pageData
          then assoc_set ("page_" +:+ to_string id) pageData data
          else data)).
Proof.
  apply ro_bind; [apply ro_lift_res|]. intros pid.
  apply ro_bind; [apply ro_webdav_getPage|]. intros pageData. apply ro_ret.
Qed.

Lemma ro_export_workspace cfg data workspace :
  read_only
    (wid <- lift_res (get_prop "id" workspace) ;;
     let data := assoc_set ("workspace_" +:+ to_string wid) workspace data in
     pages <- lift_res (get_prop "pages" workspace) ;;
     items <- lift_res (iterate pages) ;;
     for_fold items data
       (fun data page =>
          id <- lift_res (get_prop "id" page) ;;
          pageData <- WebDAVStorage.getPage cfg (to_string id) ;;
          ret (if truthy pageData
               then assoc_set ("page_" +:+ to_string id) pageData data
               else data))).
Proof.
  apply ro_bind; [apply ro_lift_res|]. intros wid.
  apply ro_bind; [apply ro_lift_res|]. intros pages.
  apply ro_bind; [apply ro_lift_res|]. intros items.
  apply ro_for_fold. intros data' page. apply ro_export_pages.
Qed.

Lemma export_pages_keys cfg items data w r w' :
  for_fold items data
    (fun data page =>
       id <- lift_res (get_prop "id" page) ;;
       pageData <- WebDAVStorage.getPage cfg (to_string id) ;;
       ret (if truthy pageData
            then assoc_set ("page_" +:+ to_string id) pageData data
            else data)) w = (Ok r, w') ->
  forall k, is_Some (assoc k data) -> is_Some (assoc k r).
Proof.
  intros H.
  refine (for_fold_invariant
            (fun acc => forall k, is_Some (assoc k data) -> is_Some (assoc k acc))
            _ _ _ _ _ _ (ro_export_pages cfg) _ (fun k Hk => Hk) H).
  intros acc p acc' _ HP. rewrite bind_eq. unfold lift_res.
  destruct (get_prop "id" p) as [pid|e]; [|discriminate]. cbv beta iota.
  rewrite bind_eq.
  destruct (WebDAVStorage.getPage cfg (to_string pid) w) as [[v|e] w1]; [|discriminate].
  unfold ret. cbn [fst]. intros [= <-] k Hk.
  destruct (truthy v); [apply assoc_set_keeps|]; apply HP; exact Hk.
Qed.

Lemma export_workspaces_keys cfg wss data w r w' :
  for_fold wss data
    (fun data workspace =>
       wid <- lift_res (get_prop "id" workspace) ;;
       let data := assoc_set ("workspace_" +:+ to_string wid) workspace data in
       pages <- lift_res (get_prop "pages" workspace) ;;
       items <- lift_res (iterate pages) ;;
       for_fold items data
         (fun data page =>
            id <- lift_res (get_prop "id" page) ;;
            pageData <- WebDAVStorage.getPage cfg (to_string id) ;;
            ret (if truthy pageData
                 then assoc_set ("page_" +:+ to_string id) pageData data
                 else data))) w = (Ok r, w') ->
  (forall k, is_Some (assoc k data) -> is_Some (assoc k r)) /\
  (forall ws, ws ∈ wss -> is_Some (assoc ("workspace_" +:+ id_of ws) r)).
Proof.
  revert data. induction wss as [|ws wss IH]; intros data.
  - cbn. intros [= <- _]. split; [auto|]. intros ws Hws. inversion Hws.
  - cbn [for_fold]. rewrite bind_eq.
    pose proof (ro_export_workspace cfg data ws w) as F.
    match type of F with
    | snd (?c w) = w => destruct (c w) as [[data1|e] w1] eqn:E
    end; cbn [snd] in F; subst w1; [|discriminate].
    intros H. apply IH in H as [Hkeep Hall].
    rewrite bind_eq in E. unfold lift_res at 1 in E.
    destruct (get_prop "id" ws) as [wid|e] eqn:Hid; [|discriminate].
    cbv beta iota zeta in E. rewrite bind_eq in E. unfold lift_res at 1 in E.
    destruct (get_prop "pages" ws) as [pages|e]; [|discriminate].
    cbv beta iota in E. rewrite bind_eq in E. unfold lift_res at 1 in E.
    destruct (iterate pages) as [items|e]; [|discriminate].
    cbv beta iota in E.
    pose proof (export_pages_keys _ _ _ _ _ _ E) as Hpages.
    split.
    + intros k Hk. apply Hkeep, Hpages, assoc_set_keeps. exact Hk.
    + intros x Hx. apply elem_of_cons in Hx as [->|Hx]; [|apply Hall; exact Hx].
      apply Hkeep, Hpages. rewrite assoc_set_lookup.
      unfold id_of. rewrite Hid, String.eqb_refl. eauto.
Qed.

(** X25. What an export of the WebDAV provider holds, whenever it
    returns: a JSON object with one property [workspace_<id>] for every
    listed workspace, and otherwise only properties [page_<id>] of pages
    that a listed workspace names in its [pages] and that [getPage] finds.
    A page resource of the server that no listed workspace names is not
    exported. The export changes nothing. *)
Theorem webdav_export_contents :
  forall (cfg : WebDAVConfig) (w : World) (t : text) (w' : World),
    WebDAVStorage.exportData cfg w = (Ok t, w') ->
    exists wss members,
      WebDAVStorage.getAllWorkspaces cfg w = (Ok wss, w) /\
      t = Doc (JObj members) /\
      w' = w /\
      (forall ws, ws ∈ wss ->
                  is_Some (assoc ("workspace_" +:+ id_of ws) members)) /\
      (forall k x, (k, x) ∈ members ->
         (exists ws, ws ∈ wss /\ k = "workspace_" +:+ id_of ws /\ x = json_of ws) \/
         (exists ws p v,
             ws ∈ wss /\ p ∈ referenced_pages ws /\ k = "page_" +:+ id_of p /\
             WebDAVStorage.getPage cfg (id_of p) w = (Ok v, w) /\
             truthy v = true /\ x = json_of v)).
Proof.
  intros cfg w t w' H.
  pose proof (ro_webdav_getAllWorkspaces cfg w) as Fl.
  unfold WebDAVStorage.exportData in H. rewrite bind_eq in H.
  destruct (WebDAVStorage.getAllWorkspaces cfg w) as [[wss|e] w0] eqn:El;
    cbn [snd] in Fl; subst w0; [|discriminate].
  assert (forall ws, ws ∈ wss -> truthy ws = true) as Ht.
  { rewrite webdav_getAllWorkspaces_eq in El.
    destruct (WebDAVStorage.encodable cfg); [|discriminate].
    destruct (dav_up w); [|discriminate].
    destruct (listing (dav w) WebDAVStorage.commonWorkspaceIds []) as [l|e] eqn:Hl;
      [|discriminate].
    injection El as ->. intros ws. exact (listing_truthy _ _ _ ws Hl). }
  rewrite bind_eq in H.
  match type of H with
  | context [for_fold wss [] ?body w] =>
      pose proof (ro_for_fold wss [] body (ro_export_workspace cfg) w) as F;
      destruct (for_fold wss [] body w) as [[data|e] w1] eqn:Ef
  end; cbn [snd] in F; subst w1; [|discriminate].
  unfold ret in H. injection H as <- <-.
  set (Q := fun (k : string) (v : value) =>
              (exists ws, ws ∈ wss /\ k = "workspace_" +:+ id_of ws /\ v = ws) \/
              (exists ws p, ws ∈ wss /\ p ∈ referenced_pages ws /\
                            k = "page_" +:+ id_of p /\
                            WebDAVStorage.getPage cfg (id_of p) w = (Ok v, w) /\
                            truthy v = true)).
  assert (forall k v, (k, v) ∈ data -> Q k v) as Hsound.
  { refine (for_fold_invariant (fun acc => forall k v, (k, v) ∈ acc -> Q k v)
              _ _ _ _ _ _ (ro_export_workspace cfg) _ _ Ef).
    2: { intros k v Hin. inversion Hin. }
    intros acc ws acc' Hws HP. rewrite bind_eq. unfold lift_res at 1.
    destruct (get_prop "id" ws) as [wid|e] eqn:Hid; [|discriminate].
    cbv beta iota zeta. rewrite bind_eq. unfold lift_res at 1.
    destruct (get_prop "pages" ws) as [pages|e] eqn:Hpages; [|discriminate].
    cbv beta iota. rewrite bind_eq. unfold lift_res at 1.
    destruct (iterate pages) as [items|e] eqn:Hitems; [|discriminate].
    cbv beta iota.
    match goal with
    | |- fst (for_fold items ?d ?body w) = _ -> _ =>
        destruct (for_fold items d body w) as [[r|e] w2] eqn:Ei
    end; [|discriminate].
    cbn [fst]. intros [= <-].
    refine (for_fold_invariant (fun acc => forall k v, (k, v) ∈ acc -> Q k v)
              _ _ _ _ _ _ (ro_export_pages cfg) _ _ Ei).
    - intros acc1 p acc2 Hp HP1. rewrite bind_eq. unfold lift_res.
      destruct (get_prop "id" p) as [pid|e] eqn:Hpid; [|discriminate]. cbv beta iota.
      rewrite bind_eq.
      pose proof (ro_webdav_getPage cfg (to_string pid) w) as Fp.
      destruct (WebDAVStorage.getPage cfg (to_string pid) w) as [[v|e] w3] eqn:Eg;
        cbn [snd] in Fp; subst w3; [|discriminate].
      unfold ret. cbn [fst]. intros [= <-] k x Hin.
      destruct (truthy v) eqn:Etv; [|exact (HP1 k x Hin)].
      apply assoc_set_elem in Hin as [[-> ->]|Hin]; [|exact (HP1 k x Hin)].
      right. exists ws, p. split; [exact Hws|]. split.
      { unfold referenced_pages. rewrite Hpages, Hitems. exact Hp. }
      unfold id_of. rewrite Hpid. repeat split; assumption.
    - intros k x Hin.
      apply assoc_set_elem in Hin as [[-> ->]|Hin]; [|exact (HP k x Hin)].
      left. exists ws. split; [exact Hws|]. unfold id_of. rewrite Hid.
      split; reflexivity. }
  assert (forall k, (k, VUndef) ∉ data) as Hdef.
  { intros k Hin. destruct (Hsound k VUndef Hin) as [(ws & Hws & _ & E)|(ws & p & _ & _ & _ & _ & E)].
    - subst ws. specialize (Ht _ Hws). discriminate Ht.
    - discriminate E. }
  exists wss, ((fun kv => (kv.1, json_of kv.2)) <$> data).
  split; [reflexivity|]. split.
  { unfold JSON_stringify. rewrite (json_of_fields data Hdef). reflexivity. }
  split; [reflexivity|]. split.
  - intros ws Hws. apply assoc_fmap_json.
    exact (proj2 (export_workspaces_keys _ _ _ _ _ _ Ef) ws Hws).
  - intros k x Hin. apply list_elem_of_fmap in Hin as ([k0 v] & [= -> ->] & Hin).
    cbn [fst snd].
    destruct (Hsound k0 v Hin) as [(ws & Hws & Hk & ->)|(ws & p & Hws & Hp & Hk & Hg & Htv)].
    + left. exists ws. repeat split; assumption.
    + right. exists ws, p, v. repeat split; assumption.
Qed.

Lemma webdav_export_contents_witness :
  exists wss members,
    WebDAVStorage.getAllWorkspaces dav_config world_dav2 = (Ok wss, world_dav2) /\
    fst (WebDAVStorage.exportData dav_config world_dav2) = Ok (Doc (JObj members)) /\
    (forall ws, ws ∈ wss -> is_Some (assoc ("workspace_" +:+ id_of ws) members)).
Proof.
  eassert (WebDAVStorage.exportData dav_config world_dav2 = (Ok _, _)) as E
      by (vm_compute; reflexivity).
  destruct (webdav_export_contents dav_config world_dav2 _ _ E)
    as (wss & members & Hl & Ht & _ & Hall & _).
  exists wss, members. split; [exact Hl|]. split; [|exact Hall].
  rewrite E. cbn [fst]. f_equal. exact Ht.
Defined.

(** ** Imports that fail *)

(** X26. What a failed import costs. A text that is not JSON makes
    [importData] of every provider throw before anything is touched. A
    JSON text that is not an object is another matter for BrowserStorage:
    [JSON.parse] accepts [null], the store is cleared, and only then does
    enumerating the entries throw, so the import fails with the store
    empty. LocalStorage, which never clears, throws on [null] and leaves
    everything as it was. *)
Theorem import_of_bad_data :
  forall (w : World),
    (forall (raw : string) (this : nat) (cfg : WebDAVConfig),
        BrowserStorage.importData (Garbage raw) w
        = (Throw (Error "Failed to import data: SyntaxError: Unexpected token in JSON"),
           w) /\
        LocalStorage.importData this (Garbage raw) w
        = (Throw (Error "Failed to import data: Unexpected token in JSON"), w) /\
        WebDAVStorage.importData cfg (Garbage raw) w
        = (Throw (SyntaxError "Unexpected token in JSON"), w)) /\
    (idb_up w = true ->
     BrowserStorage.importData (Doc JNull) w
     = (Throw (Error "Failed to import data: TypeError: Cannot convert undefined or null to object"),
        set_idb (fun _ => ∅) w)) /\
    (forall (this : nat),
        LocalStorage.importData this (Doc JNull) w
        = (Throw (Error "Failed to import data: Cannot read properties of null (reading 'workspaces')"),
           w)).
Proof.
  intros w. split; [|split].
  - intros raw this cfg. repeat split; reflexivity.
  - intros Hup. unfold BrowserStorage.importData, try_catch. rewrite bind_eq.
    unfold JSON_parse, ret. cbv beta iota. rewrite bind_eq.
    unfold BrowserStorage.clearAll, localforage.clear, try_catch.
    rewrite bind_eq. unfold localforage.ready. rewrite Hup. reflexivity.
  - intros this. reflexivity.
Qed.

Lemma import_of_bad_data_witness :
  idb (snd (BrowserStorage.importData (Doc JNull) world_browser1)) = ∅.
Proof.
  rewrite (proj1 (proj2 (import_of_bad_data world_browser1)) eq_refl).
  reflexivity.
Defined.

(** ** Migration from the local directory to the browser store *)

Lemma ki_ret {A} (a : A) : keeps_idb (ret a).
Proof. intros w. split; reflexivity. Qed.

Lemma ki_throw {A} e : keeps_idb (@throw World A e).
Proof. intros w. split; reflexivity. Qed.

Lemma ki_gets {A} (f : World -> A) : keeps_idb (gets f).
Proof. intros w. split; reflexivity. Qed.

Lemma ki_bind {A B} (c : Task World A) (k : A -> Task World B) :
  keeps_idb c -> (forall a, keeps_idb (k a)) -> keeps_idb (bind c k).
Proof.
  intros Hc Hk w. rewrite bind_eq. specialize (Hc w).
  destruct (c w) as [[a|e] w']; cbn [snd] in Hc; [|exact Hc].
  destruct (Hk a w') as [H1 H2]. destruct Hc as [H3 H4]. split; congruence.
Qed.

Lemma ki_try_catch {A} (c : Task World A) (h : error -> Task World A) :
  keeps_idb c -> (forall e, keeps_idb (h e)) -> keeps_idb (try_catch c h).
Proof.
  intros Hc Hh w. unfold try_catch. specialize (Hc w).
  destruct (c w) as [[a|e] w']; cbn [snd] in Hc; [exact Hc|].
  destruct (Hh e w') as [H1 H2]. destruct Hc as [H3 H4]. split; congruence.
Qed.

Lemma ki_for_fold {A B} (l : list A) (acc : B) (body : B -> A -> Task World B) :
  (forall acc x, keeps_idb (body acc x)) -> keeps_idb (for_fold l acc body).
Proof.
  intros Hb. revert acc. induction l as [|x l IH]; intros acc; cbn [for_fold].
  - apply ki_ret.
  - apply ki_bind; [apply Hb|]. intros a. apply IH.
Qed.

Lemma ki_ensureDirectoryHandle this : keeps_idb (LocalStorage.ensureDirectoryHandle this).
Proof.
  intros w. unfold LocalStorage.ensureDirectoryHandle, FileSystem.showDirectoryPicker.
  rewrite bind_eq. unfold gets. cbv beta iota.
  destruct (locals w !! this ≫= directoryHandle) as [[]|]; [split; reflexivity|].
  rewrite bind_eq.
  destruct (negb (fs_api w)); [split; reflexivity|].
  destruct (negb (picker_grant w)); split; reflexivity.
Qed.

Lemma ki_scan (pre : string) :
  keeps_idb
    (names <- FileSystem.entries ;;
     for_fold names []
       (fun found name =>
          if String.prefix pre name && endsWith name ".json" then
            text <- FileSystem.read name ;;
            item <- JSON_parse text ;;
            ret (push found item)
          else ret found)).
Proof.
  apply ki_bind; [apply ki_gets|]. intros names.
  apply ki_for_fold. intros found name.
  destruct (String.prefix pre name && endsWith name ".json"); [|apply ki_ret].
  apply ki_bind.
  - intros w. unfold FileSystem.read. destruct (dir w !! name); split; reflexivity.
  - intros t. apply ki_bind; [|intros item; apply ki_ret].
    destruct t; [apply ki_ret|apply ki_throw].
Qed.

Lemma ki_local_exportData this : keeps_idb (LocalStorage.exportData this).
Proof.
  unfold LocalStorage.exportData, LocalStorage.getAllWorkspaces.
  apply ki_bind.
  { apply ki_bind; [apply ki_ensureDirectoryHandle|]. intros _.
    apply ki_try_catch; [apply (ki_scan "workspace-")|]. intros e. apply ki_throw. }
  intros workspaces.
  apply ki_bind; [apply ki_ensureDirectoryHandle|]. intros _.
  apply ki_bind.
  { apply ki_try_catch; [apply (ki_scan "page-")|]. intros e. apply ki_throw. }
  intros allPages. apply ki_bind; [apply ki_gets|]. intros exportDate. apply ki_ret.
Qed.

Lemma filter_nothing {A} (f : A -> bool) (l : list A) :
  (forall x, x ∈ l -> f x = false) -> List.filter f l = [].
Proof.
  induction l as [|x l IH]; intros H; [reflexivity|].
  cbn [List.filter]. rewrite (H x) by left. apply IH.
  intros y Hy. apply H. right. exact Hy.
Qed.

(** X27. Migrating from the local directory to the browser store loses
    sight of every workspace. With the directory at hand, its data files
    well formed and the browser store usable, [migrateData] to a 'browser'
    configuration returns and switches the manager over; the directory is
    as it was, and the browser store holds exactly three items,
    [workspaces], [pages] and [exportDate], the properties of the
    export envelope. No key starts with [workspace_]: the listing of the
    manager is empty and [getWorkspace] answers [null] for every id,
    whatever the directory held. *)
Theorem migration_local_to_browser :
  forall (this : nat) (c target : StorageConfig) (w : World),
    directory_granted this w ->
    files_named_by_id (dir w) ->
    idb_up w = true ->
    type target = "browser" ->
    let m := StorageManager.mk (LocalStorage_provider this) c BrowserStorage_provider in
    let after := StorageManager.migrateData target (m, w) in
    fst after = Ok tt /\
    fst (snd after) = StorageManager.mk BrowserStorage_provider target
                        BrowserStorage_provider /\
    dir (snd (snd after)) = dir w /\
    (forall k, is_Some (idb (snd (snd after)) !! k) <->
               k = "workspaces" \/ k = "pages" \/ k = "exportDate") /\
    fst (StorageManager.getAllWorkspaces (snd after)) = Ok [] /\
    (forall id, fst (StorageManager.getWorkspace id (snd after)) = Ok VNull).
Proof.
  intros this c target w Hg Hn Hup Ht m after.
  destruct (local_exportData_eq this w Hg Hn) as (w1 & Ex & Hd1).
  destruct (ki_local_exportData this w) as [Hup1 Hidb1].
  rewrite Ex in Hup1, Hidb1. cbn [snd] in Hup1, Hidb1.
  assert (idb_up w1 = true) as Hup1' by congruence.
  set (wl := omap (parsed_file "workspace-" (dir w)) (map_to_list (dir w)).*1) in *.
  set (pl := omap (parsed_file "page-" (dir w)) (map_to_list (dir w)).*1) in *.
  set (store := fold_left (fun d kv => <[fst kv := value_of (snd kv)]> d)
                  [("workspaces", JArr (List.map json_of wl));
                   ("pages", JArr (List.map json_of pl));
                   ("exportDate", JStr (now w1))] (∅ : gmap string value)).
  set (w3 := set_idb (fun _ => store) w1).
  set (m3 := StorageManager.mk BrowserStorage_provider target BrowserStorage_provider).
  assert (after = (Ok tt, (m3, w3))) as E.
  { subst after. rewrite migrateData_eq, manager_exportData_eq.
    cbn [StorageManager.provider m StorageProvider.exportData LocalStorage_provider].
    rewrite Ex.
    unfold StorageManager.createProvider. rewrite Ht.
    cbn [String.eqb Ascii.eqb Bool.eqb]. unfold ret.
    cbn [StorageProvider.isAvailable BrowserStorage_provider].
    unfold BrowserStorage.isAvailable, try_catch. rewrite bind_eq.
    unfold localforage.ready. rewrite Hup1'. unfold ret.
    cbn [StorageProvider.importData BrowserStorage_provider].
    unfold JSON_stringify. cbn [json_of].
    rewrite browser_importData_object by exact Hup1'. reflexivity. }
  assert (forall k, is_Some (store !! k) <->
                    k = "workspaces" \/ k = "pages" \/ k = "exportDate") as Hkeys.
  { intros k. subst store. cbn [fold_left fst snd].
    rewrite !lookup_insert_is_Some, lookup_empty. split.
    - intros [<- | (_ & [<- | (_ & [<- | (_ & H)])])]; auto.
      destruct H as [x H]. discriminate H.
    - intros [-> | [-> | ->]].
      + right. split; [discriminate|]. right. split; [discriminate|]. left. reflexivity.
      + right. split; [discriminate|]. left. reflexivity.
      + left. reflexivity. }
  rewrite E. cbn [fst snd]. split; [reflexivity|]. split; [reflexivity|].
  split; [exact Hd1|]. split; [exact Hkeys|]. split.
  - change StorageManager.getAllWorkspaces with (manager_call OpGetAllWorkspaces).
    rewrite manager_call_eq.
    cbn [provider_call StorageManager.provider m3 StorageProvider.getAllWorkspaces
           BrowserStorage_provider].
    unfold BrowserStorage.getAllWorkspaces, try_catch. rewrite bind_eq.
    unfold localforage.keys. rewrite bind_eq. unfold localforage.ready.
    change (idb_up w3) with (idb_up w1). rewrite Hup1'. unfold gets.
    rewrite filter_nothing; [reflexivity|].
    intros k Hk. apply list_elem_of_fmap in Hk as ([k' v] & -> & Hin).
    apply elem_of_map_to_list in Hin. cbn [fst idb set_idb w3] in *.
    assert (is_Some (store !! k')) as Hs by eauto.
    apply Hkeys in Hs as [-> | [-> | ->]]; reflexivity.
  - intros id.
    change (StorageManager.getWorkspace id) with (manager_call (OpGetWorkspace id)).
    rewrite manager_call_eq.
    cbn [provider_call StorageManager.provider m3 StorageProvider.getWorkspace
           BrowserStorage_provider].
    unfold BrowserStorage.getWorkspace, try_catch.
    rewrite lf_getItem_up by exact Hup1'. cbn [fst].
    destruct (idb w3 !! ("workspace_" +:+ id)) as [v|] eqn:Hv; [|reflexivity].
    exfalso. assert (is_Some (store !! ("workspace_" +:+ id))) as Hs by eauto.
    apply Hkeys in Hs. rewrite ?app_cons, ?app_empty in Hs.
    destruct Hs as [H|[H|H]]; discriminate H.
Qed.

Lemma migration_local_to_browser_witness :
  fst (StorageManager.migrateData browser_config (local_manager, world_local1)) = Ok tt /\
  fst (StorageManager.getAllWorkspaces
         (snd (StorageManager.migrateData browser_config (local_manager, world_local1))))
  = Ok [].
Proof.
  destruct (migration_local_to_browser 0%nat local_config browser_config world_local1
              (or_intror (conj eq_refl eq_refl)) world_local1_named_by_id
              eq_refl eq_refl) as (H1 & _ & _ & _ & H2 & _).
  exact (conj H1 H2).
Defined.
